(** * Who's Most: a shallow embedding of the browser clients

    The repository holds the three React pages of the party game (player,
    organizer, spectator) and the organizer's lobby and review screens.
    Every component is modelled as a record of its [useState] cells and
    [useRef] cells together with the part of the browser it talks to
    (session storage, pending timers, messages handed to the socket), and
    every handler as a function on that record.  Sound and vibration calls
    are left out: they read and write none of the modelled state.

    Numbers are JavaScript numbers (binary64).  The ones the pages handle
    are whole (ids, counts, seconds, ranks) and are modelled as [Z]; the
    one place where a page computes with a number that may be large, the
    [maxId + 1] of the review screen, carries the rounding of binary64
    ([Js.plus_one]). *)

From Stdlib Require Import ZArith String List Bool Lia Arith.
From coqutil Require Import Datatypes.RecordSetters.
Import ListNotations.
Import DoubleBraceUpdate.
Local Open Scope Z_scope.
Local Open Scope string_scope.

(* ================================================================= *)
(** ** JavaScript idioms used by the handlers *)

Module Js.

(** [x || d] on a number that may be missing: [undefined] and [0] are falsy. *)
Definition orZ (x : option Z) (d : Z) : Z :=
  match x with
  | Some v => if Z.eqb v 0 then d else v
  | None => d
  end.

(** [x || d] on a string that may be missing: [undefined] and [''] are falsy. *)
Definition orString (x : option string) (d : string) : string :=
  match x with
  | Some v => if String.eqb v "" then d else v
  | None => d
  end.

(** [x || []] on an array that may be missing: every array is truthy. *)
Definition orList {A : Type} (x : option (list A)) : list A :=
  match x with
  | Some l => l
  | None => []
  end.

(** [x ?? y]: only [null] and [undefined] fall through. *)
Definition nullish {A : Type} (x y : option A) : option A :=
  match x with
  | Some v => Some v
  | None => y
  end.

(** [a[i] || null] on an array of objects: an index past the end reads
    [undefined], which becomes [null]; an object is always truthy. *)
Definition at_or_null {A : Type} (a : list A) (i : nat) : option A :=
  nth_error a i.

(** [a.slice(0, n)] *)
Definition slice0 {A : Type} (n : nat) (a : list A) : list A := firstn n a.

(** [Math.max(0, ...xs)] *)
Definition max0 (xs : list Z) : Z := fold_right Z.max 0 xs.

(** [Number.isSafeInteger(x)]: a whole number of magnitude below 2^53.
    Every such number is a binary64 value, and so is its successor. *)
Definition safe_integer (x : Z) : Prop := - 2 ^ 53 < x < 2 ^ 53.

(** [x + 1] on a whole number [0 <= x] held as binary64.  Up to 2^53 the
    sum is exact.  From 2^53 to 2^54 the doubles are the even numbers, so
    [x + 1] lies half way between [x] and [x + 2] and is rounded to the one
    whose mantissa, [x / 2], is even.  From 2^54 on the doubles are four or
    more apart and the sum is rounded back to [x]. *)
Definition plus_one (x : Z) : Z :=
  if Z.ltb x (2 ^ 53) then x + 1
  else if Z.ltb x (2 ^ 54) then (if Z.even (x / 2) then x else x + 2)
  else x.

(** [a.findIndex(f)]: the index of the first element [f] holds for, [-1]
    when there is none. *)
Fixpoint findIndex_from {A : Type} (f : A -> bool) (i : Z) (a : list A) : Z :=
  match a with
  | [] => -1
  | x :: rest => if f x then i else findIndex_from f (i + 1) rest
  end.

Definition findIndex {A : Type} (f : A -> bool) (a : list A) : Z :=
  findIndex_from f 0 a.

(** [obj[key]] on a [Record<string, number>]. *)
Fixpoint lookup (key : string) (obj : list (string * Z)) : option Z :=
  match obj with
  | [] => None
  | (k, v) :: rest => if String.eqb k key then Some v else lookup key rest
  end.

(** [s.replace(/[^...]/g, '')] for a character class: the characters of
    the class are kept.  [s.slice(0, n)].  Whether all characters of [s]
    are of a class. *)
Fixpoint keep (f : Ascii.ascii -> bool) (s : string) : string :=
  match s with
  | EmptyString => EmptyString
  | String a rest => if f a then String a (keep f rest) else keep f rest
  end.

Fixpoint take (n : nat) (s : string) : string :=
  match n, s with
  | O, _ => EmptyString
  | _, EmptyString => EmptyString
  | S k, String a rest => String a (take k rest)
  end.

Fixpoint every (f : Ascii.ascii -> bool) (s : string) : bool :=
  match s with
  | EmptyString => true
  | String a rest => f a && every f rest
  end.

(** [String.prototype.toUpperCase] on ASCII text; the handlers take
    [toUpperCase] as a parameter, this one runs them. *)
Definition upper_char (a : Ascii.ascii) : Ascii.ascii :=
  let n := Ascii.nat_of_ascii a in
  if (97 <=? n)%nat && (n <=? 122)%nat then Ascii.ascii_of_nat (n - 32) else a.

Fixpoint upper_ascii (s : string) : string :=
  match s with
  | EmptyString => EmptyString
  | String a rest => String (upper_char a) (upper_ascii rest)
  end.

(** [String.prototype.trim] on ASCII text: tab, line feed, vertical tab,
    form feed, carriage return and space are the white space there.  The
    handlers below take [trim] as a parameter; this one runs them. *)
Definition is_space (a : Ascii.ascii) : bool :=
  match Ascii.nat_of_ascii a with
  | 9%nat | 10%nat | 11%nat | 12%nat | 13%nat | 32%nat => true
  | _ => false
  end.

Fixpoint trim_start (s : string) : string :=
  match s with
  | EmptyString => EmptyString
  | String a rest => if is_space a then trim_start rest else s
  end.

Fixpoint trim_end (s : string) : string :=
  match s with
  | EmptyString => EmptyString
  | String a rest =>
      match trim_end rest with
      | EmptyString => if is_space a then EmptyString else String a EmptyString
      | kept => String a kept
      end
  end.

Definition trim_ascii (s : string) : string := trim_end (trim_start s).

End Js.

(* ================================================================= *)
(** ** types.ts *)

Module Types.

(** [id: number]: "an integer id", a whole JavaScript number. *)
Record Prompt := { id : Z; text : string }.

Record PromptPack := { title : string; prompts : list Prompt }.

Record PlayerInfo := { nickname : string; avatar : string }.

Record Vote := { voter : string; target : string }.

(** The fields of [PodiumEntry], [LeaderboardEntry] and [Superlative] carry a
    prefix because Rocq keeps all projections in one name space. *)
Record PodiumEntry := {
  pe_nickname : string;
  pe_avatar : string;
  vote_count : Z;
  rank : Z
}.

Record RoundResult := {
  rr_prompt : Prompt;
  votes : list Vote;
  podium : list PodiumEntry;
  majority_winner : string;
  prediction_points : list (string * Z)
}.

Record LeaderboardEntry := {
  le_nickname : string;
  le_avatar : string;
  score : Z;
  le_rank : Z;
  rank_change : Z
}.

Record Superlative := {
  sup_title : string;
  winner : string;
  sup_avatar : string;
  detail : string
}.

Record GameSettings := { timer_seconds : Z; show_votes : bool }.

End Types.
Import Types.

(* ================================================================= *)
(** ** The messages a room sends to its clients

    One constructor per [msg.type] the pages test for, carrying the fields
    the handlers read.  A field a handler guards with [||], [??], [?.] or
    [if (msg.x)] is optional; the others are the fields the protocol always
    sends.  [msg.state] stays the string the server wrote. *)

Module Protocol.

Record Reconnected := {
  rc_state : string;
  rc_question_number : option Z;
  rc_total_questions : option Z;
  rc_players : option (list PlayerInfo);
  rc_prompt : option Prompt;
  rc_timer_seconds : option Z;
  rc_time_remaining : option Z
}.

Record OrganizerReconnected := {
  orc_room_code : string;
  orc_player_count : Z;
  orc_players : option (list PlayerInfo);
  orc_total_questions : option Z;
  orc_timer_seconds : option Z;
  orc_state : string;
  orc_question_number : option Z;
  orc_time_remaining : option Z;
  orc_voted_count : option Z;
  orc_prompt : option Prompt;
  orc_leaderboard : option (list LeaderboardEntry);
  orc_superlatives : option (list Superlative)
}.

Record SpectatorSync := {
  ss_state : string;
  ss_players : option (list PlayerInfo);
  ss_player_count : Z;
  ss_question_number : option Z;
  ss_total_questions : option Z
}.

Record Question := {
  q_prompt : option Prompt;
  q_question_number : Z;
  q_total_questions : Z;
  q_timer_seconds : Z;
  q_players : option (list PlayerInfo)
}.

Record RoundResultMsg := {
  m_prompt : Prompt;
  m_votes : option (list Vote);
  m_podium : option (list PodiumEntry);
  m_majority_winner : option string;
  m_prediction_points : option (list (string * Z))
}.

Record Podium := {
  m_leaderboard : option (list LeaderboardEntry);
  m_superlatives : option (list Superlative);
  m_round_history : option (list RoundResult)
}.

Inductive ServerMsg :=
| ERROR (message : string)
| KICKED
| JOINED_ROOM
| RECONNECTED (m : Reconnected)
| ORGANIZER_RECONNECTED (m : OrganizerReconnected)
| SPECTATOR_SYNC (m : SpectatorSync)
| PLAYER_JOINED (player_count : Z) (players : option (list PlayerInfo))
| PLAYER_LEFT (player_count : Z) (players : option (list PlayerInfo))
| GAME_STARTING
| QUESTION (m : Question)
| TIMER (remaining : Z)
| VOTE_COUNT (voted : Z)
| ROUND_RESULT (m : RoundResultMsg)
| PODIUM (m : Podium)
| ROOM_RESET (player_count : Z) (players : option (list PlayerInfo))
| OTHER (type : string).

(** The messages a client sends. *)
Inductive ClientMsg :=
| JOIN (nickname avatar : string)
| VOTE (target_nickname : string)
| START_GAME
| NEXT_QUESTION
| SKIP_QUESTION
| END_GAME
| RESET_ROOM (pack_data : PromptPack) (timer_seconds : Z) (show_votes : bool).

(** The [RoundResult] all three pages build from a [ROUND_RESULT] message. *)
Definition round_result_of (m : RoundResultMsg) : RoundResult :=
  {| rr_prompt := m_prompt m;
     votes := Js.orList (m_votes m);
     podium := Js.orList (m_podium m);
     majority_winner := Js.orString (m_majority_winner m) "";
     prediction_points := Js.orList (m_prediction_points m) |}.

Definition is_vote (c : ClientMsg) : bool :=
  match c with VOTE _ => true | _ => false end.

Definition is_start_game (c : ClientMsg) : bool :=
  match c with START_GAME => true | _ => false end.

Definition is_next_question (c : ClientMsg) : bool :=
  match c with NEXT_QUESTION => true | _ => false end.

End Protocol.

(* ================================================================= *)
(** ** A small game to run the pages on *)

Module Sample.

Definition roster3 : list PlayerInfo :=
  [ {| nickname := "Alex"; avatar := "a" |};
    {| nickname := "Jordan"; avatar := "j" |};
    {| nickname := "Sam"; avatar := "s" |} ].

Definition question1 : Protocol.Question :=
  {| Protocol.q_prompt := Some {| id := 1; text := "Who forgets birthdays?" |};
     Protocol.q_question_number := 1;
     Protocol.q_total_questions := 5;
     Protocol.q_timer_seconds := 30;
     Protocol.q_players := Some roster3 |}.

Definition result1 : Protocol.RoundResultMsg :=
  {| Protocol.m_prompt := {| id := 1; text := "Who forgets birthdays?" |};
     Protocol.m_votes := Some [ {| voter := "Alex"; target := "Jordan" |} ];
     Protocol.m_podium := Some [ {| pe_nickname := "Jordan"; pe_avatar := "j";
                                    vote_count := 1; rank := 1 |} ];
     Protocol.m_majority_winner := Some "Jordan";
     Protocol.m_prediction_points := Some [ ("Alex", 1) ] |}.

(** A podium of three, in the order the room sends it. *)
Definition podium_of_three : list PodiumEntry :=
  [ {| pe_nickname := "Jordan"; pe_avatar := "j"; vote_count := 3; rank := 1 |};
    {| pe_nickname := "Alex"; pe_avatar := "a"; vote_count := 2; rank := 2 |};
    {| pe_nickname := "Sam"; pe_avatar := "s"; vote_count := 1; rank := 3 |} ].

Definition pack3 : PromptPack :=
  {| title := "Party Night";
     prompts := [ {| id := 1; text := "Who forgets birthdays?" |};
                  {| id := 2; text := "Who is always late?" |};
                  {| id := 3; text := "Who sings in the shower?" |} ] |}.

(** The tie of the specification's scenario: Riley joins, Sam and Alex
    get two votes each. *)
Definition roster4 : list PlayerInfo :=
  (roster3 ++ [ {| nickname := "Riley"; avatar := "r" |} ])%list.

Definition tie_votes : list Vote :=
  [ {| voter := "Alex"; target := "Sam" |};
    {| voter := "Jordan"; target := "Sam" |};
    {| voter := "Sam"; target := "Alex" |};
    {| voter := "Riley"; target := "Alex" |} ].

Definition podium1 : Protocol.Podium :=
  {| Protocol.m_leaderboard := Some [ {| le_nickname := "Jordan"; le_avatar := "j";
                                         score := 1; le_rank := 1; rank_change := 0 |} ];
     Protocol.m_superlatives := Some [ {| sup_title := "Most Votes"; winner := "Jordan";
                                          sup_avatar := "j"; detail := "1 vote" |} ];
     Protocol.m_round_history := None |}.

End Sample.

(* ================================================================= *)
(** ** The reveal screen shared by the three pages

    Each page draws the podium with the same inline function; only the bar
    heights differ.  [EmptySlot] is the bare [<div className="podium-slot" />]. *)

Module Reveal.

Inductive Slot :=
| EmptySlot (displayIdx : nat)
| EntrySlot (entry : PodiumEntry) (height : Z) (crown : bool).

(** [heightMap[rank] || 60] for [{ 1: h1, 2: h2, 3: h3 }] *)
Definition height_of (h1 h2 h3 : Z) (rank : Z) : Z :=
  Js.orZ (if Z.eqb rank 1 then Some h1
          else if Z.eqb rank 2 then Some h2
          else if Z.eqb rank 3 then Some h3
          else None) 60.

Definition slot (heights : Z -> Z) (displayIdx : nat) (entry : option PodiumEntry) : Slot :=
  match entry with
  | None => EmptySlot displayIdx
  | Some e => EntrySlot e (heights (rank e)) (Z.eqb (rank e) 1)
  end.

Fixpoint mapi {A B : Type} (f : nat -> A -> B) (i : nat) (l : list A) : list B :=
  match l with
  | [] => []
  | x :: rest => f i x :: mapi f (S i) rest
  end.

Definition podium_slots (heights : Z -> Z) (podium : list PodiumEntry) : list Slot :=
  let top3 := Js.slice0 3 podium in
  let ordered := [ Js.at_or_null top3 1; Js.at_or_null top3 0; Js.at_or_null top3 2 ] in
  mapi (slot heights) 0 ordered.

(** One row of the vote breakdown: the voter as printed, and the target. *)
Definition Row : Type := string * string.

Record View := {
  slots : list Slot;
  breakdown : option (list Row)
}.

End Reveal.

(* ================================================================= *)
(** ** components/organizer/LobbyScreen.tsx *)

Module LobbyScreen.

Definition minPlayers : Z := 3.

Definition canStart (playerCount : Z) : bool := Z.geb playerCount minPlayers.

Inductive Label := StartGame | NeedPlayersToStart (n : Z).

(** The Start button: [disabled={!canStart}], and the "(need n more)" note
    of the player count line. *)
Record View := {
  disabled : bool;
  label : Label;
  need_more : option Z
}.

Definition render (playerCount : Z) : View :=
  {| disabled := negb (canStart playerCount);
     label := if canStart playerCount then StartGame else NeedPlayersToStart minPlayers;
     need_more :=
       if Z.eqb playerCount 0 then None
       else if canStart playerCount then None
       else Some (minPlayers - playerCount) |}.

(** A click on the Start button: a disabled button runs no [onClick]. *)
Definition click {A : Type} (playerCount : Z) (onStartGame : A -> A) (a : A) : A :=
  if disabled (render playerCount) then a else onStartGame a.

End LobbyScreen.

(* ================================================================= *)
(** ** components/organizer/ReviewScreen.tsx *)

Module ReviewScreen.

Record t := {
  editingId : option Z;
  editText : string;
  addingNew : bool;
  newPromptText : string
}.

Definition initial : t :=
  {| editingId := None; editText := ""; addingNew := false; newPromptText := "" |}.

Section Handlers.

Variable trim : string -> string.

Definition blank (s : string) : bool := String.eqb (trim s) "".

(** [p.id === editingId]; [editingId] may be [null]. *)
Definition is_editing (editingId : option Z) (p : Prompt) : bool :=
  match editingId with
  | Some i => Z.eqb (id p) i
  | None => false
  end.

Definition startEdit (p : Prompt) (s : t) : t :=
  s{{ editingId := Some (id p); editText := text p }}.

Definition cancelEdit (s : t) : t :=
  s{{ editingId := None; editText := "" }}.

(** The three edits return the new local state and the pack handed to
    [onUpdatePack], if the handler got that far. *)
Definition saveEdit (pack : PromptPack) (s : t) : t * option PromptPack :=
  if blank (editText s) then (s, None)
  else
    let updated :=
      {| title := title pack;
         prompts := map (fun p => if is_editing (editingId s) p
                                  then {| id := id p; text := trim (editText s) |}
                                  else p)
                        (prompts pack) |} in
    (s{{ editingId := None; editText := "" }}, Some updated).

Definition deletePrompt (pack : PromptPack) (i : Z) (s : t) : t * option PromptPack :=
  if (List.length (prompts pack) <=? 3)%nat then (s, None)
  else
    let updated :=
      {| title := title pack;
         prompts := filter (fun p => negb (Z.eqb (id p) i)) (prompts pack) |} in
    (s, Some updated).

Definition addPrompt (pack : PromptPack) (s : t) : t * option PromptPack :=
  if blank (newPromptText s) then (s, None)
  else
    let maxId := Js.max0 (map id (prompts pack)) in
    let updated :=
      {| title := title pack;
         prompts := (prompts pack ++ [ {| id := Js.plus_one maxId;
                                          text := trim (newPromptText s) |} ])%list |} in
    (s{{ newPromptText := ""; addingNew := false }}, Some updated).

(** The delete button of a card is drawn only while the pack has more
    than three prompts. *)
Definition delete_shown (pack : PromptPack) : bool :=
  (3 <? List.length (prompts pack))%nat.

End Handlers.

(** The ids of a pack, the pack with one prompt whose id is negative, and
    a pack that holds the id 2^53. *)
Definition ids (pack : PromptPack) : list Z := map id (prompts pack).



Definition typing_new (s : string) : t :=
  {| editingId := None; editText := ""; addingNew := true; newPromptText := s |}.

End ReviewScreen.

(* ================================================================= *)
(** ** PlayerPage.tsx (the /join page) *)

Module PlayerPage.

Inductive PlayerState :=
| JOIN | LOBBY | QUESTION | VOTED | REVEAL | PODIUM | RECONNECTING.

(** The triple [{ roomCode, nickname, avatar }].  It is what is stored under
    [whosmost_session], and it is what the handlers installed by one call
    of [joinRoom] close over: they keep the values of the render that made
    the call, also for the [joinRoom] they schedule again. *)
Record Saved := {
  sv_roomCode : string;
  sv_nickname : string;
  sv_avatar : string
}.

(** The [useState] cells, the [useRef] cells, and the browser around them:
    the [whosmost_session] entry of [sessionStorage], the pending
    [setTimeout(() => joinRoom(), ...)] calls, and the messages a socket
    took from [send] without throwing.  [wsRef] says what the socket held
    was made with, [wsReady] whether its [readyState] is past CONNECTING:
    whether it has opened or closed.  ([onclose] leaves the socket in
    [wsRef]; a socket that has closed still takes a message, and drops
    it.) *)
Record t := {
  state : PlayerState;
  roomCode : string;
  nickname : string;
  avatar : string;
  error : string;
  lobbyPlayers : list PlayerInfo;
  currentPromptText : string;
  questionNumber : Z;
  totalQuestions : Z;
  timerSeconds : Z;
  timeRemaining : option Z;
  players : list PlayerInfo;
  selectedTarget : option string;
  hasVoted : bool;
  roundResult : option RoundResult;
  myPredictionPoints : Z;
  leaderboard : list LeaderboardEntry;
  superlatives : list Superlative;
  wsRef : option Saved;
  wsReady : bool;
  autoJoinedRef : bool;
  kickedRef : bool;
  session : option Saved;
  timers : list Saved;
  sent : list Protocol.ClientMsg
}.

Definition closure (w : t) : Saved :=
  {| sv_roomCode := roomCode w; sv_nickname := nickname w; sv_avatar := avatar w |}.

(** The first render: [roomCode] is [searchParams.get('room') ||
    saved?.roomCode || ''], [avatar] the saved one or a random emoji. *)
Definition initial (room : option string) (saved : option Saved) (emoji : string) : t :=
  {| state := JOIN;
     roomCode := Js.orString room (Js.orString (option_map sv_roomCode saved) "");
     nickname := Js.orString (option_map sv_nickname saved) "";
     avatar := Js.orString (option_map sv_avatar saved) emoji;
     error := "";
     lobbyPlayers := [];
     currentPromptText := "";
     questionNumber := 0;
     totalQuestions := 0;
     timerSeconds := 30;
     timeRemaining := Some 60;
     players := [];
     selectedTarget := None;
     hasVoted := false;
     roundResult := None;
     myPredictionPoints := 0;
     leaderboard := [];
     superlatives := [];
     wsRef := None;
     wsReady := false;
     autoJoinedRef := false;
     kickedRef := false;
     session := saved;
     timers := [];
     sent := [] |}.

(** The mount effect: auto-rejoin on refresh. *)
Definition mount (w : t) : t :=
  match session w, autoJoinedRef w, wsRef w with
  | Some _, false, None => w{{ autoJoinedRef := true; timers ::= fun l => (l ++ [closure w])%list }}
  | _, _, _ => w
  end.

Section Handlers.

(** [String.prototype.trim] *)
Variable trim : string -> string.

(** [!s.trim()] *)
Definition blank (s : string) : bool := String.eqb (trim s) "".

Definition joinRoom (c : Saved) (w : t) : t :=
  if blank (sv_roomCode c) || blank (sv_nickname c) then w
  else w{{ error := ""; kickedRef := false; wsRef := Some c; wsReady := false }}.

(** [ws.onopen]: the socket that opened sends its JOIN. *)
Definition onopen (c : Saved) (w : t) : t :=
  w{{ sent ::= fun l => (l ++ [Protocol.JOIN (sv_nickname c) (sv_avatar c)])%list }}.

Definition set_roster (ps : option (list PlayerInfo)) (w : t) : t :=
  match ps with
  | Some l => w{{ lobbyPlayers := l; players := l }}
  | None => w
  end.

Definition set_players (ps : option (list PlayerInfo)) (w : t) : t :=
  match ps with
  | Some l => w{{ players := l }}
  | None => w
  end.

(** [ws.onmessage] *)
Definition onmessage (c : Saved) (msg : Protocol.ServerMsg) (w : t) : t :=
  match msg with
  | Protocol.ERROR message =>
      let w :=
        if String.eqb message "Room not found"
        then w{{ session := None; state := JOIN }}
        else w in
      w{{ error := message }}
  | Protocol.KICKED =>
      w{{ kickedRef := true; wsRef := None; state := JOIN;
          error := "You joined from another device" }}
  | Protocol.JOINED_ROOM =>
      w{{ session := Some c; state := LOBBY }}
  | Protocol.RECONNECTED m =>
      let w := w{{ session := Some c;
                   questionNumber := Js.orZ (Protocol.rc_question_number m) 0;
                   totalQuestions := Js.orZ (Protocol.rc_total_questions m) 0 }} in
      let w := set_players (Protocol.rc_players m) w in
      if String.eqb (Protocol.rc_state m) "LOBBY" then w{{ state := LOBBY }}
      else if String.eqb (Protocol.rc_state m) "QUESTION" then
        w{{ currentPromptText := Js.orString (option_map text (Protocol.rc_prompt m)) "";
            timerSeconds := Js.orZ (Protocol.rc_timer_seconds m) 60;
            timeRemaining := Js.nullish (Protocol.rc_time_remaining m) (Protocol.rc_timer_seconds m);
            selectedTarget := None;
            hasVoted := false;
            state := QUESTION }}
      else w{{ state := VOTED }}
  | Protocol.PLAYER_JOINED _ ps => set_roster ps w
  | Protocol.PLAYER_LEFT _ ps => set_roster ps w
  | Protocol.GAME_STARTING => w
  | Protocol.QUESTION m =>
      let w := w{{ currentPromptText := Js.orString (option_map text (Protocol.q_prompt m)) "";
                   questionNumber := Protocol.q_question_number m;
                   totalQuestions := Protocol.q_total_questions m;
                   timerSeconds := Protocol.q_timer_seconds m;
                   timeRemaining := Some (Protocol.q_timer_seconds m) }} in
      let w := set_players (Protocol.q_players m) w in
      w{{ selectedTarget := None; hasVoted := false; roundResult := None;
          state := QUESTION }}
  | Protocol.TIMER remaining => w{{ timeRemaining := Some remaining }}
  | Protocol.VOTE_COUNT _ => w
  | Protocol.ROUND_RESULT m =>
      let result := Protocol.round_result_of m in
      w{{ roundResult := Some result;
          myPredictionPoints :=
            Js.orZ (Js.lookup (sv_nickname c) (prediction_points result)) 0;
          state := REVEAL }}
  | Protocol.PODIUM m =>
      w{{ leaderboard := Js.orList (Protocol.m_leaderboard m);
          superlatives := Js.orList (Protocol.m_superlatives m);
          state := PODIUM }}
  | Protocol.ROOM_RESET _ ps =>
      let w := w{{ questionNumber := 0; totalQuestions := 0;
                   selectedTarget := None; hasVoted := false;
                   roundResult := None; leaderboard := []; superlatives := [];
                   myPredictionPoints := 0 }} in
      let w := set_roster ps w in
      w{{ state := LOBBY }}
  | Protocol.ORGANIZER_RECONNECTED _ => w
  | Protocol.SPECTATOR_SYNC _ => w
  | Protocol.OTHER _ => w
  end.

(** [ws.onerror] *)
Definition onerror (w : t) : t := w{{ error := "Connection failed" }}.

(** [ws.onclose].  The rejoin it schedules is the [joinRoom] of the render
    that opened this socket. *)
Definition onclose (c : Saved) (w : t) : t :=
  if kickedRef w then w{{ kickedRef := false }}
  else
    match state w with
    | JOIN => w{{ error := "Room not found" }}
    | PODIUM => w
    | _ => w{{ timers ::= fun l => (l ++ [c])%list; state := RECONNECTING }}
    end.

(** [wsRef.current?.send(...)]: without a socket nothing happens; a socket
    past CONNECTING takes the message; on a socket that is still connecting
    [WebSocket.send] throws, which is [None]. *)
Definition send (m : Protocol.ClientMsg) (w : t) : option t :=
  match wsRef w with
  | None => Some w
  | Some _ =>
      if wsReady w then Some (w{{ sent ::= fun l => (l ++ [m])%list }}) else None
  end.

(** When [send] throws, [submitVote] stops there: the vote is marked as
    cast, nothing was sent, and the question screen stays. *)
Definition submitVote (target : string) (w : t) : t :=
  if hasVoted w then w
  else
    let w := w{{ selectedTarget := Some target; hasVoted := true }} in
    match send (Protocol.VOTE target) w with
    | Some w => w{{ state := VOTED }}
    | None => w
    end.

(** What can happen to the page.  The inputs and the Join button exist on
    the JOIN screen only, the vote cards (one per entry of [players]) on
    the QUESTION screen only.  A socket is named by what it was made with.
    [Open c] and [Close c] are about the socket in [wsRef], when [wsRef]
    holds a socket made with [c]; [OpenEarlier c] and [CloseEarlier c] are
    about a socket that [joinRoom] has replaced in [wsRef] since. *)
Inductive Event :=
| TypeRoomCode (upper : string)
| TypeNickname (value : string)
| PickAvatar (emoji : string)
| ClickJoin
| ClickVote (i : nat)
| Open (c : Saved)
| Message (c : Saved) (msg : Protocol.ServerMsg)
| Error
| Close (c : Saved)
| Timeout
| OpenEarlier (c : Saved)
| CloseEarlier (c : Saved).

Definition same_saved (a b : Saved) : bool :=
  String.eqb (sv_roomCode a) (sv_roomCode b)
  && String.eqb (sv_nickname a) (sv_nickname b)
  && String.eqb (sv_avatar a) (sv_avatar b).

(** The socket made with [c] opens or closes: if it is the one in [wsRef],
    that one is past CONNECTING from now on. *)
Definition past_connecting (c : Saved) (w : t) : t :=
  match wsRef w with
  | Some held => if same_saved held c then w{{ wsReady := true }} else w
  | None => w
  end.

Definition is_state (a b : PlayerState) : bool :=
  match a, b with
  | JOIN, JOIN | LOBBY, LOBBY | QUESTION, QUESTION | VOTED, VOTED
  | REVEAL, REVEAL | PODIUM, PODIUM | RECONNECTING, RECONNECTING => true
  | _, _ => false
  end.

Definition step (e : Event) (w : t) : t :=
  match e with
  | TypeRoomCode v => if is_state (state w) JOIN then w{{ roomCode := v }} else w
  | TypeNickname v => if is_state (state w) JOIN then w{{ nickname := v }} else w
  | PickAvatar v => if is_state (state w) JOIN then w{{ avatar := v }} else w
  | ClickJoin => if is_state (state w) JOIN then joinRoom (closure w) w else w
  | ClickVote i =>
      if is_state (state w) QUESTION then
        match nth_error (players w) i with
        | Some p => submitVote (Types.nickname p) w
        | None => w
        end
      else w
  | Open c => past_connecting c (onopen c w)
  | OpenEarlier c => onopen c w
  | CloseEarlier c => onclose c w
  | Message c msg => onmessage c msg w
  | Error => onerror w
  | Close c => onclose c (past_connecting c w)
  | Timeout =>
      match timers w with
      | c :: rest => joinRoom c (w{{ timers := rest }})
      | [] => w
      end
  end.

Definition run (evs : list Event) (w : t) : t :=
  fold_left (fun w e => step e w) evs w.

(** The messages after which the page lets the player vote again. *)
Definition reopens_vote (msg : Protocol.ServerMsg) : bool :=
  match msg with
  | Protocol.QUESTION _ => true
  | Protocol.RECONNECTED m => String.eqb (Protocol.rc_state m) "QUESTION"
  | Protocol.ROOM_RESET _ _ => true
  | _ => false
  end.

Definition reopens (e : Event) : bool :=
  match e with
  | Message _ msg => reopens_vote msg
  | _ => false
  end.

End Handlers.

Definition votes_sent (w : t) : nat :=
  List.length (filter Protocol.is_vote (sent w)).

(** Alex typed the room code and a nickname, joined, and is shown the
    first question. *)
Definition alex : Saved :=
  {| sv_roomCode := "ABCD"; sv_nickname := "Alex"; sv_avatar := "a" |}.

Definition voting_page : t :=
  run Js.trim_ascii
      [ TypeRoomCode "ABCD"; TypeNickname "Alex"; PickAvatar "a"; ClickJoin; Open alex;
        Message alex Protocol.JOINED_ROOM;
        Message alex (Protocol.QUESTION Sample.question1) ]
      (initial None None "x").

(** The VOTE messages a page sent, as the room reads them: votes of the
    player [name], whose connection they came in on. *)
Definition votes_cast (name : string) (w : t) : list Vote :=
  flat_map (fun m => match m with
                     | Protocol.VOTE whom => [ {| voter := name; target := whom |} ]
                     | _ => []
                     end)
           (sent w).

(** The pages a run goes through, one after each event. *)
Fixpoint along (trim : string -> string) (evs : list Event) (w : t) : list t :=
  match evs with
  | [] => []
  | e :: rest => step trim e w :: along trim rest (step trim e w)
  end.

(** The snapshot for a player who reconnects while question 1 is open. *)
Definition back_in_question1 : Protocol.Reconnected :=
  {| Protocol.rc_state := "QUESTION";
     Protocol.rc_question_number := Some 1;
     Protocol.rc_total_questions := Some 5;
     Protocol.rc_players := Some Sample.roster3;
     Protocol.rc_prompt := Some {| id := 1; text := "Who forgets birthdays?" |};
     Protocol.rc_timer_seconds := Some 30;
     Protocol.rc_time_remaining := Some 12 |}.

(** Alex votes for Jordan, loses the connection, is reconnected into the
    same question, and votes for Sam. *)
Definition vote_reconnect_vote : list Event :=
  [ ClickVote 1; Close alex; Timeout; Open alex;
    Message alex (Protocol.RECONNECTED back_in_question1); ClickVote 2 ].


(** What a round has brought the player so far. *)
Definition same_round (w w' : t) : Prop :=
  hasVoted w' = hasVoted w /\ selectedTarget w' = selectedTarget w
  /\ roundResult w' = roundResult w /\ myPredictionPoints w' = myPredictionPoints w
  /\ questionNumber w' = questionNumber w /\ totalQuestions w' = totalQuestions w
  /\ players w' = players w /\ lobbyPlayers w' = lobbyPlayers w
  /\ leaderboard w' = leaderboard w /\ superlatives w' = superlatives w
  /\ session w' = session w /\ sent w' = sent w.

(** Where a message handed to a socket by one step can come from. *)
Definition sent_from (e : Event) (w : t) (m : Protocol.ClientMsg) : Prop :=
  match m with
  | Protocol.VOTE name =>
      (exists i p, e = ClickVote i /\ nth_error (players w) i = Some p
                   /\ Types.nickname p = name)
      /\ state w = QUESTION /\ hasVoted w = false /\ wsRef w <> None
      /\ wsReady w = true
  | Protocol.JOIN name emoji =>
      exists c, (e = Open c \/ e = OpenEarlier c)
                /\ name = sv_nickname c /\ emoji = sv_avatar c
  | _ => False
  end.

(** The card "You finished #n" of the final screen: [myRank] is
    [leaderboard.findIndex(e => e.nickname === nickname) + 1], the points are
    [leaderboard[myRank - 1]?.score || 0], and there is no card unless
    [myRank > 0]. *)
Definition myRank (w : t) : Z :=
  Js.findIndex (fun e => String.eqb (le_nickname e) (nickname w)) (leaderboard w) + 1.

Definition final_card (w : t) : option (Z * Z) :=
  if Z.ltb 0 (myRank w)
  then Some (myRank w,
             Js.orZ (option_map score (nth_error (leaderboard w) (Z.to_nat (myRank w - 1)))) 0)
  else None.

(** The reveal screen, drawn when [state === 'REVEAL' && roundResult].  The
    page has no [show_votes] cell: it lists whatever votes the message
    carried, printing the player's own vote as "You". *)
Definition reveal (w : t) : option Reveal.View :=
  match state w, roundResult w with
  | REVEAL, Some r =>
      Some {| Reveal.slots := Reveal.podium_slots (Reveal.height_of 140 110 80) (podium r);
              Reveal.breakdown :=
                if (0 <? List.length (votes r))%nat
                then Some (map (fun v => (if String.eqb (voter v) (nickname w)
                                          then "You" else voter v,
                                          target v))
                               (votes r))
                else None |}
  | _, _ => None
  end.

End PlayerPage.

(* ================================================================= *)
(** ** OrganizerPage.tsx (the / and /organizer page) *)

Module OrganizerPage.

Inductive OrganizerState :=
| PROMPT | LOADING | REVIEW | ROOM | QUESTION | REVEAL | PODIUM.

Definition state_eqb (a b : OrganizerState) : bool :=
  match a, b with
  | PROMPT, PROMPT | LOADING, LOADING | REVIEW, REVIEW | ROOM, ROOM
  | QUESTION, QUESTION | REVEAL, REVEAL | PODIUM, PODIUM => true
  | _, _ => false
  end.

(** The socket held in [wsRef]: the room code and the token its URL was
    built from, and whether [readyState] is [OPEN]. *)
Record WebSocket := {
  ws_code : string;
  ws_token : string;
  ws_open : bool
}.

(** The [useState] and [useRef] cells and the browser around them.  The
    cells of the prompt form ([vibe], [customTheme], [numPrompts],
    [provider], [providers]) and [networkIp] only feed the HTTP requests and
    the join URL and are left out.  [autoCleanup] says whether the last run
    of the auto-advance effect returned a cleanup; [intervals] are the
    [setInterval] timers still alive, [nextTimer] the id the next one gets,
    [reconnects] the pending [setTimeout(() => connectWs(...), 2000)]. *)
Record t := {
  state : OrganizerState;
  pack : option PromptPack;
  packId : string;
  timerSeconds : Z;
  showVotes : bool;
  roomCode : string;
  playerCount : Z;
  players : list PlayerInfo;
  currentPromptText : string;
  questionNumber : Z;
  totalQuestions : Z;
  timeRemaining : option Z;
  votedCount : Z;
  roundResult : option RoundResult;
  leaderboard : list LeaderboardEntry;
  superlatives : list Superlative;
  roundHistory : list RoundResult;
  selectedTarget : option string;
  hasVoted : bool;
  autoAdvance : bool;
  autoCountdown : Z;
  autoTimerRef : option nat;
  wsRef : option WebSocket;
  stateRef : OrganizerState;
  roomCodeRef : string;
  organizerTokenRef : string;
  autoCleanup : bool;
  intervals : list nat;
  nextTimer : nat;
  reconnects : nat;
  alerts : list string;
  sent : list Protocol.ClientMsg
}.

Definition initial : t :=
  {| state := PROMPT;
     pack := None;
     packId := "";
     timerSeconds := 30;
     showVotes := true;
     roomCode := "";
     playerCount := 0;
     players := [];
     currentPromptText := "";
     questionNumber := 0;
     totalQuestions := 0;
     timeRemaining := Some 60;
     votedCount := 0;
     roundResult := None;
     leaderboard := [];
     superlatives := [];
     roundHistory := [];
     selectedTarget := None;
     hasVoted := false;
     autoAdvance := true;
     autoCountdown := 0;
     autoTimerRef := None;
     wsRef := None;
     stateRef := PROMPT;
     roomCodeRef := "";
     organizerTokenRef := "";
     autoCleanup := false;
     intervals := [];
     nextTimer := 1;
     reconnects := 0;
     alerts := [];
     sent := [] |}.

(** [wsRef.current?.send(...)]: without a socket nothing happens; an open
    socket takes the message; on a socket that is still connecting
    [WebSocket.send] throws, which is [None].  (The socket in [wsRef] is
    never a closed one: [onclose] empties [wsRef].) *)
Definition send (m : Protocol.ClientMsg) (w : t) : option t :=
  match wsRef w with
  | None => Some w
  | Some ws =>
      if ws_open ws then Some (w{{ sent ::= fun l => (l ++ [m])%list }}) else None
  end.

(** A handler that throws stops there: the page is left as the handler
    had it before the call that threw. *)
Definition or_thrown (r : option t) (before : t) : t :=
  match r with
  | Some w => w
  | None => before
  end.

(** *** The message handler *)

Definition handleWsMessage (msg : Protocol.ServerMsg) (w : t) : t :=
  match msg with
  | Protocol.PLAYER_JOINED n ps => w{{ playerCount := n; players := Js.orList ps }}
  | Protocol.PLAYER_LEFT n ps => w{{ playerCount := n; players := Js.orList ps }}
  | Protocol.GAME_STARTING => w
  | Protocol.QUESTION m =>
      w{{ currentPromptText := Js.orString (option_map text (Protocol.q_prompt m)) "";
          questionNumber := Protocol.q_question_number m;
          totalQuestions := Protocol.q_total_questions m;
          timeRemaining := Some (Protocol.q_timer_seconds m);
          votedCount := 0;
          selectedTarget := None;
          hasVoted := false;
          roundResult := None;
          state := QUESTION }}
  | Protocol.TIMER remaining => w{{ timeRemaining := Some remaining }}
  | Protocol.VOTE_COUNT voted => w{{ votedCount := voted }}
  | Protocol.ROUND_RESULT m =>
      w{{ roundResult := Some (Protocol.round_result_of m); state := REVEAL }}
  | Protocol.PODIUM m =>
      w{{ leaderboard := Js.orList (Protocol.m_leaderboard m);
          superlatives := Js.orList (Protocol.m_superlatives m);
          roundHistory := Js.orList (Protocol.m_round_history m);
          state := PODIUM }}
  | Protocol.ROOM_RESET n ps =>
      w{{ playerCount := n; players := Js.orList ps; state := ROOM }}
  | Protocol.ORGANIZER_RECONNECTED m =>
      let w := w{{ roomCode := Protocol.orc_room_code m;
                   playerCount := Protocol.orc_player_count m;
                   players := Js.orList (Protocol.orc_players m);
                   totalQuestions := Js.orZ (Protocol.orc_total_questions m) 0;
                   timerSeconds := Js.orZ (Protocol.orc_timer_seconds m) 60 }} in
      if String.eqb (Protocol.orc_state m) "LOBBY" then w{{ state := ROOM }}
      else if String.eqb (Protocol.orc_state m) "QUESTION" then
        w{{ questionNumber := Js.orZ (Protocol.orc_question_number m) 0;
            timeRemaining := Js.nullish (Protocol.orc_time_remaining m)
                                        (Protocol.orc_timer_seconds m);
            votedCount := match Protocol.orc_voted_count m with Some v => v | None => 0 end;
            currentPromptText := Js.orString (option_map text (Protocol.orc_prompt m)) "";
            state := QUESTION }}
      else if String.eqb (Protocol.orc_state m) "REVEAL" then w{{ state := REVEAL }}
      else if String.eqb (Protocol.orc_state m) "PODIUM" then
        w{{ leaderboard := Js.orList (Protocol.orc_leaderboard m);
            superlatives := Js.orList (Protocol.orc_superlatives m);
            state := PODIUM }}
      else w
  | Protocol.ERROR message =>
      if String.eqb message "Room not found"
         || String.eqb message "Invalid organizer token"
      then w{{ roomCodeRef := ""; roomCode := ""; state := PROMPT }}
      else w{{ alerts ::= fun l => (l ++ [Js.orString (Some message) "An error occurred"])%list }}
  | Protocol.KICKED => w
  | Protocol.JOINED_ROOM => w
  | Protocol.RECONNECTED _ => w
  | Protocol.SPECTATOR_SYNC _ => w
  | Protocol.OTHER _ => w
  end.

(** *** The socket *)

(** [connectWs(code)]: a socket still held is closed with its [onclose]
    removed, so only the socket in [wsRef] ever runs [onclose]. *)
Definition connectWs (code : string) (w : t) : t :=
  w{{ wsRef := Some {| ws_code := code; ws_token := organizerTokenRef w; ws_open := false |} }}.

Definition activeStates : list OrganizerState := [ROOM; QUESTION; REVEAL; PODIUM].

(** [ws.onclose] *)
Definition onclose (w : t) : t :=
  let w := w{{ wsRef := None }} in
  if negb (String.eqb (roomCodeRef w) "")
     && existsb (state_eqb (stateRef w)) activeStates
  then w{{ reconnects ::= S }}
  else w.

(** *** Actions *)

(** [generatePrompts] up to its request, and its three outcomes. *)
Definition generatePrompts (w : t) : t := w{{ state := LOADING }}.

Definition generated (p : PromptPack) (pack_id : string) (w : t) : t :=
  w{{ pack := Some p; packId := pack_id;
      totalQuestions := Z.of_nat (List.length (prompts p));
      state := REVIEW }}.

Definition generateFailed (notice : string) (w : t) : t :=
  w{{ alerts ::= fun l => (l ++ [notice])%list; state := PROMPT }}.

Definition updatePack (updated : PromptPack) (w : t) : t :=
  w{{ pack := Some updated;
      totalQuestions := Z.of_nat (List.length (prompts updated)) }}.

(** [createRoom]: [Some] is the play-again path, which reuses the room;
    [None] means the request for a new room went out. *)
Definition createRoom (w : t) : option t :=
  match wsRef w, pack w with
  | Some ws, Some p =>
      if negb (String.eqb (roomCode w) "") && ws_open ws
      then Some (w{{ sent ::= fun l =>
                       (l ++ [Protocol.RESET_ROOM p (timerSeconds w) (showVotes w)])%list }})
      else None
  | _, _ => None
  end.

(** The rest of [createRoom], once the new room's data arrived. *)
Definition roomCreated (room_code : string) (organizer_token : option string) (w : t) : t :=
  let w := w{{ roomCode := room_code;
               organizerTokenRef := Js.orString organizer_token "";
               state := ROOM }} in
  connectWs room_code w.

Definition startGame (w : t) : t :=
  match send Protocol.START_GAME w with
  | Some w => or_thrown (send Protocol.NEXT_QUESTION w) w
  | None => w
  end.

Definition nextQuestion (w : t) : t := or_thrown (send Protocol.NEXT_QUESTION w) w.

Definition skipQuestion (w : t) : t := or_thrown (send Protocol.SKIP_QUESTION w) w.

Definition endGame (w : t) : t := or_thrown (send Protocol.END_GAME w) w.

Definition submitVote (target : string) (w : t) : t :=
  if hasVoted w then w
  else
    let w := w{{ selectedTarget := Some target; hasVoted := true }} in
    or_thrown (send (Protocol.VOTE target) w) w.

Definition playAgain (w : t) : t :=
  w{{ questionNumber := 0; leaderboard := []; superlatives := [];
      roundHistory := []; roundResult := None; selectedTarget := None;
      hasVoted := false; state := PROMPT }}.

(** *** Auto-advance *)

(** [if (autoTimerRef.current) { clearInterval(autoTimerRef.current);
    autoTimerRef.current = null; }] *)
Definition clearAuto (w : t) : t :=
  match autoTimerRef w with
  | Some i => w{{ intervals ::= filter (fun j => negb (Nat.eqb j i)); autoTimerRef := None }}
  | None => w
  end.

(** The callback of the interval: the updater given to [setAutoCountdown].
    When [send] throws, the updater has cleared the interval and returns
    no new value: [autoCountdown] stays.  What React then does with the
    page (an updater that throws fails the render) is React's and is not
    modelled: the run goes on from the cells as the updater left them, so
    the runs of the model include those of the page. *)
Definition countdown (w : t) : t :=
  if Z.leb (autoCountdown w) 1 then
    let w := clearAuto w in
    let w := w{{ autoTimerRef := None }} in
    match send Protocol.NEXT_QUESTION w with
    | Some w => w{{ autoCountdown := 0 }}
    | None => w
    end
  else w{{ autoCountdown := autoCountdown w - 1 }}.

(** The body of the effect on [[state, autoAdvance]]. *)
Definition autoAdvanceEffect (w : t) : t :=
  let w := clearAuto w in
  if negb (state_eqb (state w) REVEAL) || negb (autoAdvance w) then
    w{{ autoCountdown := 0; autoCleanup := false }}
  else
    w{{ autoCountdown := 7;
        autoTimerRef := Some (nextTimer w);
        intervals ::= cons (nextTimer w);
        nextTimer ::= S;
        autoCleanup := true }}.

(** The cleanup the effect returned, if it returned one. *)
Definition autoAdvanceCleanup (w : t) : t :=
  if autoCleanup w then clearAuto w else w.

(** The Next button of the auto mode. *)
Definition clickNextAuto (w : t) : t :=
  let w := clearAuto w in
  or_thrown (send Protocol.NEXT_QUESTION w) w.

(** *** Rendering and effects *)

(** The effects React runs after a handler: those whose dependencies
    changed since the render before ([prev]). *)
Definition commit (prev w : t) : t :=
  let state_changed := negb (state_eqb (state prev) (state w)) in
  let code_changed := negb (String.eqb (roomCode prev) (roomCode w)) in
  let auto_changed := state_changed || negb (Bool.eqb (autoAdvance prev) (autoAdvance w)) in
  let w := if auto_changed then autoAdvanceCleanup w else w in
  let w := if state_changed then w{{ stateRef := state w }} else w in
  let w := if code_changed then w{{ roomCodeRef := roomCode w }} else w in
  if auto_changed then autoAdvanceEffect w else w.

(** The reveal screen, drawn when [state === 'REVEAL' && roundResult]. *)
Definition reveal (w : t) : option Reveal.View :=
  match state w, roundResult w with
  | REVEAL, Some r =>
      Some {| Reveal.slots := Reveal.podium_slots (Reveal.height_of 140 110 80) (podium r);
              Reveal.breakdown :=
                if showVotes w && (0 <? List.length (votes r))%nat
                then Some (map (fun v => (voter v, target v)) (votes r))
                else None |}
  | _, _ => None
  end.

(** What can happen to the page.  A button exists only on the screen that
    draws it: Generate on PROMPT; the review controls and Create Room on
    REVIEW (with a pack); Start on ROOM; Skip and End on QUESTION; End,
    Next, Manual and Auto on REVEAL (with a round result); Play Again on
    PODIUM.  [Tick i] is the interval [i] firing. *)
Inductive Event :=
| ClickGenerate
| Generated (p : PromptPack) (pack_id : string)
| GenerateFailed (notice : string)
| ReviewUpdate (updated : PromptPack)
| ReviewTimer (v : Z)
| ReviewToggleVotes
| ReviewBack
| ClickCreateRoom
| RoomCreated (room_code : string) (organizer_token : option string)
| ClickStart
| ClickSkip
| ClickEnd
| ClickNext
| ClickManual
| ClickAuto
| ClickPlayAgain
| Open
| Message (msg : Protocol.ServerMsg)
| Close
| ReconnectTimeout
| Tick (i : nat).

Definition on_review (w : t) : bool :=
  state_eqb (state w) REVIEW && match pack w with Some _ => true | None => false end.

Definition on_reveal (w : t) : bool :=
  state_eqb (state w) REVEAL && match roundResult w with Some _ => true | None => false end.

Definition handle (e : Event) (w : t) : t :=
  match e with
  | ClickGenerate => if state_eqb (state w) PROMPT then generatePrompts w else w
  | Generated p pack_id => generated p pack_id w
  | GenerateFailed notice => generateFailed notice w
  | ReviewUpdate updated => if on_review w then updatePack updated w else w
  | ReviewTimer v => if on_review w then w{{ timerSeconds := v }} else w
  | ReviewToggleVotes => if on_review w then w{{ showVotes := negb (showVotes w) }} else w
  | ReviewBack => if on_review w then w{{ state := PROMPT }} else w
  | ClickCreateRoom =>
      if on_review w then
        match createRoom w with Some w' => w' | None => w end
      else w
  | RoomCreated room_code organizer_token => roomCreated room_code organizer_token w
  | ClickStart =>
      if state_eqb (state w) ROOM then LobbyScreen.click (playerCount w) startGame w else w
  | ClickSkip => if state_eqb (state w) QUESTION then skipQuestion w else w
  | ClickEnd =>
      if state_eqb (state w) QUESTION || on_reveal w then endGame w else w
  | ClickNext =>
      if on_reveal w then
        if autoAdvance w then clickNextAuto w else nextQuestion w
      else w
  | ClickManual =>
      if on_reveal w && autoAdvance w then w{{ autoAdvance := false }} else w
  | ClickAuto =>
      if on_reveal w && negb (autoAdvance w) then w{{ autoAdvance := true }} else w
  | ClickPlayAgain => if state_eqb (state w) PODIUM then playAgain w else w
  | Open =>
      match wsRef w with
      | Some ws => w{{ wsRef := Some {| ws_code := ws_code ws; ws_token := ws_token ws;
                                         ws_open := true |} }}
      | None => w
      end
  | Message msg => handleWsMessage msg w
  | Close => match wsRef w with Some _ => onclose w | None => w end
  | ReconnectTimeout =>
      match reconnects w with
      | S n => connectWs (roomCodeRef w) (w{{ reconnects := n }})
      | O => w
      end
  | Tick i => if existsb (Nat.eqb i) (intervals w) then countdown w else w
  end.

Definition step (e : Event) (w : t) : t := commit w (handle e w).

Definition run (evs : list Event) (w : t) : t :=
  fold_left (fun w e => step e w) evs w.

Definition count_sent (p : Protocol.ClientMsg -> bool) (w : t) : nat :=
  List.length (filter p (sent w)).

(** The NEXT_QUESTION messages the countdown sends along a run: those
    handed to the socket by a [Tick]. *)
Fixpoint auto_sends (evs : list Event) (w : t) : nat :=
  match evs with
  | [] => 0
  | e :: rest =>
      let w' := step e w in
      ((match e with
        | Tick _ => count_sent Protocol.is_next_question w' - count_sent Protocol.is_next_question w
        | _ => 0
        end) + auto_sends rest w')%nat
  end.

(** The countdowns started along a run: the steps after which a new
    interval is alive. *)
Fixpoint countdowns_started (evs : list Event) (w : t) : nat :=
  match evs with
  | [] => 0
  | e :: rest =>
      let w' := step e w in
      ((if (nextTimer w <? nextTimer w')%nat then 1 else 0)
       + countdowns_started rest w')%nat
  end.

(** A page that created room ABCD, saw three players join, started the
    game, and received the first question and its result. *)
Definition first_reveal : t :=
  run [ RoomCreated "ABCD" (Some "token"); Open;
        Message (Protocol.PLAYER_JOINED 3 (Some Sample.roster3)); ClickStart;
        Message (Protocol.QUESTION Sample.question1);
        Message (Protocol.ROUND_RESULT Sample.result1) ] initial.

(** The same game on a page whose organizer switched "Show who voted for
    whom" off on the review screen. *)
Definition reveal_votes_off : t :=
  run [ ClickGenerate; Generated Sample.pack3 "pack-1"; ReviewToggleVotes; ClickCreateRoom;
        RoomCreated "ABCD" (Some "token"); Open;
        Message (Protocol.PLAYER_JOINED 3 (Some Sample.roster3)); ClickStart;
        Message (Protocol.QUESTION Sample.question1);
        Message (Protocol.ROUND_RESULT Sample.result1) ] initial.

(** The countdown runs out, then the organizer presses Manual and Auto. *)
Definition toggle_after_countdown : list Event :=
  (repeat (Tick 1%nat) 7 ++ [ClickManual; ClickAuto] ++ repeat (Tick 2%nat) 7)%list.

(** The socket closes while the result is shown and the countdown runs
    out; and the same with the reconnect made but not yet open. *)
Definition countdown_without_socket : list Event :=
  (Close :: repeat (Tick 1%nat) 7)%list.

Definition countdown_while_connecting : list Event :=
  ([Close; Tick 1%nat; Tick 1%nat; ReconnectTimeout] ++ repeat (Tick 1%nat) 5)%list.

Fixpoint states_along (evs : list Event) (w : t) : list OrganizerState :=
  match evs with
  | [] => []
  | e :: rest => state (step e w) :: states_along rest (step e w)
  end.

(** The cells no effect writes. *)
Definition same_cells (w w' : t) : Prop :=
  state w' = state w /\ pack w' = pack w /\ packId w' = packId w
  /\ timerSeconds w' = timerSeconds w /\ showVotes w' = showVotes w
  /\ roomCode w' = roomCode w /\ playerCount w' = playerCount w
  /\ players w' = players w /\ currentPromptText w' = currentPromptText w
  /\ questionNumber w' = questionNumber w /\ totalQuestions w' = totalQuestions w
  /\ timeRemaining w' = timeRemaining w /\ votedCount w' = votedCount w
  /\ roundResult w' = roundResult w /\ leaderboard w' = leaderboard w
  /\ superlatives w' = superlatives w /\ roundHistory w' = roundHistory w
  /\ selectedTarget w' = selectedTarget w /\ hasVoted w' = hasVoted w
  /\ autoAdvance w' = autoAdvance w /\ wsRef w' = wsRef w
  /\ organizerTokenRef w' = organizerTokenRef w /\ reconnects w' = reconnects w
  /\ alerts w' = alerts w /\ sent w' = sent w.


(** The room, the socket and the settings of a page, and the progress of a
    game cleared. *)
Definition same_room (w w' : t) : Prop :=
  roomCode w' = roomCode w /\ wsRef w' = wsRef w
  /\ timerSeconds w' = timerSeconds w /\ showVotes w' = showVotes w.

Definition progress_cleared (w : t) : Prop :=
  questionNumber w = 0%Z /\ roundResult w = None /\ leaderboard w = []
  /\ superlatives w = [] /\ roundHistory w = [].





(** The sample game at its end, and the organizer playing again with a new
    pack in the same room. *)
Definition after_game : t :=
  run [ ClickEnd; Message (Protocol.PODIUM Sample.podium1) ] first_reveal.


(** What goes out when a handler calls [send] with the messages [ms]: all
    of them on an open socket, none otherwise. *)
Definition emitted (w : t) (ms : list Protocol.ClientMsg) : list Protocol.ClientMsg :=
  match wsRef w with
  | Some ws => if ws_open ws then ms else []
  | None => []
  end.

(** The two refs the close handler reads hold what the page shows. *)
Definition refs_in_sync (w : t) : Prop :=
  stateRef w = state w /\ roomCodeRef w = roomCode w.

(** Where a message handed to the socket by one step can come from: the
    event [e] that happened on the page [w]. *)
Definition sent_from (e : Event) (w : t) (m : Protocol.ClientMsg) : Prop :=
  match m with
  | Protocol.START_GAME =>
      e = ClickStart /\ state w = ROOM /\ LobbyScreen.canStart (playerCount w) = true
  | Protocol.NEXT_QUESTION =>
      (e = ClickStart /\ state w = ROOM /\ LobbyScreen.canStart (playerCount w) = true)
      \/ (e = ClickNext /\ on_reveal w = true)
      \/ (exists i, e = Tick i /\ In i (intervals w) /\ (autoCountdown w <= 1)%Z)
  | Protocol.SKIP_QUESTION => e = ClickSkip /\ state w = QUESTION
  | Protocol.END_GAME =>
      e = ClickEnd /\ (state w = QUESTION \/ on_reveal w = true)
  | Protocol.RESET_ROOM p seconds shown =>
      e = ClickCreateRoom /\ on_review w = true /\ pack w = Some p
      /\ seconds = timerSeconds w /\ shown = showVotes w /\ roomCode w <> ""
      /\ exists ws, wsRef w = Some ws /\ ws_open ws = true
  | Protocol.VOTE _ => False
  | Protocol.JOIN _ _ => False
  end.

(** The cells only the auto-advance code writes. *)
Definition same_timers (w w' : t) : Prop :=
  intervals w' = intervals w /\ autoTimerRef w' = autoTimerRef w
  /\ nextTimer w' = nextTimer w /\ autoCleanup w' = autoCleanup w.

(** [autoTimerRef] holds the one interval alive, and an interval is alive
    only on REVEAL with auto-advance on. *)
Definition auto_consistent (w : t) : Prop :=
  intervals w = match autoTimerRef w with Some i => [i] | None => [] end
  /\ (autoTimerRef w <> None -> state w = REVEAL /\ autoAdvance w = true).

End OrganizerPage.

(* ================================================================= *)
(** ** pages/SpectatorPage.tsx (the /spectator page) *)

Module SpectatorPage.

(** [gameState] is typed as one of CONNECTING, ERROR, DISCONNECTED, LOBBY,
    QUESTION, REVEAL, PODIUM, but SPECTATOR_SYNC stores the string the
    server sent, so the cell holds a string. *)
Record t := {
  roomCode : string;
  roomInput : string;
  joined : bool;
  gameState : string;
  players : list PlayerInfo;
  playerCount : Z;
  promptText : string;
  questionNumber : Z;
  totalQuestions : Z;
  timeRemaining : Z;
  timerSeconds : Z;
  votedCount : Z;
  roundResult : option RoundResult;
  leaderboard : list LeaderboardEntry;
  superlatives : list Superlative;
  podiumReveal : Z
}.

(** [roomFromUrl] is [searchParams.get('room') || '']. *)
Definition initial (roomFromUrl : string) : t :=
  {| roomCode := roomFromUrl;
     roomInput := "";
     joined := negb (String.eqb roomFromUrl "");
     gameState := if String.eqb roomFromUrl "" then "LOBBY" else "CONNECTING";
     players := [];
     playerCount := 0;
     promptText := "";
     questionNumber := 0;
     totalQuestions := 0;
     timeRemaining := 0;
     timerSeconds := 30;
     votedCount := 0;
     roundResult := None;
     leaderboard := [];
     superlatives := [];
     podiumReveal := 0 |}.

(** [ws.onmessage] *)
Definition onmessage (msg : Protocol.ServerMsg) (w : t) : t :=
  match msg with
  | Protocol.SPECTATOR_SYNC m =>
      w{{ gameState := if String.eqb (Protocol.ss_state m) "LOBBY"
                       then "LOBBY" else Protocol.ss_state m;
          players := Js.orList (Protocol.ss_players m);
          playerCount := Protocol.ss_player_count m;
          questionNumber := Js.orZ (Protocol.ss_question_number m) 0;
          totalQuestions := Js.orZ (Protocol.ss_total_questions m) 0 }}
  | Protocol.PLAYER_JOINED n ps =>
      w{{ playerCount := n; players := Js.orList ps; gameState := "LOBBY" }}
  | Protocol.PLAYER_LEFT n ps =>
      w{{ playerCount := n; players := Js.orList ps }}
  | Protocol.GAME_STARTING => w
  | Protocol.QUESTION m =>
      w{{ promptText := Js.orString (option_map text (Protocol.q_prompt m)) "";
          questionNumber := Protocol.q_question_number m;
          totalQuestions := Protocol.q_total_questions m;
          timerSeconds := Protocol.q_timer_seconds m;
          timeRemaining := Protocol.q_timer_seconds m;
          votedCount := 0;
          roundResult := None;
          gameState := "QUESTION" }}
  | Protocol.TIMER remaining => w{{ timeRemaining := remaining }}
  | Protocol.VOTE_COUNT voted => w{{ votedCount := voted }}
  | Protocol.ROUND_RESULT m =>
      w{{ roundResult := Some (Protocol.round_result_of m); gameState := "REVEAL" }}
  | Protocol.PODIUM m =>
      w{{ leaderboard := Js.orList (Protocol.m_leaderboard m);
          superlatives := Js.orList (Protocol.m_superlatives m);
          podiumReveal := 0;
          gameState := "PODIUM" }}
  | Protocol.ROOM_RESET n ps =>
      w{{ players := Js.orList ps; playerCount := n; roundResult := None;
          gameState := "LOBBY" }}
  | Protocol.ERROR _ => w
  | Protocol.KICKED => w
  | Protocol.JOINED_ROOM => w
  | Protocol.RECONNECTED _ => w
  | Protocol.ORGANIZER_RECONNECTED _ => w
  | Protocol.OTHER _ => w
  end.

(** [ws.onerror] and [ws.onclose] *)
Definition onerror (w : t) : t := w{{ gameState := "ERROR" }}.

Definition onclose (w : t) : t := w{{ gameState := "DISCONNECTED" }}.


(** A display that followed the sample game to its end. *)
Definition after_game : t :=
  fold_left (fun w m => onmessage m w)
    [ Protocol.PLAYER_JOINED 3 (Some Sample.roster3);
      Protocol.QUESTION Sample.question1;
      Protocol.ROUND_RESULT Sample.result1;
      Protocol.PODIUM Sample.podium1 ]
    (initial "ABCD").

(** *** The room code screen *)

(** [[A-Z0-9]] *)
Definition is_code_char (a : Ascii.ascii) : bool :=
  let n := Ascii.nat_of_ascii a in
  ((65 <=? n)%nat && (n <=? 90)%nat) || ((48 <=? n)%nat && (n <=? 57)%nat).

Section RoomCode.

(** [String.prototype.toUpperCase] and [String.prototype.trim] *)
Variable toUpperCase : string -> string.
Variable trim : string -> string.

(** [onChange] of the room code input *)
Definition onRoomInput (value : string) (w : t) : t :=
  w{{ roomInput := Js.take 6 (Js.keep is_code_char (toUpperCase value)) }}.

(** [handleJoinRoom]; the address of the page, which it also sets, is not
    read again. *)
Definition handleJoinRoom (w : t) : t :=
  let code := toUpperCase (trim (roomInput w)) in
  if (String.length code <? 4)%nat then w
  else w{{ roomCode := code; joined := true; gameState := "CONNECTING" }}.

(** [disabled] of the Watch Game button *)
Definition watch_disabled (w : t) : bool :=
  (String.length (trim (roomInput w)) <? 4)%nat.

(** The button Try Another Room *)
Definition tryAnotherRoom (w : t) : t :=
  w{{ joined := false; roomInput := "" }}.

(** What can happen to the page: the input, its Enter key and the Watch
    Game button exist until the page has joined; the socket exists once it
    has joined with a room code; Try Another Room is drawn on the error and
    the disconnected screen. *)
Inductive Event :=
| TypeRoom (value : string)
| PressEnter
| ClickWatch
| Message (msg : Protocol.ServerMsg)
| Error
| Close
| ClickTryAnother.

Definition connected (w : t) : bool :=
  joined w && negb (String.eqb (roomCode w) "").

Definition step (e : Event) (w : t) : t :=
  match e with
  | TypeRoom value => if joined w then w else onRoomInput value w
  | PressEnter => if joined w then w else handleJoinRoom w
  | ClickWatch =>
      if joined w then w
      else if watch_disabled w then w else handleJoinRoom w
  | Message msg => if connected w then onmessage msg w else w
  | Error => if connected w then onerror w else w
  | Close => if connected w then onclose w else w
  | ClickTryAnother =>
      if joined w && (String.eqb (gameState w) "ERROR"
                      || String.eqb (gameState w) "DISCONNECTED")
      then tryAnotherRoom w else w
  end.

Definition run (evs : list Event) (w : t) : t :=
  fold_left (fun w e => step e w) evs w.

End RoomCode.

(** A room code as the input leaves it: capital letters and digits. *)
Definition code_shaped (s : string) : Prop :=
  Js.every is_code_char s = true.

(** The reveal screen, drawn when [gameState === 'REVEAL' && roundResult]
    on a joined page. *)
Definition reveal (w : t) : option Reveal.View :=
  if joined w && String.eqb (gameState w) "REVEAL" then
    match roundResult w with
    | Some r =>
        Some {| Reveal.slots := Reveal.podium_slots (Reveal.height_of 160 120 90) (podium r);
                Reveal.breakdown :=
                  if (0 <? List.length (votes r))%nat
                  then Some (map (fun v => (voter v, target v)) (votes r))
                  else None |}
    | None => None
    end
  else None.

End SpectatorPage.

(* ================================================================= *)
(** ** The round close of the room

    The clients only display a podium; the room computes it. *)

Module VotingEngine.

(** Modelled from the spec: the tally of a closed round, computed by the
    room server, whose code is not among the sources.  "Tally: count of
    votes received per target." *)
Definition tally (vs : list Vote) (name : string) : Z :=
  Z.of_nat (List.length (filter (fun v => String.eqb (target v) name) vs)).

(** Modelled from the spec: the podium order of the room server, which is
    not among the sources.  "Targets ranked by descending vote count";
    players with equal counts stay in join order ("first, by stable join
    order, in case of the top tie"). *)
Fixpoint insert_desc (x : PlayerInfo * Z) (l : list (PlayerInfo * Z)) : list (PlayerInfo * Z) :=
  match l with
  | [] => [x]
  | y :: rest => if Z.ltb (snd x) (snd y) then y :: insert_desc x rest else x :: l
  end.

Definition sort_desc (l : list (PlayerInfo * Z)) : list (PlayerInfo * Z) :=
  fold_right insert_desc [] l.

(** Modelled from the spec: the recipients of a round, in podium order.
    "Only players who received at least one vote appear." *)
Definition recipients (roster : list PlayerInfo) (vs : list Vote) : list (PlayerInfo * Z) :=
  sort_desc (filter (fun pn => Z.ltb 0 (snd pn))
                    (map (fun p => (p, tally vs (nickname p))) roster)).

(** Modelled from the spec: the ranks of the room server's podium.  "Ties
    share the same rank (e.g., two players tied for most votes are both
    rank 1, next distinct count is rank 2 - never rank 3)": walking down
    the sorted recipients, the rank moves on by one at every drop of the
    vote count. *)
Definition entry (p : PlayerInfo) (n r : Z) : PodiumEntry :=
  {| pe_nickname := nickname p; pe_avatar := avatar p; vote_count := n; rank := r |}.

Fixpoint rank_from (r prev : Z) (l : list (PlayerInfo * Z)) : list PodiumEntry :=
  match l with
  | [] => []
  | (p, n) :: rest =>
      let r' := if Z.eqb n prev then r else r + 1 in
      entry p n r' :: rank_from r' n rest
  end.

(** Modelled from the spec: the podium of a closed round as the room
    server builds it (no source file of the server is given); the first
    recipient has rank 1. *)
Definition podium_of (roster : list PlayerInfo) (vs : list Vote) : list PodiumEntry :=
  match recipients roster vs with
  | [] => []
  | (p, n) :: rest => entry p n 1 :: rank_from 1 n rest
  end.

(** Modelled from the spec: the majority winner of the room server.  "The
    single player (or first, by stable join order, in case of the top tie)
    with the most votes"; "if nobody voted ... no majority winner is
    declared." *)
Definition majority_winner_of (roster : list PlayerInfo) (vs : list Vote) : option string :=
  match podium_of roster vs with
  | [] => None
  | e :: _ => Some (pe_nickname e)
  end.

(** The ranks along a podium: each entry has at most the votes of the one
    before it, the same rank when the votes are the same, and the next
    rank otherwise. *)
Fixpoint ranked_after (a : PodiumEntry) (l : list PodiumEntry) : Prop :=
  match l with
  | [] => True
  | b :: rest =>
      vote_count b <= vote_count a
      /\ rank b = (if Z.eqb (vote_count b) (vote_count a) then rank a else rank a + 1)
      /\ ranked_after b rest
  end.

(** Sorted by descending vote count. *)
Fixpoint descending (l : list (PlayerInfo * Z)) : Prop :=
  match l with
  | [] => True
  | x :: rest =>
      match rest with
      | [] => True
      | y :: _ => snd y <= snd x
      end /\ descending rest
  end.

(** Modelled from the spec: an open or closed round of the room server,
    whose code is not among the sources: whether it is open, the players
    of the room, and "the in-progress vote set (mapping voter nickname ->
    target nickname, at most one entry per voter)". *)
Record Round := {
  round_open : bool;
  round_players : list PlayerInfo;
  ballots : list Vote
}.

Definition is_player (r : Round) (name : string) : bool :=
  existsb (fun p => String.eqb (nickname p) name) (round_players r).

Definition has_voted (r : Round) (name : string) : bool :=
  existsb (fun v => String.eqb (voter v) name) (ballots r).

(** Modelled from the spec: [submit_vote(round, voter, target)] of the room
    server (not among the sources): "rejected if the round is not open, if
    voter is not a current Room player, if target is not a current Room
    player, or if voter has already voted this round (votes are final - no
    revision)".  A rejected vote leaves the round as it is. *)
Definition submit_vote (r : Round) (v : Vote) : Round :=
  if round_open r && is_player r (voter v) && is_player r (target v)
     && negb (has_voted r (voter v))
  then {| round_open := round_open r; round_players := round_players r;
          ballots := (ballots r ++ [v])%list |}
  else r.

(** The VOTE messages a room receives during one round, in their order. *)
Definition submit_votes (r : Round) (vs : list Vote) : Round :=
  fold_left submit_vote vs r.

(** The accepted votes of one voter. *)
Definition accepted_from (r : Round) (name : string) : list Vote :=
  filter (fun v => String.eqb (voter v) name) (ballots r).

(** The round a room opens. *)
Definition open_round (players : list PlayerInfo) : Round :=
  {| round_open := true; round_players := players; ballots := [] |}.

(** Modelled from the spec: the ROUND_RESULT the room server (not among the
    sources) sends to a connection of each role.  "Vote-breakdown (the
    literal voter->target list) is always computed but only included in
    what is broadcast to players/spectators when show_votes is enabled; it
    is always available to the organizer." *)
Inductive Role := Player | Organizer | Spectator.

Definition round_result_for (role : Role) (settings : GameSettings) (r : RoundResult)
  : Protocol.RoundResultMsg :=
  {| Protocol.m_prompt := rr_prompt r;
     Protocol.m_votes :=
       match role with
       | Organizer => Some (votes r)
       | Player | Spectator => if show_votes settings then Some (votes r) else None
       end;
     Protocol.m_podium := Some (podium r);
     Protocol.m_majority_winner := Some (majority_winner r);
     Protocol.m_prediction_points := Some (prediction_points r) |}.

End VotingEngine.

(* ================================================================= *)
(** ** utils/sound.ts: the settings of the sound manager

    [play] and [tone] drive the audio device and are left out; the two
    settings and where they are kept are modelled. *)

Module SoundManager.

(** The two entries of [localStorage]: [whosmost_muted] and
    [whosmost_vibration]. *)
Record Storage := {
  MUTE_KEY : option string;
  VIBRATE_KEY : option string
}.

Record t := {
  muted : bool;
  vibrationEnabled : bool
}.

(** [String(b)] *)
Definition String_of (b : bool) : string := if b then "true" else "false".

(** [item === s] and [item !== s] on what [getItem] returned *)
Definition item_is (item : option string) (s : string) : bool :=
  match item with
  | Some v => String.eqb v s
  | None => false
  end.

Definition constructor (store : Storage) : t :=
  {| muted := item_is (MUTE_KEY store) "true";
     vibrationEnabled := negb (item_is (VIBRATE_KEY store) "false") |}.

(** The toggles return the manager, the storage and the value handed back. *)
Definition toggleMute (m : t) (store : Storage) : t * Storage * bool :=
  let m := m{{ muted := negb (muted m) }} in
  (m, store{{ MUTE_KEY := Some (String_of (muted m)) }}, muted m).

Definition toggleVibration (m : t) (store : Storage) : t * Storage * bool :=
  let m := m{{ vibrationEnabled := negb (vibrationEnabled m) }} in
  (m, store{{ VIBRATE_KEY := Some (String_of (vibrationEnabled m)) }}, vibrationEnabled m).

(** [vibrate(pattern)]: the pattern handed to [navigator.vibrate], if the
    browser has one ([supported]). *)
Definition vibrate (supported : bool) (pattern : list Z) (m : t) : option (list Z) :=
  if negb (vibrationEnabled m) then None
  else if supported then Some pattern else None.

Inductive Toggle := Mute | Vibration.

Definition toggle (k : Toggle) (ms : t * Storage) : t * Storage :=
  match k with
  | Mute => fst (toggleMute (fst ms) (snd ms))
  | Vibration => fst (toggleVibration (fst ms) (snd ms))
  end.

Definition toggles (ks : list Toggle) (ms : t * Storage) : t * Storage :=
  fold_left (fun ms k => toggle k ms) ks ms.

End SoundManager.

(* ================================================================= *)
(** * Properties *)

Local Open Scope list_scope.

Ltac open_page w := destruct w; cbn in *; subst.

(** ** The player page *)

Section PlayerFacts.

Import PlayerPage.

Variable trim : string -> string.

Lemma submitVote_when_voted target w :
  hasVoted w = true -> submitVote target w = w.
Proof. unfold submitVote. intros ->. reflexivity. Qed.

Lemma submitVote_sets_hasVoted target w : hasVoted (submitVote target w) = true.
Proof.
  unfold submitVote, send. open_page w.
  destruct hasVoted0; [reflexivity|]. destruct wsRef0; [destruct wsReady0|]; reflexivity.
Qed.

(** An open or a close of the socket held changes [wsReady] at most. *)
Lemma past_connecting_is c w : exists b, past_connecting c w = w{{ wsReady := b }}.
Proof.
  unfold past_connecting. destruct (wsRef w) as [held|].
  - destruct (same_saved held c); [exists true; reflexivity|].
    exists (wsReady w). destruct w; reflexivity.
  - exists (wsReady w). destruct w; reflexivity.
Qed.

Lemma onclose_ready c b w : onclose c (w{{ wsReady := b }}) = (onclose c w){{ wsReady := b }}.
Proof.
  unfold onclose. destruct w; cbn. destruct kickedRef0; [reflexivity|].
  destruct state0; reflexivity.
Qed.

Lemma player_step_close c w :
  exists b, step trim (Close c) w = (onclose c w){{ wsReady := b }}.
Proof.
  cbn [step]. destruct (past_connecting_is c w) as [b ->]. exists b. apply onclose_ready.
Qed.

Lemma close_cells c w :
  timers (step trim (Close c) w) = timers (onclose c w)
  /\ state (step trim (Close c) w) = state (onclose c w)
  /\ error (step trim (Close c) w) = error (onclose c w).
Proof.
  destruct (player_step_close c w) as [b ->]. destruct (onclose c w); auto.
Qed.

(** What the socket that opens adds: its JOIN, and nothing else that the
    round or the session rests on. *)
Lemma step_open c w :
  sent (step trim (Open c) w)
  = sent w ++ [Protocol.JOIN (sv_nickname c) (sv_avatar c)]
  /\ hasVoted (step trim (Open c) w) = hasVoted w
  /\ state (step trim (Open c) w) = state w
  /\ wsRef (step trim (Open c) w) = wsRef w
  /\ timers (step trim (Open c) w) = timers w
  /\ kickedRef (step trim (Open c) w) = kickedRef w
  /\ selectedTarget (step trim (Open c) w) = selectedTarget w.
Proof.
  cbn [step]. destruct (past_connecting_is c (onopen c w)) as [b ->].
  unfold onopen. open_page w. cbn. auto 10.
Qed.

Lemma submitVote_sends_at_most_one target w :
  (votes_sent (submitVote target w) <= votes_sent w + 1)%nat.
Proof.
  unfold submitVote, send, votes_sent. open_page w.
  destruct hasVoted0; cbn; [lia|].
  destruct wsRef0; cbn; [|lia]. destruct wsReady0; cbn; [|lia].
  rewrite filter_app, length_app. cbn. lia.
Qed.

Lemma joinRoom_frame c w :
  hasVoted (joinRoom trim c w) = hasVoted w /\ sent (joinRoom trim c w) = sent w.
Proof.
  unfold joinRoom. destruct (_ || _); [split; reflexivity|].
  open_page w. split; reflexivity.
Qed.

Lemma onmessage_sent c msg w : sent (onmessage c msg w) = sent w.
Proof.
  unfold onmessage, set_roster, set_players.
  destruct msg as [message| | |m|m|m|n ps|n ps| |m| | |m|m|n ps|ty];
    open_page w; try reflexivity.
  - destruct (String.eqb message _); reflexivity.
  - destruct (Protocol.rc_players m); cbn;
      destruct (String.eqb (Protocol.rc_state m) "LOBBY"),
               (String.eqb (Protocol.rc_state m) "QUESTION"); reflexivity.
  - destruct ps; reflexivity.
  - destruct ps; reflexivity.
  - destruct (Protocol.q_players m); reflexivity.
  - destruct ps; reflexivity.
Qed.

Lemma onmessage_keeps_hasVoted c msg w :
  reopens_vote msg = false -> hasVoted (onmessage c msg w) = hasVoted w.
Proof.
  unfold onmessage, set_roster, set_players, reopens_vote.
  destruct msg as [message| | |m|m|m|n ps|n ps| |m| | |m|m|n ps|ty];
    intros R; try discriminate R; open_page w; try reflexivity.
  - destruct (String.eqb message _); reflexivity.
  - rewrite R. destruct (Protocol.rc_players m); cbn;
      destruct (String.eqb (Protocol.rc_state m) "LOBBY"); reflexivity.
  - destruct ps; reflexivity.
  - destruct ps; reflexivity.
Qed.

Lemma step_keeps_hasVoted e w :
  reopens e = false -> hasVoted w = true -> hasVoted (step trim e w) = true.
Proof.
  intros R V. destruct e; cbn [step reopens] in *.
  - destruct (is_state _ _); [open_page w|]; auto.
  - destruct (is_state _ _); [open_page w|]; auto.
  - destruct (is_state _ _); [open_page w|]; auto.
  - destruct (is_state _ _); [|auto].
    rewrite (proj1 (joinRoom_frame _ _)). auto.
  - destruct (is_state _ _); [|auto].
    destruct (nth_error _ _); [|auto]. apply submitVote_sets_hasVoted.
  - change (hasVoted (step trim (Open c) w) = true).
    destruct (step_open c w) as (_ & -> & _). exact V.
  - rewrite onmessage_keeps_hasVoted; auto.
  - open_page w. auto.
  - destruct (past_connecting_is c w) as [b ->]. rewrite onclose_ready.
    unfold onclose. destruct (kickedRef w) eqn:K; [open_page w; auto|].
    destruct (state w) eqn:S; open_page w; auto.
  - destruct (timers w) eqn:T; [auto|].
    rewrite (proj1 (joinRoom_frame _ _)). open_page w. auto.
  - open_page w. auto.
  - unfold onclose. destruct (kickedRef w) eqn:K; [open_page w; auto|].
    destruct (state w) eqn:S; open_page w; auto.
Qed.

Lemma votes_sent_same_log w w' : sent w' = sent w -> votes_sent w' = votes_sent w.
Proof. unfold votes_sent. intros ->. reflexivity. Qed.

Lemma step_sends_no_vote_when_voted e w :
  hasVoted w = true -> votes_sent (step trim e w) = votes_sent w.
Proof.
  intros V. destruct e; cbn [step].
  - destruct (is_state _ _); [open_page w|]; reflexivity.
  - destruct (is_state _ _); [open_page w|]; reflexivity.
  - destruct (is_state _ _); [open_page w|]; reflexivity.
  - destruct (is_state _ _); [|reflexivity].
    apply votes_sent_same_log, joinRoom_frame.
  - destruct (is_state _ _); [|reflexivity].
    destruct (nth_error _ _); [|reflexivity].
    rewrite submitVote_when_voted; auto.
  - change (votes_sent (step trim (Open c) w) = votes_sent w).
    unfold votes_sent. destruct (step_open c w) as (-> & _).
    rewrite filter_app, length_app. cbn. lia.
  - apply votes_sent_same_log, onmessage_sent.
  - open_page w. reflexivity.
  - destruct (past_connecting_is c w) as [b ->]. rewrite onclose_ready.
    apply votes_sent_same_log. unfold onclose.
    destruct (kickedRef w) eqn:K; [open_page w; reflexivity|].
    destruct (state w) eqn:S; open_page w; reflexivity.
  - destruct (timers w) eqn:T; [reflexivity|].
    apply votes_sent_same_log. rewrite (proj2 (joinRoom_frame _ _)).
    open_page w. reflexivity.
  - unfold votes_sent, onopen. open_page w.
    rewrite filter_app, length_app. cbn. lia.
  - apply votes_sent_same_log. unfold onclose.
    destruct (kickedRef w) eqn:K; [open_page w; reflexivity|].
    destruct (state w) eqn:S; open_page w; reflexivity.
Qed.

Lemma run_app evs evs' w : run trim (evs ++ evs') w = run trim evs' (run trim evs w).
Proof. apply fold_left_app. Qed.

Lemma run_stays_voted evs w :
  forallb (fun e => negb (reopens e)) evs = true -> hasVoted w = true ->
  hasVoted (run trim evs w) = true /\ votes_sent (run trim evs w) = votes_sent w.
Proof.
  revert w. induction evs as [|e evs IH]; intros w Q V; [split; auto|].
  cbn in Q. apply andb_prop in Q as [Qe Q]. apply negb_true_iff in Qe.
  cbn [run fold_left].
  destruct (IH (step trim e w) Q (step_keeps_hasVoted e w Qe V)) as [H1 H2].
  split; [exact H1|].
  unfold run in H2. rewrite H2. apply step_sends_no_vote_when_voted, V.
Qed.

(** Only a vote card sends VOTE, and the click that sends it sets [hasVoted]. *)
Lemma step_votes e w :
  votes_sent (step trim e w) = votes_sent w
  \/ votes_sent (step trim e w) = S (votes_sent w) /\ hasVoted w = false
     /\ hasVoted (step trim e w) = true.
Proof.
  destruct e; cbn [step].
  - left. destruct (is_state _ _); [open_page w|]; reflexivity.
  - left. destruct (is_state _ _); [open_page w|]; reflexivity.
  - left. destruct (is_state _ _); [open_page w|]; reflexivity.
  - left. destruct (is_state _ _); [|reflexivity].
    apply votes_sent_same_log, joinRoom_frame.
  - destruct (is_state _ _); [|left; reflexivity].
    destruct (nth_error _ _) as [p|]; [|left; reflexivity].
    destruct (hasVoted w) eqn:V.
    + left. rewrite submitVote_when_voted; auto.
    + destruct (wsRef w) eqn:W; [destruct (wsReady w) eqn:R|].
      * right. split; [|split; [reflexivity|apply submitVote_sets_hasVoted]].
        unfold submitVote, send, votes_sent. rewrite V. open_page w. cbn.
        rewrite filter_app, length_app. cbn. lia.
      * left. unfold submitVote, send, votes_sent. rewrite V. open_page w. reflexivity.
      * left. unfold submitVote, send, votes_sent. rewrite V. open_page w. reflexivity.
  - left. change (votes_sent (step trim (Open c) w) = votes_sent w).
    unfold votes_sent. destruct (step_open c w) as (-> & _).
    rewrite filter_app, length_app. cbn. lia.
  - left. apply votes_sent_same_log, onmessage_sent.
  - left. open_page w. reflexivity.
  - left. destruct (past_connecting_is c w) as [b ->]. rewrite onclose_ready.
    apply votes_sent_same_log. unfold onclose.
    destruct (kickedRef w) eqn:K; [open_page w; reflexivity|].
    destruct (state w) eqn:S; open_page w; reflexivity.
  - left. destruct (timers w) eqn:T; [reflexivity|].
    apply votes_sent_same_log. rewrite (proj2 (joinRoom_frame _ _)).
    open_page w. reflexivity.
  - left. unfold votes_sent, onopen. open_page w.
    rewrite filter_app, length_app. cbn. lia.
  - left. apply votes_sent_same_log. unfold onclose.
    destruct (kickedRef w) eqn:K; [open_page w; reflexivity|].
    destruct (state w) eqn:S; open_page w; reflexivity.
Qed.

Lemma step_vote_budget e w :
  (votes_sent (step trim e w) + (if hasVoted (step trim e w) then 0 else 1)
   <= votes_sent w + (if hasVoted w then 0 else 1) + (if reopens e then 1 else 0))%nat.
Proof.
  destruct (step_votes e w) as [E|(E & V & V')].
  - rewrite E. destruct (hasVoted w) eqn:V.
    + destruct (reopens e) eqn:R.
      * destruct (hasVoted (step trim e w)); lia.
      * rewrite (step_keeps_hasVoted e w R V). lia.
    + destruct (hasVoted (step trim e w)), (reopens e); lia.
  - rewrite E, V, V'. destruct (reopens e); lia.
Qed.

Lemma run_vote_budget evs w :
  (votes_sent (run trim evs w) + (if hasVoted (run trim evs w) then 0 else 1)
   <= votes_sent w + (if hasVoted w then 0 else 1)
      + List.length (filter reopens evs))%nat.
Proof.
  revert w. induction evs as [|e evs IH]; intros w; [cbn; lia|].
  cbn [run fold_left filter]. specialize (IH (step trim e w)). unfold run in IH.
  pose proof (step_vote_budget e w). destruct (reopens e); cbn [List.length]; lia.
Qed.

(** The room keeps at most one vote of a voter, whatever it is sent. *)
Lemma not_voted_none (r : VotingEngine.Round) (name : string) :
  VotingEngine.has_voted r name = false -> VotingEngine.accepted_from r name = [].
Proof.
  unfold VotingEngine.has_voted, VotingEngine.accepted_from.
  induction (VotingEngine.ballots r) as [|v l IH]; cbn; [reflexivity|].
  intros H. apply orb_false_iff in H as [-> H]. apply IH, H.
Qed.

Lemma submit_vote_once (r : VotingEngine.Round) (v : Vote) (name : string) :
  (List.length (VotingEngine.accepted_from r name) <= 1)%nat ->
  (List.length (VotingEngine.accepted_from (VotingEngine.submit_vote r v) name) <= 1)%nat.
Proof.
  intros H. unfold VotingEngine.submit_vote.
  destruct (_ && _) eqn:A; [|exact H].
  apply andb_prop in A as [_ A]. apply negb_true_iff in A.
  unfold VotingEngine.accepted_from in *. cbn [VotingEngine.ballots].
  rewrite filter_app, length_app. cbn.
  destruct (String.eqb_spec (voter v) name) as [E|E]; cbn; [|lia].
  subst name. pose proof (not_voted_none r (voter v) A) as N.
  unfold VotingEngine.accepted_from in N. rewrite N. cbn. lia.
Qed.

Lemma submit_votes_once (vs : list Vote) (r : VotingEngine.Round) (name : string) :
  (List.length (VotingEngine.accepted_from r name) <= 1)%nat ->
  (List.length (VotingEngine.accepted_from (VotingEngine.submit_votes r vs) name) <= 1)%nat.
Proof.
  revert r. induction vs as [|v vs IH]; intros r H; [exact H|].
  cbn [VotingEngine.submit_votes fold_left]. apply IH, submit_vote_once, H.
Qed.

(** C1.  A run of [submitVote] leaves [hasVoted] set and hands at most one
    VOTE to the socket.  From then on, as long as no QUESTION, no
    RECONNECTED with state QUESTION and no ROOM_RESET arrives, [hasVoted]
    stays set, no VOTE is sent, and every call of [submitVote] returns the
    page as it is.  [hasVoted] falls only at one of those three messages.
    So along any run the page sends at most one VOTE per such message, plus
    one if it had not voted at the start; a RECONNECTED with state QUESTION
    can arrive in the middle of a round, so this is not one per round.
    The room, which rejects the vote of a voter who has already voted this
    round, still records at most one vote of each voter in a round,
    whatever VOTE messages it is sent: in particular those of a page. *)
Theorem one_vote_per_round :
  (forall target w,
      hasVoted (submitVote target w) = true
      /\ (votes_sent (submitVote target w) <= votes_sent w + 1)%nat)
  /\ (forall target evs w,
        forallb (fun e => negb (reopens e)) evs = true ->
        hasVoted (run trim evs (submitVote target w)) = true
        /\ votes_sent (run trim evs (submitVote target w))
           = votes_sent (submitVote target w)
        /\ forall target',
             submitVote target' (run trim evs (submitVote target w))
             = run trim evs (submitVote target w))
  /\ (forall e w,
        hasVoted w = true -> hasVoted (step trim e w) = false -> reopens e = true)
  /\ (forall evs w,
        (votes_sent (run trim evs w)
         <= votes_sent w + (if hasVoted w then 0 else 1)
            + List.length (filter reopens evs))%nat)
  /\ (forall r vs name,
        (List.length (VotingEngine.accepted_from r name) <= 1)%nat ->
        (List.length (VotingEngine.accepted_from (VotingEngine.submit_votes r vs) name)
         <= 1)%nat)
  /\ (forall players evs w,
        (List.length
           (VotingEngine.accepted_from
              (VotingEngine.submit_votes (VotingEngine.open_round players)
                 (votes_cast (nickname w) (run trim evs w)))
              (nickname w))
         <= 1)%nat).
Proof.
  split; [|split; [|split; [|split; [|split]]]].
  - intros target w. split;
      [apply submitVote_sets_hasVoted|apply submitVote_sends_at_most_one].
  - intros target evs w Q.
    destruct (run_stays_voted evs (submitVote target w) Q
                (submitVote_sets_hasVoted target w)) as [V S].
    split; [exact V|]. split; [exact S|].
    intros target'. apply submitVote_when_voted, V.
  - intros e w V F. destruct (reopens e) eqn:R; [reflexivity|].
    rewrite (step_keeps_hasVoted e w R V) in F. discriminate F.
  - intros evs w. pose proof (run_vote_budget evs w).
    destruct (hasVoted (run trim evs w)); lia.
  - intros r vs name. apply submit_votes_once.
  - intros players evs w. apply submit_votes_once. cbn. lia.
Qed.

Lemma onmessage_refs c msg w :
  timers (onmessage c msg w) = timers w
  /\ (kickedRef w = true -> kickedRef (onmessage c msg w) = true).
Proof.
  unfold onmessage, set_roster, set_players.
  destruct msg as [message| | |m|m|m|n ps|n ps| |m| | |m|m|n ps|ty];
    open_page w; auto.
  - destruct (String.eqb message _); auto.
  - destruct (Protocol.rc_players m); cbn;
      destruct (String.eqb (Protocol.rc_state m) "LOBBY"),
               (String.eqb (Protocol.rc_state m) "QUESTION"); auto.
  - destruct ps; auto.
  - destruct ps; auto.
  - destruct (Protocol.q_players m); auto.
  - destruct ps; auto.
Qed.

Lemma messages_refs (msgs : list (Saved * Protocol.ServerMsg)) w :
  timers (run trim (map (fun cm => Message (fst cm) (snd cm)) msgs) w) = timers w
  /\ (kickedRef w = true ->
      kickedRef (run trim (map (fun cm => Message (fst cm) (snd cm)) msgs) w) = true).
Proof.
  revert w. induction msgs as [|[c m] msgs IH]; intros w; [cbn; auto|].
  cbn [map run fold_left fst snd step].
  destruct (IH (onmessage c m w)) as [T K]. unfold run in T, K.
  destruct (onmessage_refs c m w) as [T' K'].
  rewrite T, T'. auto.
Qed.

(** C6.  A KICKED notice sets [kickedRef], drops the socket reference and
    shows the JOIN screen with the notice "You joined from another device";
    the close of the socket that follows schedules no rejoin and leaves
    that screen and notice as they are, and so does a close that comes
    after further messages. *)
Theorem kicked_never_rejoins c w :
  let w1 := step trim (Message c Protocol.KICKED) w in
  kickedRef w1 = true /\ wsRef w1 = None /\ state w1 = JOIN
  /\ error w1 = "You joined from another device"
  /\ timers w1 = timers w
  /\ (forall c',
        timers (step trim (Close c') w1) = timers w
        /\ state (step trim (Close c') w1) = JOIN
        /\ error (step trim (Close c') w1) = "You joined from another device")
  /\ (forall msgs c',
        timers (step trim (Close c')
                  (run trim (map (fun cm => Message (fst cm) (snd cm)) msgs) w1))
        = timers w).
Proof.
  cbn zeta.
  change (step trim (Message c Protocol.KICKED) w) with (onmessage c Protocol.KICKED w).
  assert (kickedRef (onmessage c Protocol.KICKED w) = true
          /\ timers (onmessage c Protocol.KICKED w) = timers w) as [K T]
    by (open_page w; auto).
  split; [exact K|]. split; [open_page w; reflexivity|].
  split; [open_page w; reflexivity|]. split; [open_page w; reflexivity|].
  split; [exact T|]. split.
  - intros c'. destruct (close_cells c' (onmessage c Protocol.KICKED w)) as (-> & -> & ->).
    unfold onclose. rewrite K. open_page w. auto.
  - intros msgs c'.
    destruct (close_cells c' (run trim (map (fun cm => Message (fst cm) (snd cm)) msgs)
                                (onmessage c Protocol.KICKED w))) as (-> & _).
    destruct (messages_refs msgs (onmessage c Protocol.KICKED w)) as [T' K'].
    unfold onclose. rewrite (K' K). rewrite <- T, <- T'.
    generalize (run trim (map (fun cm => Message (fst cm) (snd cm)) msgs)
                         (onmessage c Protocol.KICKED w)).
    intros v. destruct v; reflexivity.
Qed.

(** The player page on "Room not found". *)
Lemma player_room_not_found c w :
  let w1 := step trim (Message c (Protocol.ERROR "Room not found")) w in
  session w1 = None /\ state w1 = JOIN /\ error w1 = "Room not found"
  /\ timers w1 = timers w
  /\ (forall c',
        timers (step trim (Close c') w1) = timers w
        /\ state (step trim (Close c') w1) = JOIN)
  /\ (forall room emoji, timers (mount (initial room (session w1) emoji)) = []).
Proof.
  cbn zeta.
  assert (forall c', timers (step trim (Close c')
                       (step trim (Message c (Protocol.ERROR "Room not found")) w)) = timers w
                     /\ state (step trim (Close c')
                          (step trim (Message c (Protocol.ERROR "Room not found")) w)) = JOIN) as CL.
  { intros c'.
    destruct (close_cells c' (step trim (Message c (Protocol.ERROR "Room not found")) w))
      as (-> & -> & _).
    cbn [step onmessage]. cbn [String.eqb Ascii.eqb Bool.eqb].
    unfold onclose. destruct (kickedRef _) eqn:K; open_page w; split; reflexivity. }
  cbn [step onmessage]. cbn [String.eqb Ascii.eqb Bool.eqb].
  cbn [step onmessage String.eqb Ascii.eqb Bool.eqb] in CL.
  repeat split; try (open_page w; reflexivity); apply CL.
Qed.


(** *** What the page sends, and from where *)

(** Every message one step of the player page hands to a socket is the
    JOIN of a socket that opened, carrying the nickname and avatar that
    socket was made with, or a VOTE for a player listed on the question
    screen, sent on the socket held, from the question screen, by a page
    that had not voted; after a VOTE the page shows the waiting screen with
    that player selected. *)
Theorem player_sends_join_and_listed_votes e w :
  exists extra,
    sent (step trim e w) = sent w ++ extra
    /\ Forall (sent_from e w) extra
    /\ (forall name, In (Protocol.VOTE name) extra ->
          state (step trim e w) = VOTED
          /\ selectedTarget (step trim e w) = Some name
          /\ hasVoted (step trim e w) = true).
Proof.
  assert (forall v, sent v = sent w ->
            exists extra, sent v = sent w ++ extra
              /\ Forall (sent_from e w) extra
              /\ (forall name, In (Protocol.VOTE name) extra ->
                    state v = VOTED /\ selectedTarget v = Some name
                    /\ hasVoted v = true)) as Same.
  { intros v E. exists []. rewrite app_nil_r. split; [exact E|].
    split; [constructor|]. intros name []. }
  destruct e; cbn [step].
  - apply Same. destruct (is_state _ _); [open_page w|]; reflexivity.
  - apply Same. destruct (is_state _ _); [open_page w|]; reflexivity.
  - apply Same. destruct (is_state _ _); [open_page w|]; reflexivity.
  - apply Same. destruct (is_state _ _); [|reflexivity]. apply joinRoom_frame.
  - destruct (is_state (state w) QUESTION) eqn:S; [|apply Same; reflexivity].
    assert (state w = QUESTION) as S' by (destruct (state w); cbn in S; congruence).
    destruct (nth_error (players w) i) as [p|] eqn:P; [|apply Same; reflexivity].
    unfold submitVote, send. destruct (hasVoted w) eqn:V; [apply Same; reflexivity|].
    destruct (wsRef w) as [ws|] eqn:W; [destruct (wsReady w) eqn:R|].
    + exists [Protocol.VOTE (Types.nickname p)].
      split; [destruct w; cbn in *; subst; reflexivity|]. split.
      * constructor; [|constructor]. cbn. repeat split; auto; [|congruence].
        exists i, p. auto.
      * intros name [H|[]]. inversion H; subst. destruct w; cbn in *; subst. auto.
    + apply Same. destruct w; cbn in *; subst; reflexivity.
    + apply Same. destruct w; cbn in *; subst; reflexivity.
  - exists [Protocol.JOIN (sv_nickname c) (sv_avatar c)].
    split; [apply (step_open c w)|]. split.
    + constructor; [|constructor]. cbn. exists c. auto.
    + intros name [H|[]]. discriminate H.
  - apply Same. apply onmessage_sent.
  - apply Same. destruct w; reflexivity.
  - apply Same. destruct (past_connecting_is c w) as [b ->]. rewrite onclose_ready.
    unfold onclose.
    destruct (kickedRef w) eqn:K; [destruct w; reflexivity|].
    destruct (state w) eqn:S; destruct w; reflexivity.
  - apply Same. destruct (timers w) eqn:T; [reflexivity|].
    rewrite (proj2 (joinRoom_frame _ _)). destruct w; reflexivity.
  - exists [Protocol.JOIN (sv_nickname c) (sv_avatar c)].
    split; [destruct w; reflexivity|]. split.
    + constructor; [|constructor]. cbn. exists c. auto.
    + intros name [H|[]]. discriminate H.
  - apply Same. unfold onclose.
    destruct (kickedRef w) eqn:K; [destruct w; reflexivity|].
    destruct (state w) eqn:S; destruct w; reflexivity.
Qed.

(** *** Sockets, the saved session and reconnecting *)

Lemma step_socket e w c :
  wsRef (step trim e w) = Some c ->
  wsRef w = Some c
  \/ blank trim (sv_roomCode c) = false /\ blank trim (sv_nickname c) = false.
Proof.
  assert (forall d v, wsRef v = wsRef w -> wsRef (joinRoom trim d v) = Some c ->
            wsRef w = Some c
            \/ blank trim (sv_roomCode c) = false /\ blank trim (sv_nickname c) = false)
    as J.
  { intros d v E. unfold joinRoom.
    destruct (blank trim (sv_roomCode d)) eqn:B1; cbn [orb]; [rewrite E; auto|].
    destruct (blank trim (sv_nickname d)) eqn:B2; cbn [orb]; [rewrite E; auto|].
    intros H. right. destruct v; cbn in H. inversion H; subst. auto. }
  destruct e; cbn [step].
  - destruct (is_state _ _); [destruct w|]; auto.
  - destruct (is_state _ _); [destruct w|]; auto.
  - destruct (is_state _ _); [destruct w|]; auto.
  - destruct (is_state _ _); [|auto]. apply J. reflexivity.
  - destruct (is_state _ _); [|auto]. destruct (nth_error _ _); [|auto].
    unfold submitVote, send. destruct (hasVoted w); [auto|].
    destruct w; cbn. destruct wsRef0; [destruct wsReady0|]; cbn; auto.
  - intros H. change (wsRef (step trim (Open c0) w) = Some c) in H.
    destruct (step_open c0 w) as (_ & _ & _ & E & _). rewrite E in H. auto.
  - unfold onmessage, set_roster, set_players.
    destruct msg as [message| | |m|m|m|n ps|n ps| |m| | |m|m|n ps|ty];
      try (destruct w; cbn; auto; fail).
    + destruct (String.eqb message _); destruct w; cbn; auto.
    + destruct w; cbn. discriminate.
    + destruct (Protocol.rc_players m);
        destruct (String.eqb (Protocol.rc_state m) "LOBBY"),
                 (String.eqb (Protocol.rc_state m) "QUESTION"); destruct w; cbn; auto.
    + destruct ps; destruct w; cbn; auto.
    + destruct ps; destruct w; cbn; auto.
    + destruct (Protocol.q_players m); destruct w; cbn; auto.
    + destruct ps; destruct w; cbn; auto.
  - destruct w; auto.
  - destruct (past_connecting_is c0 w) as [b ->]. rewrite onclose_ready.
    unfold onclose. destruct (kickedRef w) eqn:K; [destruct w; auto|].
    destruct (state w) eqn:S; destruct w; auto.
  - destruct (timers w) eqn:T; [auto|]. apply J. destruct w; reflexivity.
  - destruct w; auto.
  - unfold onclose. destruct (kickedRef w) eqn:K; [destruct w; auto|].
    destruct (state w) eqn:S; destruct w; auto.
Qed.

(** A page that starts without a socket only ever holds a socket that was
    made with a room code and a nickname that are not blank. *)
Theorem player_sockets_are_named evs w c :
  wsRef w = None ->
  wsRef (run trim evs w) = Some c ->
  blank trim (sv_roomCode c) = false /\ blank trim (sv_nickname c) = false.
Proof.
  intros N.
  assert (forall v, (wsRef v = Some c ->
                     blank trim (sv_roomCode c) = false
                     /\ blank trim (sv_nickname c) = false) ->
                    wsRef (run trim evs v) = Some c ->
                    blank trim (sv_roomCode c) = false
                    /\ blank trim (sv_nickname c) = false) as G.
  { induction evs as [|e evs IH]; intros v H; [exact H|].
    cbn [run fold_left]. apply IH. intros W.
    destruct (step_socket e v c W) as [W'|B]; auto. }
  apply G. rewrite N. discriminate.
Qed.

(** What JOINED_ROOM (or RECONNECTED) saves is what a reload finds: the
    reloaded page starts on the join screen with the saved room code,
    nickname and avatar and schedules one rejoin with them, which opens a
    socket with them when room code and nickname are not blank.  A room
    code in the address of the page takes the place of the saved one. *)
Theorem player_session_survives_reload c w emoji :
  sv_roomCode c <> "" -> sv_nickname c <> "" -> sv_avatar c <> "" ->
  session (step trim (Message c Protocol.JOINED_ROOM) w) = Some c
  /\ (forall m, session (step trim (Message c (Protocol.RECONNECTED m)) w) = Some c)
  /\ closure (mount (initial None (Some c) emoji)) = c
  /\ state (mount (initial None (Some c) emoji)) = JOIN
  /\ timers (mount (initial None (Some c) emoji)) = [c]
  /\ (blank trim (sv_roomCode c) = false -> blank trim (sv_nickname c) = false ->
      wsRef (step trim Timeout (mount (initial None (Some c) emoji))) = Some c
      /\ timers (step trim Timeout (mount (initial None (Some c) emoji))) = [])
  /\ (forall room, room <> "" ->
        roomCode (mount (initial (Some room) (Some c) emoji)) = room
        /\ nickname (mount (initial (Some room) (Some c) emoji)) = sv_nickname c
        /\ avatar (mount (initial (Some room) (Some c) emoji)) = sv_avatar c).
Proof.
  intros R N A.
  apply String.eqb_neq in R, N, A.
  assert (closure (mount (initial None (Some c) emoji)) = c) as C.
  { unfold mount, initial, closure, Js.orString. cbn. rewrite R, N, A.
    destruct c; reflexivity. }
  split; [destruct w; reflexivity|]. split.
  { intros m. cbn [step onmessage]. unfold set_players.
    destruct (Protocol.rc_players m);
      destruct (String.eqb (Protocol.rc_state m) "LOBBY"),
               (String.eqb (Protocol.rc_state m) "QUESTION"); destruct w; reflexivity. }
  split; [exact C|]. split; [reflexivity|].
  assert (timers (mount (initial None (Some c) emoji)) = [c]) as T.
  { unfold mount. cbn -[closure initial].
    change (closure (initial None (Some c) emoji))
      with (closure (mount (initial None (Some c) emoji))). rewrite C. reflexivity. }
  split; [exact T|]. split.
  - intros B1 B2. cbn [step]. rewrite T. unfold joinRoom. rewrite B1, B2. cbn [orb].
    split; reflexivity.
  - intros room Hr. apply String.eqb_neq in Hr.
    unfold mount, initial, Js.orString. cbn. rewrite Hr, N, A. repeat split.
Qed.

(** When a socket closes on a page that was not kicked and shows neither
    the join nor the final screen, the page shows "Reconnecting" and
    schedules one rejoin with the room code, nickname and avatar that
    socket was made with; what the round brought so far (vote, result,
    points, roster, saved session) stays.  On the join and the final
    screen a close schedules nothing. *)
Theorem player_close_schedules_one_rejoin c w :
  kickedRef w = false ->
  (state w <> JOIN -> state w <> PODIUM ->
   state (step trim (Close c) w) = RECONNECTING
   /\ timers (step trim (Close c) w) = timers w ++ [c]
   /\ same_round w (step trim (Close c) w))
  /\ (state w = JOIN \/ state w = PODIUM ->
      timers (step trim (Close c) w) = timers w
      /\ state (step trim (Close c) w) = state w
      /\ same_round w (step trim (Close c) w)).
Proof.
  intros K. destruct (player_step_close c w) as [b ->].
  unfold onclose, same_round. rewrite K. split.
  - intros J P. destruct (state w) eqn:S; try congruence;
      destruct w; cbn in *; repeat split.
  - intros [S|S]; rewrite S; destruct w; cbn in *; repeat split; auto.
Qed.

(** *** The final screen *)

Lemma findIndex_from_spec {A : Type} (f : A -> bool) (a : list A) (i : Z) :
  (0 <= i)%Z ->
  (Js.findIndex_from f i a = -1)%Z /\ (forall x, In x a -> f x = false)
  \/ exists before x after,
       a = before ++ x :: after /\ f x = true
       /\ (forall y, In y before -> f y = false)
       /\ Js.findIndex_from f i a = (i + Z.of_nat (List.length before))%Z.
Proof.
  revert i. induction a as [|x a IH]; intros i Hi; cbn.
  - left. split; [reflexivity|]. intros x [].
  - destruct (f x) eqn:F.
    + right. exists [], x, a. cbn. repeat split; auto; [intros y []|lia].
    + destruct (IH (i + 1)%Z ltac:(lia)) as [[E N]|(before & y & after & E & Fy & B & I)].
      * left. split; [exact E|]. intros z [<-|Hz]; auto.
      * right. exists (x :: before), y, after. subst a. cbn [List.length].
        repeat split; auto; [intros z [<-|Hz]; auto|lia].
Qed.

(** The card of the final screen is there exactly when the leaderboard
    names the player.  It then shows the place of the first entry with the
    player's nickname, counted from 1 down the list (not that entry's
    [rank]), and the score of that entry. *)
Theorem player_final_card w :
  (final_card w = None <-> ~ In (nickname w) (map le_nickname (leaderboard w)))
  /\ (forall place points,
        final_card w = Some (place, points) ->
        exists before entry after,
          leaderboard w = before ++ entry :: after
          /\ le_nickname entry = nickname w
          /\ (forall e, In e before -> le_nickname e <> nickname w)
          /\ place = (Z.of_nat (List.length before) + 1)%Z
          /\ points = score entry).
Proof.
  unfold final_card, myRank, Js.findIndex.
  destruct (findIndex_from_spec
              (fun e => String.eqb (le_nickname e) (nickname w)) (leaderboard w) 0%Z)
    as [[E N]|(before & x & after & E & Fx & B & I)]; [lia| |].
  - rewrite E. cbn. split.
    + split; [|reflexivity]. intros _ H. apply in_map_iff in H as (e & He & Hin).
      specialize (N e Hin). apply String.eqb_neq in N. congruence.
    + intros place points H. discriminate H.
  - rewrite I. apply String.eqb_eq in Fx.
    assert (Z.ltb 0 (0 + Z.of_nat (List.length before) + 1) = true) as ->
      by (apply Z.ltb_lt; lia).
    split.
    + split; [discriminate|]. intros H. exfalso. apply H. rewrite E, map_app.
      apply in_or_app. right. left. exact Fx.
    + intros place points H. inversion H; subst place points. clear H.
      exists before, x, after. split; [exact E|]. split; [exact Fx|]. split.
      * intros e He. apply String.eqb_neq, B, He.
      * split; [lia|].
        assert (nth_error (leaderboard w)
                  (Z.to_nat (Z.of_nat (List.length before) + 1 - 1)) = Some x) as ->.
        { replace (Z.to_nat (Z.of_nat (List.length before) + 1 - 1))
            with (List.length before + 0)%nat by lia.
          rewrite E, nth_error_app2 by lia.
          replace (List.length before + 0 - List.length before)%nat with 0%nat by lia.
          reflexivity. }
        cbn. unfold Js.orZ. destruct (Z.eqb_spec (score x) 0); congruence.
Qed.

End PlayerFacts.

Lemma player_sockets_are_named_witness :
  PlayerPage.wsRef (PlayerPage.initial None None "x") = None
  /\ PlayerPage.wsRef PlayerPage.voting_page = Some PlayerPage.alex
  /\ PlayerPage.blank Js.trim_ascii "ABCD" = false
  /\ PlayerPage.blank Js.trim_ascii "Alex" = false.
Proof.
  split; [reflexivity|]. split; [vm_compute; reflexivity|].
  apply (player_sockets_are_named Js.trim_ascii
           [ PlayerPage.TypeRoomCode "ABCD"; PlayerPage.TypeNickname "Alex";
             PlayerPage.PickAvatar "a"; PlayerPage.ClickJoin;
             PlayerPage.Open PlayerPage.alex;
             PlayerPage.Message PlayerPage.alex Protocol.JOINED_ROOM;
             PlayerPage.Message PlayerPage.alex (Protocol.QUESTION Sample.question1) ]
           (PlayerPage.initial None None "x") PlayerPage.alex).
  - reflexivity.
  - vm_compute. reflexivity.
Defined.

Lemma player_session_survives_reload_witness :
  PlayerPage.sv_roomCode PlayerPage.alex <> ""
  /\ PlayerPage.session
       (PlayerPage.step Js.trim_ascii
          (PlayerPage.Message PlayerPage.alex Protocol.JOINED_ROOM) PlayerPage.voting_page)
     = Some PlayerPage.alex
  /\ PlayerPage.timers (PlayerPage.mount (PlayerPage.initial None (Some PlayerPage.alex) "x"))
     = [PlayerPage.alex]
  /\ PlayerPage.wsRef
       (PlayerPage.step Js.trim_ascii PlayerPage.Timeout
          (PlayerPage.mount (PlayerPage.initial None (Some PlayerPage.alex) "x")))
     = Some PlayerPage.alex.
Proof.
  split; [discriminate|].
  destruct (player_session_survives_reload Js.trim_ascii PlayerPage.alex
              PlayerPage.voting_page "x")
    as (S & _ & _ & _ & T & O & _); [discriminate|discriminate|discriminate|].
  split; [exact S|]. split; [exact T|].
  apply O; vm_compute; reflexivity.
Defined.

Lemma player_close_schedules_one_rejoin_witness :
  PlayerPage.kickedRef PlayerPage.voting_page = false
  /\ PlayerPage.state PlayerPage.voting_page = PlayerPage.QUESTION
  /\ PlayerPage.state
       (PlayerPage.step Js.trim_ascii (PlayerPage.Close PlayerPage.alex)
          PlayerPage.voting_page) = PlayerPage.RECONNECTING
  /\ PlayerPage.timers
       (PlayerPage.step Js.trim_ascii (PlayerPage.Close PlayerPage.alex)
          PlayerPage.voting_page)
     = PlayerPage.timers PlayerPage.voting_page ++ [PlayerPage.alex].
Proof.
  assert (PlayerPage.state PlayerPage.voting_page = PlayerPage.QUESTION) as Q
    by (vm_compute; reflexivity).
  split; [vm_compute; reflexivity|]. split; [exact Q|].
  destruct (player_close_schedules_one_rejoin Js.trim_ascii PlayerPage.alex
              PlayerPage.voting_page) as [H _]; [vm_compute; reflexivity|].
  destruct H as (S & T & _); [rewrite Q; discriminate|rewrite Q; discriminate|].
  split; [exact S|exact T].
Defined.

(** C1, as first stated, fails: Alex votes for Jordan, the socket closes,
    the page rejoins and is reconnected into the same question, and Alex
    votes again, for Sam.  The question number is 1 all along and the page
    has sent two VOTE messages. *)
Lemma second_vote_after_reconnect :
  PlayerPage.questionNumber PlayerPage.voting_page = 1%Z
  /\ map PlayerPage.questionNumber
       (PlayerPage.along Js.trim_ascii PlayerPage.vote_reconnect_vote PlayerPage.voting_page)
     = [1; 1; 1; 1; 1; 1]%Z
  /\ filter Protocol.is_vote
       (PlayerPage.sent
          (PlayerPage.run Js.trim_ascii PlayerPage.vote_reconnect_vote
             PlayerPage.voting_page))
     = [Protocol.VOTE "Jordan"; Protocol.VOTE "Sam"]
  /\ PlayerPage.votes_sent
       (PlayerPage.run Js.trim_ascii PlayerPage.vote_reconnect_vote PlayerPage.voting_page)
     = 2%nat.
Proof. vm_compute. repeat split. Qed.

Lemma one_vote_per_round_witness :
  PlayerPage.hasVoted (PlayerPage.run Js.trim_ascii
              [ PlayerPage.Message PlayerPage.alex (Protocol.TIMER 12);
                PlayerPage.ClickVote 0; PlayerPage.Close PlayerPage.alex;
                PlayerPage.Timeout; PlayerPage.Open PlayerPage.alex ]
              (PlayerPage.submitVote "Jordan" PlayerPage.voting_page)) = true
  /\ PlayerPage.votes_sent
       (PlayerPage.run Js.trim_ascii
          [ PlayerPage.Message PlayerPage.alex (Protocol.TIMER 12);
            PlayerPage.ClickVote 0; PlayerPage.Close PlayerPage.alex;
            PlayerPage.Timeout; PlayerPage.Open PlayerPage.alex ]
          (PlayerPage.submitVote "Jordan" PlayerPage.voting_page)) = 1%nat.
Proof.
  destruct (one_vote_per_round Js.trim_ascii) as (_ & H2 & _).
  destruct (H2 "Jordan"
              [ PlayerPage.Message PlayerPage.alex (Protocol.TIMER 12);
                PlayerPage.ClickVote 0; PlayerPage.Close PlayerPage.alex;
                PlayerPage.Timeout; PlayerPage.Open PlayerPage.alex ]
              PlayerPage.voting_page) as (V & S & _); [reflexivity|].
  split; [exact V|]. rewrite S. reflexivity.
Defined.

(** ** The podium of a closed round *)

Section PodiumFacts.

Import VotingEngine.

Example scenario_birthdays :
  let roster := [ {| nickname := "Alex"; avatar := "a" |};
                  {| nickname := "Jordan"; avatar := "j" |};
                  {| nickname := "Sam"; avatar := "s" |} ] in
  let vs := [ {| voter := "Alex"; target := "Jordan" |};
              {| voter := "Jordan"; target := "Jordan" |};
              {| voter := "Sam"; target := "Alex" |} ] in
  podium_of roster vs =
    [ {| pe_nickname := "Jordan"; pe_avatar := "j"; vote_count := 2; rank := 1 |};
      {| pe_nickname := "Alex"; pe_avatar := "a"; vote_count := 1; rank := 2 |} ]
  /\ majority_winner_of roster vs = Some "Jordan".
Proof. split; reflexivity. Qed.

Example scenario_tie :
  let roster := [ {| nickname := "Alex"; avatar := "a" |};
                  {| nickname := "Jordan"; avatar := "j" |};
                  {| nickname := "Sam"; avatar := "s" |};
                  {| nickname := "Riley"; avatar := "r" |} ] in
  let vs := [ {| voter := "Alex"; target := "Sam" |};
              {| voter := "Jordan"; target := "Sam" |};
              {| voter := "Sam"; target := "Alex" |};
              {| voter := "Riley"; target := "Alex" |} ] in
  podium_of roster vs =
    [ {| pe_nickname := "Alex"; pe_avatar := "a"; vote_count := 2; rank := 1 |};
      {| pe_nickname := "Sam"; pe_avatar := "s"; vote_count := 2; rank := 1 |} ].
Proof. reflexivity. Qed.

Lemma insert_desc_In x a l : In x (insert_desc a l) <-> x = a \/ In x l.
Proof.
  induction l as [|y l IH]; cbn.
  - intuition (auto; congruence).
  - destruct (Z.ltb (snd a) (snd y)); cbn; [rewrite IH|]; intuition (auto; congruence).
Qed.

Lemma sort_desc_In x l : In x (sort_desc l) <-> In x l.
Proof.
  induction l as [|a l IH]; cbn; [tauto|].
  rewrite insert_desc_In, IH. intuition (auto; congruence).
Qed.

Lemma insert_desc_descending a l : descending l -> descending (insert_desc a l).
Proof.
  induction l as [|y l IH]; cbn; [tauto|].
  intros [Hy Hl]. destruct (Z.ltb (snd a) (snd y)) eqn:E.
  - apply Z.ltb_lt in E. cbn. split; [|apply IH, Hl].
    destruct l as [|z l]; cbn; [lia|].
    destruct (Z.ltb (snd a) (snd z)); lia.
  - apply Z.ltb_ge in E. cbn. tauto.
Qed.

Lemma sort_desc_descending l : descending (sort_desc l).
Proof.
  induction l as [|a l IH]; cbn; [exact I|]. apply insert_desc_descending, IH.
Qed.

Lemma rank_from_ranked p n r l :
  descending ((p, n) :: l) -> ranked_after (entry p n r) (rank_from r n l).
Proof.
  revert p n r. induction l as [|[q m] l IH]; intros p n r D; cbn; [exact I|].
  cbn in D. destruct D as [Hle D]. split; [exact Hle|]. split; [reflexivity|].
  apply IH. cbn. exact D.
Qed.

(** Along a ranked run the ranks never go down, and the rank of a later
    entry is the rank of an earlier one exactly when their votes agree. *)
Lemma ranked_after_later a l1 b l2 :
  ranked_after a (l1 ++ b :: l2) ->
  vote_count b <= vote_count a /\ rank a <= rank b
  /\ (vote_count a = vote_count b <-> rank a = rank b).
Proof.
  revert a. induction l1 as [|c l1 IH]; intros a; cbn.
  - intros (Hle & Hr & _). rewrite Hr.
    destruct (Z.eqb_spec (vote_count b) (vote_count a)); lia.
  - intros (Hle & Hr & Hc). specialize (IH c Hc).
    destruct (Z.eqb_spec (vote_count c) (vote_count a)); lia.
Qed.

Lemma ranked_after_suffix a l1 b l2 :
  ranked_after a (l1 ++ b :: l2) -> ranked_after b l2.
Proof.
  revert a. induction l1 as [|c l1 IH]; intros a; cbn.
  - tauto.
  - intros (_ & _ & Hc). exact (IH c Hc).
Qed.

Lemma rank_from_In e r prev l :
  In e (rank_from r prev l) ->
  exists p n, In (p, n) l /\ pe_nickname e = nickname p /\ pe_avatar e = avatar p
              /\ vote_count e = n.
Proof.
  revert r prev. induction l as [|[q m] l IH]; intros r prev; cbn; [tauto|].
  intros [<-|H].
  - exists q, m. cbn. auto.
  - destruct (IH _ _ H) as (p & n & Hin & Hrest). exists p, n. auto.
Qed.

Lemma In_rank_from p n r prev l :
  In (p, n) l ->
  exists e, In e (rank_from r prev l) /\ pe_nickname e = nickname p /\ vote_count e = n.
Proof.
  revert r prev. induction l as [|[q m] l IH]; intros r prev; cbn; [tauto|].
  intros [E|H].
  - inversion E; subst. eexists. split; [left; reflexivity|]. cbn. auto.
  - destruct (IH (if Z.eqb m prev then r else r + 1) m H) as (e & Hin & Hrest).
    exists e. auto.
Qed.

Lemma recipients_In p n roster vs :
  In (p, n) (recipients roster vs) <->
  In p roster /\ n = tally vs (nickname p) /\ 1 <= n.
Proof.
  unfold recipients. rewrite sort_desc_In, filter_In, in_map_iff. cbn. split.
  - intros [(q & E & Hq) Hn]. inversion E; subst. apply Z.ltb_lt in Hn.
    repeat split; auto; lia.
  - intros (Hp & -> & Hn). split; [exists p; auto|]. apply Z.ltb_lt. lia.
Qed.

Lemma podium_of_shape roster vs :
  podium_of roster vs = [] /\ recipients roster vs = []
  \/ exists p n rest,
       recipients roster vs = (p, n) :: rest
       /\ podium_of roster vs = entry p n 1 :: rank_from 1 n rest.
Proof.
  unfold podium_of. destruct (recipients roster vs) as [|[p n] rest]; [left; auto|].
  right. exists p, n, rest. auto.
Qed.

Lemma podium_of_ranked roster vs e rest :
  podium_of roster vs = e :: rest -> rank e = 1 /\ ranked_after e rest.
Proof.
  destruct (podium_of_shape roster vs) as [[E _]|(p & n & l & R & E)];
    rewrite E; [discriminate|].
  intros H. inversion H; subst. split; [reflexivity|].
  apply rank_from_ranked. rewrite <- R. apply sort_desc_descending.
Qed.

Lemma podium_later roster vs l1 a l2 b l3 :
  podium_of roster vs = l1 ++ a :: l2 ++ b :: l3 ->
  ranked_after a (l2 ++ b :: l3).
Proof.
  intros E. destruct l1 as [|e l1]; cbn in E.
  - apply (podium_of_ranked roster vs), E.
  - apply podium_of_ranked in E as [_ R].
    apply ranked_after_suffix in R. exact R.
Qed.

(** C2.  For every closed round the podium lists the vote recipients by
    descending vote count with ties sharing a rank: the first entry has
    rank 1; going from one entry to the next the votes never go up, the
    rank stays when the votes are equal and moves on by exactly one when
    they drop (so after two players tied at rank 1 comes rank 2, never 3);
    any two entries have the same rank exactly when they have the same
    votes.  Exactly the players of the room with at least one vote appear,
    and a round in which nobody received a vote has an empty podium and
    no majority winner. *)
Theorem podium_ties_share_rank roster vs :
  let pod := podium_of roster vs in
  (forall e rest, pod = e :: rest -> rank e = 1)
  /\ (forall l1 a b l2, pod = l1 ++ a :: b :: l2 ->
        vote_count b <= vote_count a
        /\ rank b = (if Z.eqb (vote_count b) (vote_count a) then rank a else rank a + 1))
  /\ (forall l1 a l2 b l3, pod = l1 ++ a :: l2 ++ b :: l3 ->
        vote_count b <= vote_count a /\ rank a <= rank b
        /\ (vote_count a = vote_count b <-> rank a = rank b))
  /\ (forall e, In e pod ->
        1 <= vote_count e
        /\ exists p, In p roster /\ nickname p = pe_nickname e /\ avatar p = pe_avatar e
                     /\ vote_count e = tally vs (nickname p))
  /\ (forall p, In p roster -> 1 <= tally vs (nickname p) ->
        exists e, In e pod /\ pe_nickname e = nickname p
                  /\ vote_count e = tally vs (nickname p))
  /\ ((forall p, In p roster -> tally vs (nickname p) = 0) ->
        pod = [] /\ majority_winner_of roster vs = None).
Proof.
  cbn zeta. split; [|split; [|split; [|split; [|split]]]].
  - intros e rest H. apply (podium_of_ranked roster vs e rest H).
  - intros l1 a b l2 H.
    apply (podium_later roster vs l1 a [] b l2) in H. cbn in H. tauto.
  - intros l1 a l2 b l3 H.
    apply podium_later in H. apply ranked_after_later in H. tauto.
  - intros e H.
    destruct (podium_of_shape roster vs) as [[E _]|(p & n & l & R & E)];
      rewrite E in H; [destruct H|].
    assert (exists q m, In (q, m) (recipients roster vs)
                        /\ pe_nickname e = nickname q /\ pe_avatar e = avatar q
                        /\ vote_count e = m)
      as (q & m & Hin & Hn & Ha & Hm).
    { destruct H as [<-|H].
      - exists p, n. rewrite R. cbn. auto.
      - apply rank_from_In in H as (q & m & Hin & ? & ? & ?).
        exists q, m. rewrite R. cbn. auto. }
    apply recipients_In in Hin. split; [lia|].
    exists q. rewrite Hm. intuition auto.
  - intros p Hp Ht.
    assert (In (p, tally vs (nickname p)) (recipients roster vs)) as Hin
      by (apply recipients_In; auto).
    destruct (podium_of_shape roster vs) as [[_ R]|(q & n & l & R & E)];
      rewrite R in Hin; [destruct Hin|]. rewrite E.
    destruct Hin as [Hin|Hin].
    + inversion Hin; subst. eexists. split; [left; reflexivity|]. cbn. auto.
    + destruct (In_rank_from _ _ 1 n _ Hin) as (e & He & Hrest).
      exists e. split; [right; exact He|exact Hrest].
  - intros H.
    assert (recipients roster vs = []) as R.
    { destruct (recipients roster vs) as [|[p n] l] eqn:R; [reflexivity|].
      assert (In (p, n) (recipients roster vs)) as Hin by (rewrite R; left; reflexivity).
      apply recipients_In in Hin as (Hp & -> & Hn). rewrite (H p Hp) in Hn. lia. }
    unfold majority_winner_of, podium_of. rewrite R. split; reflexivity.
Qed.

End PodiumFacts.

Lemma podium_ties_share_rank_witness :
  VotingEngine.podium_of Sample.roster4 Sample.tie_votes
  = [ {| pe_nickname := "Alex"; pe_avatar := "a"; vote_count := 2; rank := 1 |};
      {| pe_nickname := "Sam"; pe_avatar := "s"; vote_count := 2; rank := 1 |} ]
  /\ rank {| pe_nickname := "Sam"; pe_avatar := "s"; vote_count := 2; rank := 1 |}
     = rank {| pe_nickname := "Alex"; pe_avatar := "a"; vote_count := 2; rank := 1 |}.
Proof.
  assert (VotingEngine.podium_of Sample.roster4 Sample.tie_votes
          = [] ++ [ {| pe_nickname := "Alex"; pe_avatar := "a"; vote_count := 2; rank := 1 |};
                    {| pe_nickname := "Sam"; pe_avatar := "s"; vote_count := 2; rank := 1 |} ])
    as E by (vm_compute; reflexivity).
  split; [exact E|].
  destruct (podium_ties_share_rank Sample.roster4 Sample.tie_votes) as (_ & H2 & _).
  destruct (H2 _ _ _ _ E) as [_ Rb]. exact Rb.
Defined.

(** ** The reveal screen *)

Section RevealFacts.

Import Reveal.

Lemma podium_slots_cases heights pod :
  podium_slots heights pod =
    match pod with
    | [] => [EmptySlot 0; EmptySlot 1; EmptySlot 2]
    | [a] => [EmptySlot 0; slot heights 1 (Some a); EmptySlot 2]
    | [a; b] => [slot heights 0 (Some b); slot heights 1 (Some a); EmptySlot 2]
    | a :: b :: c :: _ =>
        [slot heights 0 (Some b); slot heights 1 (Some a); slot heights 2 (Some c)]
    end.
Proof. destruct pod as [|a [|b [|c rest]]]; reflexivity. Qed.

End RevealFacts.

(** ** The organizer page *)

Section OrganizerFacts.

Import OrganizerPage.

Ltac split_ifs :=
  repeat match goal with
         | |- context [if ?b then _ else _] => destruct b eqn:?
         | |- context [match ?x with Some _ => _ | None => _ end] => destruct x eqn:?
         end.

Lemma same_cells_refl w : same_cells w w.
Proof. unfold same_cells. repeat split. Qed.

Lemma same_cells_trans w1 w2 w3 :
  same_cells w1 w2 -> same_cells w2 w3 -> same_cells w1 w3.
Proof. unfold same_cells. intuition congruence. Qed.

Lemma clearAuto_cells w : same_cells w (clearAuto w).
Proof.
  unfold clearAuto. destruct (autoTimerRef w); [|apply same_cells_refl].
  open_page w. repeat split.
Qed.

Lemma autoAdvanceEffect_cells w : same_cells w (autoAdvanceEffect w).
Proof.
  unfold autoAdvanceEffect.
  apply (same_cells_trans _ _ _ (clearAuto_cells w)).
  generalize (clearAuto w). intros v.
  destruct (_ || _); open_page v; repeat split.
Qed.

Lemma commit_cells prev w : same_cells w (commit prev w).
Proof.
  unfold commit, autoAdvanceCleanup.
  destruct (negb (state_eqb (state prev) (state w))
            || negb (Bool.eqb (autoAdvance prev) (autoAdvance w))).
  - eapply same_cells_trans; [|apply autoAdvanceEffect_cells].
    assert (same_cells w (if autoCleanup w then clearAuto w else w)) as H
      by (destruct (autoCleanup w); [apply clearAuto_cells|apply same_cells_refl]).
    revert H. generalize (if autoCleanup w then clearAuto w else w). intros v Hv.
    eapply same_cells_trans; [exact Hv|]. clear Hv.
    destruct (negb (state_eqb (state prev) (state w)));
      destruct (negb (String.eqb (roomCode prev) (roomCode w)));
      open_page v; repeat split.
  - destruct (negb (state_eqb (state prev) (state w)));
      destruct (negb (String.eqb (roomCode prev) (roomCode w)));
      open_page w; repeat split.
Qed.

Lemma state_eqb_eq a b : state_eqb a b = true <-> a = b.
Proof. destruct a, b; cbn; split; congruence. Qed.

Lemma state_eqb_refl a : state_eqb a a = true.
Proof. destruct a; reflexivity. Qed.

(** With [state], [autoAdvance] and [roomCode] as they were, no effect runs. *)
Lemma commit_unchanged prev w :
  state w = state prev -> autoAdvance w = autoAdvance prev -> roomCode w = roomCode prev ->
  commit prev w = w.
Proof.
  intros E1 E2 E3. unfold commit.
  rewrite E1, E2, E3, state_eqb_refl, Bool.eqb_reflx, String.eqb_refl. reflexivity.
Qed.

Lemma same_timers_refl w : same_timers w w.
Proof. unfold same_timers. repeat split. Qed.

(** [send] followed to its end or to its throw: what a handler that calls
    it last leaves behind. *)
Lemma sending m w :
  or_thrown (send m w) w
  = match wsRef w with
    | Some ws => if ws_open ws then w{{ sent ::= fun l => l ++ [m] }} else w
    | None => w
    end.
Proof. unfold or_thrown, send. destruct (wsRef w) as [[c tk []]|]; reflexivity. Qed.

Lemma send_cells m w :
  same_timers w (or_thrown (send m w) w) /\ state (or_thrown (send m w) w) = state w
  /\ autoAdvance (or_thrown (send m w) w) = autoAdvance w
  /\ roomCode (or_thrown (send m w) w) = roomCode w
  /\ playerCount (or_thrown (send m w) w) = playerCount w
  /\ wsRef (or_thrown (send m w) w) = wsRef w.
Proof.
  rewrite sending. destruct (wsRef w) as [[c tk []]|] eqn:E;
    open_page w; unfold same_timers; cbn; auto 10.
Qed.

Lemma handleWsMessage_timers msg w : same_timers w (handleWsMessage msg w).
Proof.
  unfold handleWsMessage.
  destruct msg; split_ifs; open_page w; unfold same_timers; cbn; auto.
Qed.

Lemma clearAuto_clears w :
  intervals w = match autoTimerRef w with Some i => [i] | None => [] end ->
  intervals (clearAuto w) = [] /\ autoTimerRef (clearAuto w) = None
  /\ nextTimer (clearAuto w) = nextTimer w /\ autoCleanup (clearAuto w) = autoCleanup w.
Proof.
  unfold clearAuto. destruct (autoTimerRef w) as [i|] eqn:E; intros H.
  - open_page w. cbn. rewrite Nat.eqb_refl. cbn. auto.
  - auto.
Qed.

Lemma startGame_eq w :
  startGame w
  = match wsRef w with
    | Some ws =>
        if ws_open ws
        then w{{ sent ::= fun l => (l ++ [Protocol.START_GAME]) ++ [Protocol.NEXT_QUESTION] }}
        else w
    | None => w
    end.
Proof.
  unfold startGame, or_thrown, send. destruct w; cbn.
  destruct wsRef0 as [[c tk []]|]; reflexivity.
Qed.

Ltac unfold_actions :=
  unfold handle, generatePrompts, generated, generateFailed, updatePack, createRoom,
    roomCreated, connectWs, nextQuestion, skipQuestion, endGame, playAgain,
    onclose, LobbyScreen.click, on_review, on_reveal;
  rewrite ?startGame_eq, ?sending.

(** A handler leaves the interval alone or clears it; it never starts one. *)
Lemma handle_timers e w :
  intervals w = match autoTimerRef w with Some i => [i] | None => [] end ->
  nextTimer (handle e w) = nextTimer w
  /\ autoCleanup (handle e w) = autoCleanup w
  /\ (intervals (handle e w) = intervals w /\ autoTimerRef (handle e w) = autoTimerRef w
      \/ intervals (handle e w) = [] /\ autoTimerRef (handle e w) = None).
Proof.
  intros P.
  destruct e;
    try (unfold_actions; open_page w; split_ifs; cbn; auto; fail).
  - (* ClickCreateRoom *)
    cbn [handle]. destruct (on_review w); [|auto].
    unfold createRoom. destruct (wsRef w) as [ws|]; [|auto].
    destruct (pack w); [|auto]. destruct (_ && _); [|auto].
    open_page w. auto.
  - (* ClickNext *)
    cbn [handle]. destruct (on_reveal w); [|auto].
    destruct (autoAdvance w); [|unfold nextQuestion; destruct (send_cells Protocol.NEXT_QUESTION w)
                                   as ((? & ? & ? & ?) & _); auto].
    unfold clickNextAuto; cbv zeta.
    destruct (send_cells Protocol.NEXT_QUESTION (clearAuto w)) as ((E1 & E2 & E3 & E4) & _).
    destruct (clearAuto_clears w P) as (C1 & C2 & C3 & C4).
    rewrite E1, E2, E3, E4. auto.
  - (* Message *)
    cbn [handle]. destruct (handleWsMessage_timers msg w) as (? & ? & ? & ?). auto.
  - (* ReconnectTimeout *)
    cbn [handle]. destruct (reconnects w); [auto|].
    unfold connectWs. open_page w. auto.
  - (* Tick *)
    cbn [handle]. destruct (existsb _ _); [|auto].
    unfold countdown. destruct (Z.leb _ _).
    + destruct (clearAuto_clears w P) as (C1 & C2 & C3 & C4).
      revert C1 C2 C3 C4. generalize (clearAuto w). intros v C1 C2 C3 C4.
      unfold send. open_page v. destruct wsRef0 as [[c tk []]|]; cbn; auto.
    + open_page w. auto.
Qed.

Lemma autoAdvanceEffect_timers x :
  intervals x = match autoTimerRef x with Some i => [i] | None => [] end ->
  intervals (autoAdvanceEffect x) = [] /\ autoTimerRef (autoAdvanceEffect x) = None
  /\ nextTimer (autoAdvanceEffect x) = nextTimer x
  /\ (state x <> REVEAL \/ autoAdvance x = false)
  \/ intervals (autoAdvanceEffect x) = [nextTimer x]
     /\ autoTimerRef (autoAdvanceEffect x) = Some (nextTimer x)
     /\ nextTimer (autoAdvanceEffect x) = S (nextTimer x)
     /\ autoCountdown (autoAdvanceEffect x) = 7
     /\ state x = REVEAL /\ autoAdvance x = true.
Proof.
  intros P. unfold autoAdvanceEffect.
  destruct (clearAuto_clears x P) as (C1 & C2 & C3 & C4).
  destruct (clearAuto_cells x) as (S1 & _).
  assert (autoAdvance (clearAuto x) = autoAdvance x) as S2 by apply clearAuto_cells.
  revert C1 C2 C3 C4 S1 S2. generalize (clearAuto x). intros c C1 C2 C3 C4 S1 S2.
  destruct (negb (state_eqb (state c) REVEAL) || negb (autoAdvance c)) eqn:E.
  - left. assert (state x <> REVEAL \/ autoAdvance x = false) as G.
    { rewrite <- S1, <- S2. apply orb_true_iff in E as [E|E]; apply negb_true_iff in E.
      - left. intros F. apply state_eqb_eq in F. congruence.
      - right. exact E. }
    open_page c. auto.
  - right. apply orb_false_elim in E as [E1 E2].
    apply negb_false_iff in E1, E2. apply state_eqb_eq in E1.
    rewrite <- S1, <- S2, <- C3. open_page c. auto 10.
Qed.

(** After the effects: the interval is as the handler left it and nothing
    the countdown depends on changed; or no interval is alive; or a new
    countdown started, on REVEAL with auto-advance on. *)
Lemma commit_timers prev v :
  intervals v = match autoTimerRef v with Some i => [i] | None => [] end ->
  intervals (commit prev v) = intervals v /\ autoTimerRef (commit prev v) = autoTimerRef v
  /\ nextTimer (commit prev v) = nextTimer v
  /\ state v = state prev /\ autoAdvance v = autoAdvance prev
  \/ intervals (commit prev v) = [] /\ autoTimerRef (commit prev v) = None
     /\ nextTimer (commit prev v) = nextTimer v
     /\ (state v <> REVEAL \/ autoAdvance v = false)
  \/ intervals (commit prev v) = [nextTimer v]
     /\ autoTimerRef (commit prev v) = Some (nextTimer v)
     /\ nextTimer (commit prev v) = S (nextTimer v)
     /\ autoCountdown (commit prev v) = 7
     /\ state v = REVEAL /\ autoAdvance v = true.
Proof.
  intros P. unfold commit.
  destruct (negb (state_eqb (state prev) (state v))) eqn:E1;
    destruct (negb (Bool.eqb (autoAdvance prev) (autoAdvance v))) eqn:E2; cbn [orb].
  4: { left. apply negb_false_iff in E1, E2. apply state_eqb_eq in E1.
       apply Bool.eqb_prop in E2.
       destruct (negb (String.eqb _ _)); open_page v; auto. }
  all: right.
  all: assert (exists x, (intervals x = match autoTimerRef x with Some i => [i] | None => [] end)
                    /\ nextTimer x = nextTimer v /\ state x = state v
                    /\ autoAdvance x = autoAdvance v
                    /\ autoAdvanceCleanup v = x) as (x & Px & Nx & Sx & Ax & ->)
      by (unfold autoAdvanceCleanup; destruct (autoCleanup v);
          [ destruct (clearAuto_clears v P) as (C1 & C2 & C3 & _);
            exists (clearAuto v); rewrite C1, C2; repeat split; auto; apply clearAuto_cells
          | exists v; auto ]).
  all: match goal with
       | |- context [autoAdvanceEffect ?y] =>
           assert (intervals y = match autoTimerRef y with Some i => [i] | None => [] end
                   /\ nextTimer y = nextTimer v /\ state y = state v
                   /\ autoAdvance y = autoAdvance v) as (Py & Ny & Sy & Ay)
             by (destruct (negb (String.eqb _ _)); open_page x; auto);
           destruct (autoAdvanceEffect_timers y Py) as [H|H];
           rewrite Ny, ?Sy, ?Ay in H; [left|right]; tauto
       end.
Qed.

Lemma step_consistent e w : auto_consistent w -> auto_consistent (step e w).
Proof.
  intros [P Q]. unfold step.
  destruct (handle_timers e w P) as (N & _ & H).
  assert (intervals (handle e w)
          = match autoTimerRef (handle e w) with Some i => [i] | None => [] end) as Pv.
  { destruct H as [[-> ->]|[-> ->]]; auto. }
  destruct (commit_cells w (handle e w)) as (Sc & _).
  assert (autoAdvance (commit w (handle e w)) = autoAdvance (handle e w)) as Ac
    by apply commit_cells.
  unfold auto_consistent. rewrite Sc, Ac.
  destruct (commit_timers w (handle e w) Pv)
    as [(I & R & _ & S & A)|[(I & R & _)|(I & R & _ & _ & S & A)]]; rewrite I, R.
  - split; [exact Pv|]. rewrite S, A. intros NN. apply Q.
    destruct H as [[_ <-]|[_ E]]; [exact NN|]. rewrite E in NN. congruence.
  - split; [reflexivity|]. congruence.
  - split; [reflexivity|]. auto.
Qed.

Lemma run_consistent evs w : auto_consistent w -> auto_consistent (run evs w).
Proof.
  revert w. induction evs as [|e evs IH]; intros w C; [exact C|].
  cbn. apply IH, step_consistent, C.
Qed.

Lemma count_sent_snoc {A : Type} (p : A -> bool) (m : A) (l : list A) :
  List.length (filter p (l ++ [m])) = (List.length (filter p l) + (if p m then 1 else 0))%nat.
Proof. rewrite filter_app, length_app. cbn. destruct (p m); reflexivity. Qed.

(** The callback of the interval, case by case. *)
Lemma clearAuto_autoCountdown w : autoCountdown (clearAuto w) = autoCountdown w.
Proof. unfold clearAuto. destruct (autoTimerRef w); destruct w; reflexivity. Qed.

Lemma countdown_fires w :
  (autoCountdown w <= 1)%Z ->
  intervals w = match autoTimerRef w with Some i => [i] | None => [] end ->
  sent (countdown w)
    = sent w ++ match wsRef w with
                | Some ws => if ws_open ws then [Protocol.NEXT_QUESTION] else []
                | None => []
                end
  /\ autoCountdown (countdown w)
     = match wsRef w with
       | Some ws => if ws_open ws then 0%Z else autoCountdown w
       | None => 0%Z
       end
  /\ intervals (countdown w) = [] /\ autoTimerRef (countdown w) = None
  /\ nextTimer (countdown w) = nextTimer w
  /\ state (countdown w) = state w /\ autoAdvance (countdown w) = autoAdvance w
  /\ roomCode (countdown w) = roomCode w /\ wsRef (countdown w) = wsRef w.
Proof.
  intros L P. unfold countdown. apply Z.leb_le in L. rewrite L.
  destruct (clearAuto_clears w P) as (C1 & C2 & C3 & _).
  pose proof (clearAuto_cells w) as C. unfold same_cells in C.
  assert (state (clearAuto w) = state w /\ autoAdvance (clearAuto w) = autoAdvance w
          /\ roomCode (clearAuto w) = roomCode w /\ wsRef (clearAuto w) = wsRef w
          /\ sent (clearAuto w) = sent w) as (S1 & S2 & S3 & S4 & S5) by tauto.
  clear C. rewrite <- S1, <- S2, <- S3, <- S4, <- S5, <- C3.
  rewrite <- (clearAuto_autoCountdown w).
  revert C1 C2. generalize (clearAuto w). intros c C1 C2.
  unfold send. open_page c.
  destruct wsRef0 as [[c' tk []]|]; cbn; rewrite ?app_nil_r; auto 10.
Qed.

Lemma countdown_counts w :
  (1 < autoCountdown w)%Z ->
  countdown w = w{{ autoCountdown := autoCountdown w - 1 }}.
Proof.
  intros L. unfold countdown. apply Z.leb_gt in L. rewrite L. reflexivity.
Qed.

Lemma step_tick i w :
  step (Tick i) w = if existsb (Nat.eqb i) (intervals w) then countdown w else w.
Proof.
  unfold step. cbn [handle].
  destruct (existsb _ _); [|apply commit_unchanged; reflexivity].
  apply commit_unchanged; unfold countdown; destruct (Z.leb _ _);
    try (open_page w; reflexivity).
  all: unfold send; pose proof (clearAuto_cells w) as C; unfold same_cells in C.
  - assert (state (clearAuto w) = state w) as <- by tauto.
    generalize (clearAuto w). intros c. open_page c.
    destruct wsRef0 as [[c' tk []]|]; reflexivity.
  - assert (autoAdvance (clearAuto w) = autoAdvance w) as <- by tauto.
    generalize (clearAuto w). intros c. open_page c.
    destruct wsRef0 as [[c' tk []]|]; reflexivity.
  - assert (roomCode (clearAuto w) = roomCode w) as <- by tauto.
    generalize (clearAuto w). intros c. open_page c.
    destruct wsRef0 as [[c' tk []]|]; reflexivity.
Qed.

(** One step: what the countdown sends, plus the interval alive afterwards,
    is covered by the interval alive before, plus a countdown started. *)
Lemma step_budget e w :
  auto_consistent w ->
  ((match e with
    | Tick _ => count_sent Protocol.is_next_question (step e w)
                - count_sent Protocol.is_next_question w
    | _ => 0
    end) + List.length (intervals (step e w))
   <= List.length (intervals w)
      + (if (nextTimer w <? nextTimer (step e w))%nat then 1 else 0))%nat.
Proof.
  intros [P Q].
  assert (List.length (intervals (step e w))
          <= List.length (intervals w)
             + (if (nextTimer w <? nextTimer (step e w))%nat then 1 else 0))%nat as G.
  { unfold step. destruct (handle_timers e w P) as (N & _ & H).
    assert (intervals (handle e w)
            = match autoTimerRef (handle e w) with Some i => [i] | None => [] end) as Pv
      by (destruct H as [[-> ->]|[-> ->]]; auto).
    assert (List.length (intervals (handle e w)) <= List.length (intervals w))%nat as Hl
      by (destruct H as [[-> _]|[-> _]]; cbn; lia).
    destruct (commit_timers w (handle e w) Pv)
      as [(I & _ & _)|[(I & _ & _)|(I & _ & N' & _)]]; rewrite I; cbn [List.length];
      try lia.
    rewrite N', N. replace (nextTimer w <? S (nextTimer w))%nat with true; [lia|].
    symmetry. apply Nat.ltb_lt. lia. }
  destruct e; try exact G.
  rewrite step_tick in *. destruct (existsb (Nat.eqb i) (intervals w)) eqn:X.
  - destruct (Z.leb_spec (autoCountdown w) 1) as [L|L].
    + destruct (countdown_fires w L P) as (S1 & _ & S2 & _).
      unfold count_sent. rewrite S1, S2.
      assert (List.length (intervals w) >= 1)%nat
        by (destruct (intervals w); [discriminate X|cbn; lia]).
      destruct (wsRef w) as [[c' tk []]|]; cbn [ws_open];
        [rewrite count_sent_snoc|rewrite app_nil_r|rewrite app_nil_r]; cbn; lia.
    + rewrite (countdown_counts w L) in *. unfold count_sent in *.
      open_page w. lia.
  - lia.
Qed.

(** Along any run the countdown sends at most one NEXT_QUESTION for each
    countdown started (or already running at the start). *)
Lemma run_budget evs w :
  auto_consistent w ->
  (auto_sends evs w + List.length (intervals (run evs w))
   <= List.length (intervals w) + countdowns_started evs w)%nat.
Proof.
  revert w. induction evs as [|e evs IH]; intros w C; [cbn; lia|].
  cbn [auto_sends countdowns_started run fold_left].
  pose proof (step_budget e w C) as B.
  pose proof (IH (step e w) (step_consistent e w C)) as R.
  unfold run in R. destruct e; lia.
Qed.

Lemma run_cons e evs w : run (e :: evs) w = run evs (step e w).
Proof. reflexivity. Qed.

Lemma organizer_run_app evs evs' w : run (evs ++ evs') w = run evs' (run evs w).
Proof. apply fold_left_app. Qed.

(** [k] ticks of a countdown that stands above [k]. *)
Lemma ticks_count_down i k w :
  intervals w = [i] ->
  (Z.of_nat k < autoCountdown w)%Z ->
  run (repeat (Tick i) k) w = w{{ autoCountdown := autoCountdown w - Z.of_nat k }}.
Proof.
  revert w. induction k as [|k IH]; intros w I L.
  - cbn. open_page w. rewrite Z.sub_0_r. reflexivity.
  - cbn [repeat]. rewrite run_cons, step_tick, I. cbn [existsb]. rewrite Nat.eqb_refl.
    cbn [orb]. rewrite countdown_counts by lia.
    assert (autoCountdown (w{{ autoCountdown := autoCountdown w - 1 }})
            = (autoCountdown w - 1)%Z) as E by (destruct w; reflexivity).
    rewrite IH; [|destruct w; exact I|rewrite E; lia].
    rewrite E. replace (autoCountdown w - Z.of_nat (S k))%Z
      with (autoCountdown w - 1 - Z.of_nat k)%Z by lia.
    destruct w; reflexivity.
Qed.

(** C10.  On REVEAL with auto-advance on, a countdown of seven starts with
    one interval alive; its first six ticks send nothing and the seventh
    sends one NEXT_QUESTION on an open socket, and none when no socket is
    held or the socket held is still connecting ([send] throws, and the
    seconds shown stay at 1); after it no interval is alive and a further
    tick does nothing.  No interval is alive off REVEAL or with
    auto-advance off, nor after a press of Next, which sends its
    NEXT_QUESTION under the same condition.  Along any run the countdown
    sends at most one NEXT_QUESTION for each countdown started. *)
Theorem auto_advance_once_per_countdown :
  (forall e w,
      auto_consistent w ->
      state w <> REVEAL \/ autoAdvance w = false ->
      state (step e w) = REVEAL -> autoAdvance (step e w) = true ->
      autoCountdown (step e w) = 7%Z /\ intervals (step e w) = [nextTimer w]
      /\ autoTimerRef (step e w) = Some (nextTimer w))
  /\ (forall i w,
        intervals w = [i] -> autoTimerRef w = Some i -> autoCountdown w = 7%Z ->
        (forall k, (k <= 6)%nat ->
           run (repeat (Tick i) k) w = w{{ autoCountdown := 7 - Z.of_nat k }})
        /\ sent (run (repeat (Tick i) 7) w)
             = sent w ++ match wsRef w with
                         | Some ws => if ws_open ws then [Protocol.NEXT_QUESTION] else []
                         | None => []
                         end
        /\ autoCountdown (run (repeat (Tick i) 7) w)
           = match wsRef w with
             | Some ws => if ws_open ws then 0%Z else 1%Z
             | None => 0%Z
             end
        /\ intervals (run (repeat (Tick i) 7) w) = []
        /\ autoTimerRef (run (repeat (Tick i) 7) w) = None
        /\ forall j, step (Tick j) (run (repeat (Tick i) 7) w) = run (repeat (Tick i) 7) w)
  /\ (forall e w,
        auto_consistent w ->
        auto_consistent (step e w)
        /\ (state (step e w) <> REVEAL \/ autoAdvance (step e w) = false ->
            intervals (step e w) = [] /\ autoTimerRef (step e w) = None))
  /\ (forall w,
        auto_consistent w -> on_reveal w = true ->
        intervals (step ClickNext w) = [] /\ autoTimerRef (step ClickNext w) = None
        /\ sent (step ClickNext w)
            = sent w ++ match wsRef w with
                        | Some ws => if ws_open ws then [Protocol.NEXT_QUESTION] else []
                        | None => []
                        end)
  /\ (forall evs w,
        auto_consistent w ->
        (auto_sends evs w + List.length (intervals (run evs w))
         <= List.length (intervals w) + countdowns_started evs w)%nat).
Proof.
  split; [|split; [|split; [|split]]].
  - intros e w [P Q] Off S A.
    assert (autoTimerRef w = None) as R.
    { destruct (autoTimerRef w) eqn:E; [|reflexivity].
      destruct Q as [Q1 Q2]; [congruence|]. destruct Off; congruence. }
    rewrite R in P. unfold step in *.
    destruct (handle_timers e w) as (N & _ & H); [rewrite R; exact P|].
    assert (intervals (handle e w) = [] /\ autoTimerRef (handle e w) = None) as [I' R'].
    { destruct H as [[-> ->]|[-> ->]]; auto. }
    destruct (commit_cells w (handle e w)) as (Sc & _).
    assert (autoAdvance (commit w (handle e w)) = autoAdvance (handle e w)) as Ac
      by apply commit_cells.
    destruct (commit_timers w (handle e w)) as [(_ & _ & _ & S' & A')|[(_ & _ & _ & X)|X]].
    + rewrite I', R'. reflexivity.
    + rewrite Sc, S' in S. rewrite Ac, A' in A. destruct Off; congruence.
    + rewrite Sc in S. rewrite Ac in A. destruct X; congruence.
    + rewrite <- N. tauto.
  - intros i w I R C.
    assert (forall k, (k <= 6)%nat ->
              run (repeat (Tick i) k) w = w{{ autoCountdown := 7 - Z.of_nat k }}) as K.
    { intros k Hk. rewrite ticks_count_down; [rewrite C; reflexivity|exact I|lia]. }
    split; [exact K|].
    assert (run (repeat (Tick i) 7) w
            = step (Tick i) (w{{ autoCountdown := 7 - Z.of_nat 6 }})) as ->.
    { change 7%nat with (6 + 1)%nat. rewrite repeat_app, organizer_run_app.
      rewrite (K 6%nat) by lia. reflexivity. }
    rewrite step_tick.
    set (w6 := w{{ autoCountdown := 7 - Z.of_nat 6 }}).
    assert (intervals w6 = [i] /\ autoTimerRef w6 = Some i /\ autoCountdown w6 = 1%Z
            /\ sent w6 = sent w /\ wsRef w6 = wsRef w) as (I6 & R6 & C6 & S6 & W6)
      by (subst w6; open_page w; auto).
    rewrite I6. cbn [existsb]. rewrite Nat.eqb_refl. cbn [orb].
    destruct (countdown_fires w6) as (F1 & F2 & F3 & F4 & _);
      [lia|rewrite I6, R6; reflexivity|].
    rewrite F1, F2, F3, F4, S6, W6, C6. repeat split.
    intros j. rewrite step_tick, F3. reflexivity.
  - intros e w C. pose proof (step_consistent e w C) as [P Q].
    split; [split; assumption|]. intros Off.
    destruct (autoTimerRef (step e w)) eqn:E.
    + destruct Q as [Q1 Q2]; [congruence|]. destruct Off; congruence.
    + rewrite P. auto.
  - intros w [P Q] V. unfold step. cbn [handle]. rewrite V.
    assert (intervals (if autoAdvance w then clickNextAuto w else nextQuestion w) = []
            /\ autoTimerRef (if autoAdvance w then clickNextAuto w else nextQuestion w) = None
            /\ sent (if autoAdvance w then clickNextAuto w else nextQuestion w)
                = sent w ++ match wsRef w with
                            | Some ws => if ws_open ws then [Protocol.NEXT_QUESTION] else []
                            | None => []
                            end
            /\ state (if autoAdvance w then clickNextAuto w else nextQuestion w) = state w
            /\ autoAdvance (if autoAdvance w then clickNextAuto w else nextQuestion w)
                = autoAdvance w
            /\ roomCode (if autoAdvance w then clickNextAuto w else nextQuestion w)
                = roomCode w) as (G1 & G2 & G3 & G4 & G5 & G6).
    { destruct (autoAdvance w) eqn:A.
      - unfold clickNextAuto; cbv zeta.
        destruct (clearAuto_clears w P) as (C1 & C2 & _).
        pose proof (clearAuto_cells w) as C. unfold same_cells in C.
        assert (state (clearAuto w) = state w /\ autoAdvance (clearAuto w) = autoAdvance w
                /\ roomCode (clearAuto w) = roomCode w /\ wsRef (clearAuto w) = wsRef w
                /\ sent (clearAuto w) = sent w) as (S1 & S2 & S3 & S4 & S5) by tauto.
        clear C. rewrite <- S1, <- S3, <- S4, <- S5, <- A, <- S2.
        revert C1 C2. generalize (clearAuto w). intros c C1 C2.
        unfold or_thrown, send. open_page c.
        destruct wsRef0 as [[c' tk []]|]; cbn; rewrite ?app_nil_r; auto 10.
      - assert (autoTimerRef w = None) as R.
        { destruct (autoTimerRef w) eqn:E; [|reflexivity].
          destruct Q as [_ Q2]; congruence. }
        rewrite R in P. unfold nextQuestion, or_thrown, send. rewrite <- A.
        open_page w. destruct wsRef0 as [[c' tk []]|]; cbn; rewrite ?app_nil_r; auto 10. }
    rewrite commit_unchanged; auto.
  - apply run_budget.
Qed.

Lemma auto_advance_witness :
  auto_consistent first_reveal
  /\ sent (run (repeat (Tick 1%nat) 7) first_reveal)
     = sent first_reveal ++ [Protocol.NEXT_QUESTION]
  /\ (auto_sends toggle_after_countdown first_reveal
      + List.length (intervals (run toggle_after_countdown first_reveal))
      <= List.length (intervals first_reveal)
         + countdowns_started toggle_after_countdown first_reveal)%nat.
Proof.
  assert (auto_consistent first_reveal) as C.
  { split; [vm_compute; reflexivity|]. intros _. vm_compute. split; reflexivity. }
  split; [exact C|].
  destruct auto_advance_once_per_countdown as (_ & H2 & _ & _ & H5).
  split.
  - destruct (H2 1%nat first_reveal) as (_ & S & _);
      [vm_compute; reflexivity|vm_compute; reflexivity|vm_compute; reflexivity|].
    exact S.
  - apply H5. exact C.
Defined.

(** C10, as first stated, fails: within one REVEAL the countdown runs out
    and sends NEXT_QUESTION; the organizer presses Manual and then Auto
    while the page still shows REVEAL; a second countdown starts and sends
    NEXT_QUESTION again.  And a countdown that runs out after the socket has
    closed, or while the socket of the reconnect is still connecting, sends
    nothing. *)
Lemma one_reveal_two_automatic_sends :
  state first_reveal = REVEAL
  /\ forallb (state_eqb REVEAL) (states_along toggle_after_countdown first_reveal) = true
  /\ auto_sends toggle_after_countdown first_reveal = 2%nat
  /\ (forallb (state_eqb REVEAL) (states_along countdown_without_socket first_reveal) = true
      /\ wsRef (run countdown_without_socket first_reveal) = None
      /\ intervals (run countdown_without_socket first_reveal) = []
      /\ autoCountdown (run countdown_without_socket first_reveal) = 0%Z
      /\ sent (run countdown_without_socket first_reveal) = sent first_reveal)
  /\ (forallb (state_eqb REVEAL) (states_along countdown_while_connecting first_reveal) = true
      /\ wsRef (run countdown_while_connecting first_reveal)
         = Some {| ws_code := "ABCD"; ws_token := "token"; ws_open := false |}
      /\ intervals (run countdown_while_connecting first_reveal) = []
      /\ sent (run countdown_while_connecting first_reveal) = sent first_reveal).
Proof. vm_compute. repeat split. Qed.

Lemma step_cells e w : same_cells (handle e w) (step e w).
Proof. apply commit_cells. Qed.

(** Only the Start button sends START_GAME, and only when it is enabled. *)
Lemma handle_start_game e w :
  count_sent Protocol.is_start_game (handle e w) = count_sent Protocol.is_start_game w
  \/ e = ClickStart /\ state w = ROOM /\ LobbyScreen.canStart (playerCount w) = true.
Proof.
  unfold count_sent.
  destruct e;
    try (left; unfold_actions; open_page w; split_ifs; cbn;
         rewrite ?count_sent_snoc; cbn; lia).
  - left. cbn [handle]. destruct (on_review w); [|reflexivity].
    unfold createRoom. destruct (wsRef w) as [ws|]; [|reflexivity].
    destruct (pack w); [|reflexivity]. destruct (_ && _); [|reflexivity].
    open_page w. rewrite count_sent_snoc. cbn. lia.
  - cbn [handle]. destruct (state_eqb (state w) ROOM) eqn:S; [|left; reflexivity].
    apply state_eqb_eq in S. unfold LobbyScreen.click, LobbyScreen.render. cbn.
    destruct (LobbyScreen.canStart (playerCount w)); cbn; [right; auto|left; reflexivity].
  - left. cbn [handle]. destruct (on_reveal w); [|reflexivity].
    destruct (autoAdvance w).
    + unfold clickNextAuto, or_thrown, send; cbv zeta.
      assert (sent (clearAuto w) = sent w) as <- by apply clearAuto_cells.
      generalize (clearAuto w). intros c. open_page c. destruct wsRef0 as [[c' tk []]|]; cbn; try reflexivity.
      rewrite count_sent_snoc. cbn. lia.
    + unfold nextQuestion, or_thrown, send. open_page w. destruct wsRef0 as [[c' tk []]|]; cbn; try reflexivity.
      rewrite count_sent_snoc. cbn. lia.
  - left. cbn [handle]. f_equal. f_equal.
    unfold handleWsMessage. destruct msg; split_ifs; open_page w; reflexivity.
  - left. cbn [handle]. destruct (reconnects w); [reflexivity|].
    unfold connectWs. open_page w. reflexivity.
  - left. cbn [handle]. destruct (existsb _ _); [|reflexivity].
    unfold countdown. destruct (Z.leb _ _); [|open_page w; reflexivity].
    unfold send. assert (sent (clearAuto w) = sent w) as <- by apply clearAuto_cells.
    generalize (clearAuto w). intros c. open_page c. destruct wsRef0 as [[c' tk []]|]; cbn; try reflexivity.
    rewrite count_sent_snoc. cbn. lia.
Qed.

(** C4.  The Start button of the organizer's lobby is enabled exactly when
    the player count is at least the minimum of three; with fewer players
    nothing that can happen on that screen adds a START_GAME to what the
    page sends, and with enough players a click sends START_GAME (followed
    by NEXT_QUESTION) when the socket held is open; without a socket, or
    on a socket that is still connecting (where [send] throws), the click
    sends nothing. *)
Theorem start_needs_minimum_players :
  (forall playerCount,
      LobbyScreen.disabled (LobbyScreen.render playerCount) = false
      <-> (LobbyScreen.minPlayers <= playerCount)%Z)
  /\ (forall e w,
        state w = ROOM -> (playerCount w < LobbyScreen.minPlayers)%Z ->
        count_sent Protocol.is_start_game (step e w)
        = count_sent Protocol.is_start_game w)
  /\ (forall w,
        state w = ROOM -> (LobbyScreen.minPlayers <= playerCount w)%Z ->
        sent (step ClickStart w)
        = sent w ++ match wsRef w with
                    | Some ws =>
                        if ws_open ws
                        then [Protocol.START_GAME; Protocol.NEXT_QUESTION]
                        else []
                    | None => []
                    end).
Proof.
  split; [|split].
  - intros n. unfold LobbyScreen.render, LobbyScreen.canStart. cbn.
    rewrite negb_false_iff, Z.geb_leb, Z.leb_le. reflexivity.
  - intros e w S L.
    assert (sent (step e w) = sent (handle e w)) as E by apply step_cells.
    unfold count_sent in *. rewrite E.
    destruct (handle_start_game e w) as [H|(_ & _ & H)]; [exact H|].
    unfold LobbyScreen.canStart in H. rewrite Z.geb_leb in H. apply Z.leb_le in H. lia.
  - intros w S L.
    assert (sent (step ClickStart w) = sent (handle ClickStart w)) as -> by apply step_cells.
    cbn [handle]. rewrite S. cbn [state_eqb].
    unfold LobbyScreen.click, LobbyScreen.render, LobbyScreen.canStart. cbn.
    apply Z.leb_le in L. rewrite Z.geb_leb, L. cbn.
    rewrite startGame_eq. open_page w. destruct wsRef0 as [[c tk []]|]; cbn.
    + rewrite <- app_assoc. reflexivity.
    + rewrite app_nil_r. reflexivity.
    + rewrite app_nil_r. reflexivity.
Qed.

Lemma start_needs_minimum_players_witness :
  count_sent Protocol.is_start_game
    (step ClickStart (run [RoomCreated "ABCD" (Some "token"); Open] initial))
  = count_sent Protocol.is_start_game (run [RoomCreated "ABCD" (Some "token"); Open] initial)
  /\ sent (step ClickStart
             (run [ RoomCreated "ABCD" (Some "token"); Open;
                    Message (Protocol.PLAYER_JOINED 3 (Some Sample.roster3)) ] initial))
     = [Protocol.START_GAME; Protocol.NEXT_QUESTION].
Proof.
  destruct start_needs_minimum_players as (_ & H2 & H3). split.
  - apply H2; [reflexivity|vm_compute; reflexivity].
  - rewrite H3; [reflexivity|reflexivity|vm_compute; discriminate].
Defined.

Lemma clearAuto_roomCodeRef w : roomCodeRef (clearAuto w) = roomCodeRef w.
Proof. unfold clearAuto. destruct (autoTimerRef w); destruct w; reflexivity. Qed.

Lemma autoAdvanceEffect_roomCodeRef w : roomCodeRef (autoAdvanceEffect w) = roomCodeRef w.
Proof.
  unfold autoAdvanceEffect. rewrite <- (clearAuto_roomCodeRef w).
  generalize (clearAuto w). intros c. destruct (_ || _); destruct c; reflexivity.
Qed.

(** The effects write [roomCodeRef] only to copy a changed [roomCode]. *)
Lemma commit_roomCodeRef prev v :
  roomCodeRef (commit prev v)
  = if String.eqb (roomCode prev) (roomCode v) then roomCodeRef v else roomCode v.
Proof.
  unfold commit.
  assert (roomCodeRef (autoAdvanceCleanup v) = roomCodeRef v
          /\ roomCode (autoAdvanceCleanup v) = roomCode v) as [C1 C2].
  { unfold autoAdvanceCleanup. destruct (autoCleanup v); [|auto].
    split; [apply clearAuto_roomCodeRef|apply clearAuto_cells]. }
  assert (forall x : t,
            roomCodeRef
              (let x1 := if negb (state_eqb (state prev) (state v))
                         then x{{ stateRef := state x }} else x in
               if negb (String.eqb (roomCode prev) (roomCode v))
               then x1{{ roomCodeRef := roomCode x1 }} else x1)
            = if String.eqb (roomCode prev) (roomCode v)
              then roomCodeRef x else roomCode x) as G.
  { intros x. destruct (String.eqb (roomCode prev) (roomCode v)); cbn [negb];
      destruct (negb (state_eqb (state prev) (state v))); destruct x; reflexivity. }
  destruct (negb (state_eqb (state prev) (state v))
            || negb (Bool.eqb (autoAdvance prev) (autoAdvance v))).
  - rewrite autoAdvanceEffect_roomCodeRef.
    etransitivity; [exact (G (autoAdvanceCleanup v))|]. rewrite C1, C2. reflexivity.
  - exact (G v).
Qed.

(** The organizer page on an error that says the room is gone. *)
Lemma organizer_room_gone message w :
  In message ["Room not found"; "Invalid organizer token"] ->
  let w1 := step (Message (Protocol.ERROR message)) w in
  roomCode w1 = "" /\ roomCodeRef w1 = "" /\ state w1 = PROMPT
  /\ reconnects w1 = reconnects w
  /\ reconnects (step Close w1) = reconnects w
  /\ reconnects (onclose (handleWsMessage (Protocol.ERROR message) w)) = reconnects w.
Proof.
  intros M. cbn zeta.
  assert (handleWsMessage (Protocol.ERROR message) w
          = w{{ roomCodeRef := ""; roomCode := ""; state := PROMPT }}) as H.
  { destruct M as [<-|[<-|[]]]; reflexivity. }
  assert (roomCodeRef (step (Message (Protocol.ERROR message)) w) = "") as R.
  { unfold step. rewrite commit_roomCodeRef. cbn [handle]. rewrite H.
    destruct (String.eqb _ _); open_page w; reflexivity. }
  pose proof (step_cells (Message (Protocol.ERROR message)) w) as C.
  cbn [handle] in C. rewrite H in C. unfold same_cells in C.
  assert (reconnects (step (Message (Protocol.ERROR message)) w) = reconnects w) as N.
  { replace (reconnects w)
      with (reconnects (w{{ roomCodeRef := ""; roomCode := ""; state := PROMPT }}))
      by (open_page w; reflexivity). tauto. }
  split; [|split; [exact R|split; [|split; [exact N|split]]]].
  - replace "" with (roomCode (w{{ roomCodeRef := ""; roomCode := ""; state := PROMPT }}))
      by (open_page w; reflexivity). tauto.
  - replace PROMPT with (state (w{{ roomCodeRef := ""; roomCode := ""; state := PROMPT }}))
      by (open_page w; reflexivity). tauto.
  - rewrite <- N. revert R.
    generalize (step (Message (Protocol.ERROR message)) w). intros v R.
    assert (reconnects (step Close v) = reconnects (handle Close v)) as ->
      by apply step_cells.
    cbn [handle]. destruct (wsRef v); [|reflexivity].
    unfold onclose. open_page v. reflexivity.
  - rewrite H. unfold onclose. open_page w. reflexivity.
Qed.


Lemma playAgain_clears w :
  let w' := playAgain w in
  questionNumber w' = 0%Z /\ roundResult w' = None /\ leaderboard w' = []
  /\ superlatives w' = [] /\ roundHistory w' = []
  /\ selectedTarget w' = None /\ hasVoted w' = false /\ state w' = PROMPT.
Proof. open_page w. repeat split. Qed.

(** *** What the page sends, and from where *)

Lemma sending_sent m w : sent (or_thrown (send m w) w) = sent w ++ emitted w [m].
Proof.
  rewrite sending. unfold emitted. destruct w; cbn.
  destruct wsRef0 as [[c tk []]|]; cbn; rewrite ?app_nil_r; reflexivity.
Qed.

Lemma startGame_sent w :
  sent (startGame w) = sent w ++ emitted w [Protocol.START_GAME; Protocol.NEXT_QUESTION].
Proof.
  rewrite startGame_eq. unfold emitted. destruct w; cbn.
  destruct wsRef0 as [[c tk []]|]; cbn; rewrite ?app_nil_r, <- ?app_assoc; reflexivity.
Qed.

Lemma clickNextAuto_sent w :
  sent (clickNextAuto w) = sent w ++ emitted w [Protocol.NEXT_QUESTION].
Proof.
  unfold clickNextAuto; cbv zeta. rewrite sending_sent. unfold emitted.
  pose proof (clearAuto_cells w) as C. unfold same_cells in C.
  assert (wsRef (clearAuto w) = wsRef w /\ sent (clearAuto w) = sent w) as [-> ->] by tauto.
  reflexivity.
Qed.

Lemma countdown_sent w :
  sent (countdown w)
  = sent w ++ (if Z.leb (autoCountdown w) 1 then emitted w [Protocol.NEXT_QUESTION] else []).
Proof.
  unfold countdown. destruct (Z.leb _ _); [|rewrite app_nil_r; destruct w; reflexivity].
  unfold emitted, send.
  pose proof (clearAuto_cells w) as C. unfold same_cells in C.
  assert (wsRef (clearAuto w) = wsRef w /\ sent (clearAuto w) = sent w) as [<- <-] by tauto.
  clear C. generalize (clearAuto w). intros c. destruct c; cbn.
  destruct wsRef0 as [[c tk []]|]; cbn; rewrite ?app_nil_r; reflexivity.
Qed.

Lemma emitted_from e w ms :
  Forall (sent_from e w) ms ->
  ((forall ws, wsRef w = Some ws -> ws_open ws = false) -> emitted w ms = [])
  /\ Forall (sent_from e w) (emitted w ms).
Proof.
  intros F. unfold emitted. destruct (wsRef w) as [ws|]; [|split; [reflexivity|constructor]].
  destruct (ws_open ws) eqn:O; [|split; [reflexivity|constructor]].
  split; [|exact F]. intros H. specialize (H ws eq_refl). congruence.
Qed.

Lemma handle_emits e w :
  exists extra,
    sent (handle e w) = sent w ++ extra
    /\ ((forall ws, wsRef w = Some ws -> ws_open ws = false) -> extra = [])
    /\ Forall (sent_from e w) extra.
Proof.
  assert (forall v, sent v = sent w ->
            exists extra, sent v = sent w ++ extra
              /\ ((forall ws, wsRef w = Some ws -> ws_open ws = false) -> extra = [])
              /\ Forall (sent_from e w) extra) as Same.
  { intros v E. exists []. rewrite app_nil_r. repeat split; [exact E|constructor]. }
  assert (forall v ms, sent v = sent w ++ emitted w ms -> Forall (sent_from e w) ms ->
            exists extra, sent v = sent w ++ extra
              /\ ((forall ws, wsRef w = Some ws -> ws_open ws = false) -> extra = [])
              /\ Forall (sent_from e w) extra) as Emit.
  { intros v ms E F. exists (emitted w ms). split; [exact E|]. apply emitted_from, F. }
  destruct e;
    try (apply Same; unfold_actions; open_page w; split_ifs; cbn; reflexivity).
  - (* ClickCreateRoom *)
    cbn [handle]. destruct (on_review w) eqn:V; [|apply Same; reflexivity].
    unfold createRoom. destruct (wsRef w) as [ws|] eqn:W; [|apply Same; reflexivity].
    destruct (pack w) as [p|] eqn:P; [|apply Same; reflexivity].
    destruct (negb (String.eqb (roomCode w) "") && ws_open ws) eqn:G;
      [|apply Same; reflexivity].
    apply andb_prop in G as [G1 G2]. apply negb_true_iff, String.eqb_neq in G1.
    exists [Protocol.RESET_ROOM p (timerSeconds w) (showVotes w)].
    split; [destruct w; reflexivity|]. split.
    + intros H. specialize (H ws eq_refl). congruence.
    + constructor; [|constructor]. cbn. repeat split; auto. exists ws. auto.
  - (* ClickStart *)
    cbn [handle]. destruct (state_eqb (state w) ROOM) eqn:S; [|apply Same; reflexivity].
    apply state_eqb_eq in S. unfold LobbyScreen.click, LobbyScreen.render. cbn.
    destruct (LobbyScreen.canStart (playerCount w)) eqn:C; cbn; [|apply Same; reflexivity].
    apply (Emit _ _ (startGame_sent w)).
    constructor; [cbn; auto|constructor; [cbn; auto|constructor]].
  - (* ClickSkip *)
    cbn [handle]. destruct (state_eqb (state w) QUESTION) eqn:S; [|apply Same; reflexivity].
    apply state_eqb_eq in S. unfold skipQuestion.
    apply (Emit _ _ (sending_sent _ w)). constructor; [cbn; auto|constructor].
  - (* ClickEnd *)
    cbn [handle]. destruct (state_eqb (state w) QUESTION || on_reveal w) eqn:S;
      [|apply Same; reflexivity].
    assert (state w = QUESTION \/ on_reveal w = true) as S'.
    { apply orb_true_iff in S as [S|S]; [left; apply state_eqb_eq, S|right; exact S]. }
    unfold endGame. apply (Emit _ _ (sending_sent _ w)). constructor; [cbn; auto|constructor].
  - (* ClickNext *)
    cbn [handle]. destruct (on_reveal w) eqn:V; [|apply Same; reflexivity].
    assert (Forall (sent_from ClickNext w) [Protocol.NEXT_QUESTION]) as F
      by (constructor; [cbn; auto|constructor]).
    destruct (autoAdvance w).
    + apply (Emit _ _ (clickNextAuto_sent w) F).
    + unfold nextQuestion. apply (Emit _ _ (sending_sent _ w) F).
  - (* Message *)
    apply Same. cbn [handle]. unfold handleWsMessage.
    destruct msg; split_ifs; open_page w; reflexivity.
  - (* ReconnectTimeout *)
    apply Same. cbn [handle]. destruct (reconnects w); [reflexivity|].
    unfold connectWs. open_page w. reflexivity.
  - (* Tick *)
    cbn [handle]. destruct (existsb (Nat.eqb i) (intervals w)) eqn:X;
      [|apply Same; reflexivity].
    apply existsb_exists in X as (j & Hj & Ej). apply Nat.eqb_eq in Ej. subst j.
    pose proof (countdown_sent w) as E.
    destruct (Z.leb_spec (autoCountdown w) 1) as [L|L].
    + apply (Emit _ _ E). constructor; [|constructor]. cbn. right. right. exists i. auto.
    + apply Same. rewrite E, app_nil_r. reflexivity.
Qed.

(** Every message one step hands to the socket comes from the button (or
    the countdown) that stands for it, pressed on the screen that draws it:
    START_GAME from an enabled Start on the lobby, SKIP_QUESTION from the
    question screen, END_GAME from the question or the reveal screen,
    NEXT_QUESTION from Start, from Next on the reveal screen or from a
    countdown at its last second, RESET_ROOM from Create Room on the review
    screen of a page that has a room and an open socket, carrying the pack
    and the settings shown there. *)
Theorem organizer_commands_come_from_their_screen e w :
  exists extra,
    sent (step e w) = sent w ++ extra /\ Forall (sent_from e w) extra.
Proof.
  destruct (handle_emits e w) as (extra & E & _ & F).
  exists extra. split; [|exact F]. rewrite <- E. apply step_cells.
Qed.

(** A page that holds no socket sends nothing, whatever happens to it. *)
Theorem organizer_silent_without_socket e w :
  wsRef w = None -> sent (step e w) = sent w.
Proof.
  intros W. destruct (handle_emits e w) as (extra & E & N & _).
  rewrite N, app_nil_r in E by (intros ws H; congruence).
  rewrite <- E. apply step_cells.
Qed.

(** Nor does a page whose socket is still connecting, whatever happens to
    it: there every [send] throws, and Create Room asks for a new room
    instead of resetting the one it has. *)
Theorem organizer_silent_while_connecting e w ws :
  wsRef w = Some ws -> ws_open ws = false -> sent (step e w) = sent w.
Proof.
  intros W O. destruct (handle_emits e w) as (extra & E & N & _).
  rewrite N, app_nil_r in E by (intros ws' H; congruence).
  rewrite <- E. apply step_cells.
Qed.

Lemma organizer_silent_while_connecting_witness :
  wsRef (run [Close; ReconnectTimeout] first_reveal)
  = Some {| ws_code := "ABCD"; ws_token := "token"; ws_open := false |}
  /\ sent (step ClickNext (run [Close; ReconnectTimeout] first_reveal))
     = sent (run [Close; ReconnectTimeout] first_reveal).
Proof.
  split; [vm_compute; reflexivity|].
  apply (organizer_silent_while_connecting ClickNext
           (run [Close; ReconnectTimeout] first_reveal)
           {| ws_code := "ABCD"; ws_token := "token"; ws_open := false |});
    vm_compute; reflexivity.
Defined.

(** The organizer page never sends a vote: [submitVote] is bound to no
    control of any screen. *)
Theorem organizer_never_votes evs w :
  count_sent Protocol.is_vote (run evs w) = count_sent Protocol.is_vote w.
Proof.
  revert w. induction evs as [|e evs IH]; intros w; [reflexivity|].
  rewrite run_cons, IH.
  destruct (handle_emits e w) as (extra & E0 & _ & F).
  assert (sent (step e w) = sent w ++ extra) as E
    by (rewrite <- E0; apply step_cells).
  clear E0. unfold count_sent. rewrite E, filter_app, length_app.
  assert (filter Protocol.is_vote extra = []) as ->; [|cbn; lia].
  clear E. induction F as [|m extra Hm F IHF]; [reflexivity|].
  cbn. destruct m; cbn in *; try exact IHF. destruct Hm.
Qed.

Lemma organizer_silent_without_socket_witness :
  sent (step ClickEnd (run [Message (Protocol.QUESTION Sample.question1)] initial)) = [].
Proof.
  rewrite organizer_silent_without_socket; vm_compute; reflexivity.
Defined.

(** *** The refs the close handler reads *)

Lemma clearAuto_stateRef w : stateRef (clearAuto w) = stateRef w.
Proof. unfold clearAuto. destruct (autoTimerRef w); destruct w; reflexivity. Qed.

Lemma autoAdvanceEffect_stateRef w : stateRef (autoAdvanceEffect w) = stateRef w.
Proof.
  unfold autoAdvanceEffect. rewrite <- (clearAuto_stateRef w).
  generalize (clearAuto w). intros c. destruct (_ || _); destruct c; reflexivity.
Qed.

(** The effects write [stateRef] only to copy a changed [state]. *)
Lemma commit_stateRef prev v :
  stateRef (commit prev v)
  = if state_eqb (state prev) (state v) then stateRef v else state v.
Proof.
  unfold commit.
  assert (stateRef (autoAdvanceCleanup v) = stateRef v
          /\ state (autoAdvanceCleanup v) = state v) as [C1 C2].
  { unfold autoAdvanceCleanup. destruct (autoCleanup v); [|auto].
    split; [apply clearAuto_stateRef|apply clearAuto_cells]. }
  assert (forall x : t,
            stateRef
              (let x1 := if negb (state_eqb (state prev) (state v))
                         then x{{ stateRef := state x }} else x in
               if negb (String.eqb (roomCode prev) (roomCode v))
               then x1{{ roomCodeRef := roomCode x1 }} else x1)
            = if state_eqb (state prev) (state v) then stateRef x else state x) as G.
  { intros x. destruct (state_eqb (state prev) (state v)); cbn [negb];
      destruct (negb (String.eqb (roomCode prev) (roomCode v))); destruct x; reflexivity. }
  destruct (negb (state_eqb (state prev) (state v))
            || negb (Bool.eqb (autoAdvance prev) (autoAdvance v))).
  - rewrite autoAdvanceEffect_stateRef.
    etransitivity; [exact (G (autoAdvanceCleanup v))|]. rewrite C1, C2. reflexivity.
  - exact (G v).
Qed.

(** A handler writes neither ref, but for the room-gone branch of ERROR,
    which empties [roomCodeRef] together with [roomCode]. *)
Lemma handle_refs e w :
  stateRef (handle e w) = stateRef w
  /\ (roomCodeRef (handle e w) = roomCodeRef w
      \/ roomCodeRef (handle e w) = roomCode (handle e w)).
Proof.
  destruct e;
    try (unfold_actions; open_page w; split_ifs; cbn; auto; fail).
  - (* ClickCreateRoom *)
    cbn [handle]. destruct (on_review w); [|auto].
    unfold createRoom. destruct (wsRef w) as [ws|]; [|auto].
    destruct (pack w); [|auto]. destruct (_ && _); [|auto].
    open_page w. auto.
  - (* ClickNext *)
    cbn [handle]. destruct (on_reveal w); [|auto].
    destruct (autoAdvance w).
    + unfold clickNextAuto, or_thrown, send; cbv zeta.
      rewrite <- (clearAuto_stateRef w), <- (clearAuto_roomCodeRef w).
      generalize (clearAuto w). intros c. destruct c; cbn. destruct wsRef0 as [[c' tk []]|]; cbn; auto.
    + unfold nextQuestion, or_thrown, send. destruct w; cbn. destruct wsRef0 as [[c' tk []]|]; cbn; auto.
  - (* Message *)
    cbn [handle]. unfold handleWsMessage.
    destruct msg; split_ifs; open_page w; cbn; auto.
  - (* ReconnectTimeout *)
    cbn [handle]. destruct (reconnects w); [auto|].
    unfold connectWs. open_page w. auto.
  - (* Tick *)
    cbn [handle]. destruct (existsb _ _); [|auto].
    unfold countdown. destruct (Z.leb _ _); [|open_page w; auto].
    unfold send.
    rewrite <- (clearAuto_stateRef w), <- (clearAuto_roomCodeRef w).
    generalize (clearAuto w). intros c. destruct c; cbn. destruct wsRef0 as [[c' tk []]|]; cbn; auto.
Qed.

Lemma step_in_sync e w : refs_in_sync w -> refs_in_sync (step e w).
Proof.
  intros [S R]. unfold refs_in_sync, step.
  destruct (commit_cells w (handle e w)) as (Sc & _).
  assert (roomCode (commit w (handle e w)) = roomCode (handle e w)) as Rc
    by apply commit_cells.
  rewrite commit_stateRef, commit_roomCodeRef, Sc, Rc.
  destruct (handle_refs e w) as (HS & HR). split.
  - destruct (state_eqb (state w) (state (handle e w))) eqn:E; [|reflexivity].
    apply state_eqb_eq in E. congruence.
  - destruct (String.eqb_spec (roomCode w) (roomCode (handle e w))) as [E|E]; [|reflexivity].
    destruct HR as [H|H]; congruence.
Qed.

(** After every step of a page that started at the prompt screen,
    [stateRef] holds the screen shown and [roomCodeRef] the room code
    shown: the close handler decides on what the page shows. *)
Theorem organizer_refs_follow_the_page evs :
  stateRef (run evs initial) = state (run evs initial)
  /\ roomCodeRef (run evs initial) = roomCode (run evs initial).
Proof.
  assert (forall w, refs_in_sync w -> refs_in_sync (run evs w)) as G.
  { induction evs as [|e evs IH]; intros w H; [exact H|].
    rewrite run_cons. apply IH, step_in_sync, H. }
  apply (G initial). split; reflexivity.
Qed.

(** *** Reconnecting *)

Lemma step_close w ws : wsRef w = Some ws -> step Close w = onclose w.
Proof.
  intros W. unfold step. cbn [handle]. rewrite W.
  apply commit_unchanged; unfold onclose; destruct (_ && _); destruct w; reflexivity.
Qed.

Lemma step_reconnect w n :
  reconnects w = S n ->
  step ReconnectTimeout w = connectWs (roomCodeRef w) (w{{ reconnects := n }}).
Proof.
  intros N. unfold step. cbn [handle]. rewrite N.
  apply commit_unchanged; unfold connectWs; destruct w; reflexivity.
Qed.

(** When the socket of a page with a room closes on the lobby, question,
    reveal or final screen, the page drops the socket and schedules one
    reconnect; when that fires, the page holds a new, not yet open socket
    for the same room code and organizer token, and shows the same screen.
    On the prompt, loading and review screens, or without a room code, a
    close schedules nothing. *)
Theorem organizer_reconnects_to_its_room w ws :
  refs_in_sync w -> wsRef w = Some ws ->
  (roomCode w <> "" -> In (state w) activeStates ->
   wsRef (step Close w) = None
   /\ reconnects (step Close w) = S (reconnects w)
   /\ wsRef (run [Close; ReconnectTimeout] w)
      = Some {| ws_code := roomCode w; ws_token := organizerTokenRef w; ws_open := false |}
   /\ reconnects (run [Close; ReconnectTimeout] w) = reconnects w
   /\ state (run [Close; ReconnectTimeout] w) = state w
   /\ sent (run [Close; ReconnectTimeout] w) = sent w)
  /\ (roomCode w = "" \/ In (state w) [PROMPT; LOADING; REVIEW] ->
      wsRef (step Close w) = None /\ reconnects (step Close w) = reconnects w).
Proof.
  intros [HS HR] W. rewrite (step_close w ws W). split.
  - intros C A.
    assert (onclose w = w{{ wsRef := None }}{{ reconnects ::= S }}) as E.
    { unfold onclose.
      replace (roomCodeRef (w{{ wsRef := None }})) with (roomCode w)
        by (rewrite <- HR; destruct w; reflexivity).
      replace (stateRef (w{{ wsRef := None }})) with (state w)
        by (rewrite <- HS; destruct w; reflexivity).
      apply String.eqb_neq in C. rewrite C.
      assert (existsb (state_eqb (state w)) activeStates = true) as ->.
      { apply existsb_exists. exists (state w). split; [exact A|apply state_eqb_refl]. }
      reflexivity. }
    cbn [run fold_left]. rewrite (step_close w ws W), E.
    rewrite (step_reconnect _ (reconnects w)) by (destruct w; reflexivity).
    unfold connectWs. rewrite <- HR. destruct w; cbn. repeat split.
  - intros H.
    assert (negb (String.eqb (roomCodeRef (w{{ wsRef := None }})) "")
            && existsb (state_eqb (stateRef (w{{ wsRef := None }}))) activeStates
            = false) as E.
    { replace (roomCodeRef (w{{ wsRef := None }})) with (roomCode w)
        by (rewrite <- HR; destruct w; reflexivity).
      replace (stateRef (w{{ wsRef := None }})) with (state w)
        by (rewrite <- HS; destruct w; reflexivity).
      destruct H as [->|H]; [reflexivity|].
      apply andb_false_iff. right.
      destruct H as [<-|[<-|[<-|[]]]]; reflexivity. }
    unfold onclose. rewrite E. destruct w; cbn. split; reflexivity.
Qed.

Lemma organizer_reconnects_to_its_room_witness :
  wsRef (run [Close; ReconnectTimeout] first_reveal)
  = Some {| ws_code := "ABCD"; ws_token := "token"; ws_open := false |}.
Proof.
  destruct (organizer_reconnects_to_its_room first_reveal
              {| ws_code := "ABCD"; ws_token := "token"; ws_open := true |})
    as [H _]; [vm_compute; split; reflexivity|vm_compute; reflexivity|].
  destruct H as (_ & _ & E & _);
    [vm_compute; discriminate|vm_compute; auto|].
  rewrite E. vm_compute. reflexivity.
Defined.

(** *** The number on the Next button *)

Lemma handle_countdown e w :
  autoCountdown (handle e w) = autoCountdown w
  \/ autoCountdown (handle e w) = 0%Z
  \/ (1 < autoCountdown w)%Z /\ autoCountdown (handle e w) = (autoCountdown w - 1)%Z.
Proof.
  destruct e;
    try (left; unfold_actions; open_page w; split_ifs; reflexivity).
  - left. cbn [handle]. destruct (on_review w); [|reflexivity].
    unfold createRoom. destruct (wsRef w) as [ws|]; [|reflexivity].
    destruct (pack w); [|reflexivity]. destruct (_ && _); [|reflexivity].
    destruct w; reflexivity.
  - left. cbn [handle]. destruct (on_reveal w); [|reflexivity].
    destruct (autoAdvance w).
    + unfold clickNextAuto, or_thrown, send, clearAuto; cbv zeta. destruct w; cbn.
      destruct autoTimerRef0, wsRef0 as [[c' tk []]|]; reflexivity.
    + unfold nextQuestion, or_thrown, send. destruct w; cbn. destruct wsRef0 as [[c' tk []]|]; reflexivity.
  - left. cbn [handle]. unfold handleWsMessage.
    destruct msg; split_ifs; destruct w; reflexivity.
  - left. cbn [handle]. destruct (reconnects w); [reflexivity|].
    unfold connectWs. destruct w; reflexivity.
  - cbn [handle]. destruct (existsb _ _); [|left; reflexivity].
    unfold countdown. destruct (Z.leb_spec (autoCountdown w) 1) as [L|L].
    + unfold send, clearAuto. destruct w; cbn.
      destruct autoTimerRef0, wsRef0 as [[c' tk []]|]; cbn; auto.
    + right. right. split; [exact L|]. destruct w; reflexivity.
Qed.

Lemma commit_countdown prev v :
  autoCountdown (commit prev v) = autoCountdown v
  \/ autoCountdown (commit prev v) = 0%Z
  \/ autoCountdown (commit prev v) = 7%Z.
Proof.
  unfold commit.
  assert (forall x : t,
            autoCountdown
              (let x1 := if negb (state_eqb (state prev) (state v))
                         then x{{ stateRef := state x }} else x in
               if negb (String.eqb (roomCode prev) (roomCode v))
               then x1{{ roomCodeRef := roomCode x1 }} else x1)
            = autoCountdown x) as G.
  { intros x. destruct (negb (state_eqb (state prev) (state v)));
      destruct (negb (String.eqb (roomCode prev) (roomCode v))); destruct x; reflexivity. }
  assert (forall x : t,
            autoCountdown (autoAdvanceEffect x) = 0%Z
            \/ autoCountdown (autoAdvanceEffect x) = 7%Z) as A.
  { intros x. unfold autoAdvanceEffect. generalize (clearAuto x). intros c.
    destruct (_ || _); destruct c; auto. }
  destruct (negb (state_eqb (state prev) (state v))
            || negb (Bool.eqb (autoAdvance prev) (autoAdvance v))).
  - right. apply A.
  - left. exact (G v).
Qed.

(** The seconds shown on the Next button are always between 0 and 7. *)
Theorem organizer_countdown_within_seven evs :
  (0 <= autoCountdown (run evs initial) <= 7)%Z.
Proof.
  assert (forall w, (0 <= autoCountdown w <= 7)%Z ->
                    (0 <= autoCountdown (run evs w) <= 7)%Z) as G.
  { induction evs as [|e evs IH]; intros w H; [exact H|].
    rewrite run_cons. apply IH. unfold step.
    destruct (commit_countdown w (handle e w)) as [-> | [-> | ->] ]; try lia.
    destruct (handle_countdown e w) as [-> | [-> | [L ->] ] ]; lia. }
  apply (G initial). cbn. lia.
Qed.

(** *** Play again *)

Ltac by_cells e w :=
  let C := fresh "C" in
  pose proof (step_cells e w) as C; unfold same_cells in C;
  unfold same_room, progress_cleared;
  destruct w; cbn -[step] in *; subst; cbn -[step] in C;
  intuition congruence.

Lemma play_again_step w :
  state w = PODIUM ->
  state (step ClickPlayAgain w) = PROMPT
  /\ same_room w (step ClickPlayAgain w)
  /\ progress_cleared (step ClickPlayAgain w)
  /\ sent (step ClickPlayAgain w) = sent w.
Proof. intros S. by_cells ClickPlayAgain w. Qed.

Lemma generate_step w :
  state w = PROMPT ->
  state (step ClickGenerate w) = LOADING
  /\ same_room w (step ClickGenerate w)
  /\ (progress_cleared w -> progress_cleared (step ClickGenerate w))
  /\ sent (step ClickGenerate w) = sent w.
Proof. intros S. by_cells ClickGenerate w. Qed.

Lemma generated_step p pack_id w :
  state (step (Generated p pack_id) w) = REVIEW
  /\ pack (step (Generated p pack_id) w) = Some p
  /\ totalQuestions (step (Generated p pack_id) w) = Z.of_nat (List.length (prompts p))
  /\ same_room w (step (Generated p pack_id) w)
  /\ (progress_cleared w -> progress_cleared (step (Generated p pack_id) w))
  /\ sent (step (Generated p pack_id) w) = sent w.
Proof. by_cells (Generated p pack_id) w. Qed.

Lemma create_room_step w ws p :
  state w = REVIEW -> pack w = Some p -> roomCode w <> "" ->
  wsRef w = Some ws -> ws_open ws = true ->
  state (step ClickCreateRoom w) = REVIEW
  /\ pack (step ClickCreateRoom w) = Some p
  /\ totalQuestions (step ClickCreateRoom w) = totalQuestions w
  /\ same_room w (step ClickCreateRoom w)
  /\ (progress_cleared w -> progress_cleared (step ClickCreateRoom w))
  /\ sent (step ClickCreateRoom w)
     = sent w ++ [Protocol.RESET_ROOM p (timerSeconds w) (showVotes w)].
Proof.
  intros S K C W O. apply String.eqb_neq in C.
  pose proof (step_cells ClickCreateRoom w) as H. unfold same_cells in H.
  assert (handle ClickCreateRoom w
          = w{{ sent ::= fun l => l ++ [Protocol.RESET_ROOM p (timerSeconds w) (showVotes w)] }})
    as E.
  { cbn [handle]. unfold on_review, createRoom. rewrite S, K, W, C, O. reflexivity. }
  rewrite E in H. unfold same_room, progress_cleared.
  destruct w; cbn -[step] in *. intuition congruence.
Qed.

(** From the final screen of a page that has a room and an open socket,
    Play Again, Generate, the arrival of the new pack and Create Room send
    one RESET_ROOM with the new pack and the settings of the page, and
    nothing else; the page keeps its room code and its socket, holds the
    new pack, and has dropped question number, round result, leaderboard,
    awards and round history of the game before. *)
Theorem play_again_reuses_the_room w ws p pack_id :
  state w = PODIUM -> roomCode w <> "" -> wsRef w = Some ws -> ws_open ws = true ->
  let w' := run [ClickPlayAgain; ClickGenerate; Generated p pack_id; ClickCreateRoom] w in
  sent w' = sent w ++ [Protocol.RESET_ROOM p (timerSeconds w) (showVotes w)]
  /\ roomCode w' = roomCode w /\ wsRef w' = wsRef w
  /\ state w' = REVIEW /\ pack w' = Some p
  /\ totalQuestions w' = Z.of_nat (List.length (prompts p))
  /\ questionNumber w' = 0%Z /\ roundResult w' = None /\ leaderboard w' = []
  /\ superlatives w' = [] /\ roundHistory w' = [].
Proof.
  intros S C W O. cbn zeta. cbn [run fold_left].
  destruct (play_again_step w S) as (S1 & R1 & P1 & E1).
  set (w1 := step ClickPlayAgain w) in *.
  destruct (generate_step w1 S1) as (S2 & R2 & P2 & E2).
  set (w2 := step ClickGenerate w1) in *.
  destruct (generated_step p pack_id w2) as (S3 & K3 & T3 & R3 & P3 & E3).
  set (w3 := step (Generated p pack_id) w2) in *.
  unfold same_room in *.
  destruct (create_room_step w3 ws p) as (S4 & K4 & T4 & R4 & P4 & E4);
    [exact S3|exact K3|intuition congruence|intuition congruence|exact O|].
  set (w4 := step ClickCreateRoom w3) in *.
  unfold same_room, progress_cleared in *.
  rewrite E4, E3, E2, E1, T4, T3, S4, K4.
  replace (timerSeconds w3) with (timerSeconds w) by intuition congruence.
  replace (showVotes w3) with (showVotes w) by intuition congruence.
  split; [reflexivity|]. intuition congruence.
Qed.

Lemma play_again_reuses_the_room_witness :
  sent (run [ ClickPlayAgain; ClickGenerate; Generated Sample.pack3 "pack-2";
              ClickCreateRoom ]
            (run [ Message (Protocol.PODIUM Sample.podium1) ] first_reveal))
  = sent first_reveal ++ [Protocol.RESET_ROOM Sample.pack3 30 true].
Proof.
  destruct (play_again_reuses_the_room
              (run [ Message (Protocol.PODIUM Sample.podium1) ] first_reveal)
              {| ws_code := "ABCD"; ws_token := "token"; ws_open := true |}
              Sample.pack3 "pack-2") as [E _];
    [vm_compute; reflexivity|vm_compute; discriminate|vm_compute; reflexivity
    |reflexivity|].
  rewrite E. vm_compute. reflexivity.
Defined.

(** *** Between two games *)







End OrganizerFacts.

(** ** The three clients side by side *)

Section ClientFacts.

Variable trim : string -> string.

(** C5.  On the error "Room not found" the player page removes its saved
    session and shows JOIN, so the close that follows schedules no rejoin
    (and a reload finds no session to rejoin with).  On "Room not found" or
    "Invalid organizer token" the organizer page empties its room code, also
    the copy in [roomCodeRef], so the close that follows schedules no
    reconnect, whether or not the effects ran in between. *)
Theorem room_gone_stops_reconnecting :
  (forall c w,
      let w1 := PlayerPage.step trim
                  (PlayerPage.Message c (Protocol.ERROR "Room not found")) w in
      PlayerPage.session w1 = None /\ PlayerPage.state w1 = PlayerPage.JOIN
      /\ PlayerPage.timers w1 = PlayerPage.timers w
      /\ (forall c',
            PlayerPage.timers (PlayerPage.step trim (PlayerPage.Close c') w1)
            = PlayerPage.timers w
            /\ PlayerPage.state (PlayerPage.step trim (PlayerPage.Close c') w1)
               = PlayerPage.JOIN)
      /\ (forall room emoji,
            PlayerPage.timers
              (PlayerPage.mount (PlayerPage.initial room (PlayerPage.session w1) emoji))
            = []))
  /\ (forall message w,
        In message ["Room not found"; "Invalid organizer token"] ->
        let w1 := OrganizerPage.step
                    (OrganizerPage.Message (Protocol.ERROR message)) w in
        OrganizerPage.roomCode w1 = "" /\ OrganizerPage.roomCodeRef w1 = ""
        /\ OrganizerPage.reconnects w1 = OrganizerPage.reconnects w
        /\ OrganizerPage.reconnects (OrganizerPage.step OrganizerPage.Close w1)
           = OrganizerPage.reconnects w
        /\ OrganizerPage.reconnects
             (OrganizerPage.onclose
                (OrganizerPage.handleWsMessage (Protocol.ERROR message) w))
           = OrganizerPage.reconnects w).
Proof.
  split.
  - intros c w. pose proof (player_room_not_found trim c w) as H. cbn zeta in *. tauto.
  - intros message w M. pose proof (organizer_room_gone message w M) as H.
    cbn zeta in *. tauto.
Qed.



(** The rows of a vote breakdown, none when there is no vote. *)
Lemma breakdown_rows (vs : list Vote) (row : Vote -> Reveal.Row) :
  (if (0 <? List.length vs)%nat then Some (map row vs) else None)
  = match vs with [] => None | _ => Some (map row vs) end.
Proof. destruct vs; reflexivity. Qed.

(** What each page draws of the votes a ROUND_RESULT carries: the player
    page and the spectator page list them whenever there is one, the
    organizer page only with its own [showVotes] on. *)
Lemma breakdown_of_message m :
  (forall c w,
      option_map Reveal.breakdown
        (PlayerPage.reveal
           (PlayerPage.step trim (PlayerPage.Message c (Protocol.ROUND_RESULT m)) w))
      = Some match Js.orList (Protocol.m_votes m) with
             | [] => None
             | vs => Some (map (fun v => (if String.eqb (voter v) (PlayerPage.nickname w)
                                          then "You" else voter v, target v)) vs)
             end)
  /\ (forall w,
        SpectatorPage.joined w = true ->
        option_map Reveal.breakdown
          (SpectatorPage.reveal (SpectatorPage.onmessage (Protocol.ROUND_RESULT m) w))
        = Some match Js.orList (Protocol.m_votes m) with
               | [] => None
               | vs => Some (map (fun v => (voter v, target v)) vs)
               end)
  /\ (forall w,
        option_map Reveal.breakdown
          (OrganizerPage.reveal
             (OrganizerPage.step (OrganizerPage.Message (Protocol.ROUND_RESULT m)) w))
        = Some (if OrganizerPage.showVotes w
                then match Js.orList (Protocol.m_votes m) with
                     | [] => None
                     | vs => Some (map (fun v => (voter v, target v)) vs)
                     end
                else None)).
Proof.
  split; [|split].
  - intros c w. cbn [PlayerPage.step PlayerPage.onmessage].
    unfold PlayerPage.reveal. destruct w; cbn -[Nat.ltb map].
    rewrite breakdown_rows. destruct (Js.orList (Protocol.m_votes m)); reflexivity.
  - intros w J. unfold SpectatorPage.reveal. destruct w; cbn -[Nat.ltb] in *.
    rewrite J. cbn -[Nat.ltb map]. rewrite breakdown_rows.
    destruct (Js.orList (Protocol.m_votes m)); reflexivity.
  - intros w.
    pose proof (step_cells (OrganizerPage.Message (Protocol.ROUND_RESULT m)) w) as C.
    unfold OrganizerPage.same_cells in C.
    cbn [OrganizerPage.handle OrganizerPage.handleWsMessage] in C.
    unfold OrganizerPage.reveal.
    assert (OrganizerPage.state
              (OrganizerPage.step (OrganizerPage.Message (Protocol.ROUND_RESULT m)) w)
            = OrganizerPage.REVEAL) as -> by (destruct C as (-> & _); destruct w; reflexivity).
    assert (OrganizerPage.roundResult
              (OrganizerPage.step (OrganizerPage.Message (Protocol.ROUND_RESULT m)) w)
            = Some (Protocol.round_result_of m)) as ->
      by (replace (OrganizerPage.roundResult _) with
            (OrganizerPage.roundResult
               (w{{ OrganizerPage.roundResult := Some (Protocol.round_result_of m);
                    OrganizerPage.state := OrganizerPage.REVEAL }}))
            by (symmetry; tauto); destruct w; reflexivity).
    assert (OrganizerPage.showVotes
              (OrganizerPage.step (OrganizerPage.Message (Protocol.ROUND_RESULT m)) w)
            = OrganizerPage.showVotes w) as ->
      by (replace (OrganizerPage.showVotes w) with
            (OrganizerPage.showVotes
               (w{{ OrganizerPage.roundResult := Some (Protocol.round_result_of m);
                    OrganizerPage.state := OrganizerPage.REVEAL }}))
            by (destruct w; reflexivity); tauto).
    cbn -[Nat.ltb map]. destruct (OrganizerPage.showVotes w); cbn -[Nat.ltb map];
      [|reflexivity].
    rewrite breakdown_rows. destruct (Js.orList (Protocol.m_votes m)); reflexivity.
Qed.

(** C3.  The room sends the votes to players and spectators only when
    [show_votes] is enabled, and to the organizer always.  So the reveal
    screens of the player and of the spectator list the votes of a round
    exactly when [show_votes] is enabled and there is a vote; and although
    the organizer page holds the votes of every round, its reveal screen
    lists them exactly when its own [showVotes] is on and there is a
    vote. *)
Theorem breakdown_visibility settings r :
  (forall c w,
      option_map Reveal.breakdown
        (PlayerPage.reveal
           (PlayerPage.step trim
              (PlayerPage.Message c
                 (Protocol.ROUND_RESULT
                    (VotingEngine.round_result_for VotingEngine.Player settings r))) w))
      = Some (if show_votes settings
              then match votes r with
                   | [] => None
                   | vs => Some (map (fun v => (if String.eqb (voter v) (PlayerPage.nickname w)
                                                then "You" else voter v, target v)) vs)
                   end
              else None))
  /\ (forall w,
        SpectatorPage.joined w = true ->
        option_map Reveal.breakdown
          (SpectatorPage.reveal
             (SpectatorPage.onmessage
                (Protocol.ROUND_RESULT
                   (VotingEngine.round_result_for VotingEngine.Spectator settings r)) w))
        = Some (if show_votes settings
                then match votes r with
                     | [] => None
                     | vs => Some (map (fun v => (voter v, target v)) vs)
                     end
                else None))
  /\ (forall w,
        option_map votes
          (OrganizerPage.roundResult
             (OrganizerPage.step
                (OrganizerPage.Message
                   (Protocol.ROUND_RESULT
                      (VotingEngine.round_result_for VotingEngine.Organizer settings r))) w))
        = Some (votes r)
        /\ option_map Reveal.breakdown
             (OrganizerPage.reveal
                (OrganizerPage.step
                   (OrganizerPage.Message
                      (Protocol.ROUND_RESULT
                         (VotingEngine.round_result_for VotingEngine.Organizer settings r))) w))
           = Some (if OrganizerPage.showVotes w
                   then match votes r with
                        | [] => None
                        | vs => Some (map (fun v => (voter v, target v)) vs)
                        end
                   else None)).
Proof.
  split; [|split].
  - intros c w.
    rewrite (proj1 (breakdown_of_message
                      (VotingEngine.round_result_for VotingEngine.Player settings r)) c w).
    cbn [VotingEngine.round_result_for Protocol.m_votes].
    destruct (show_votes settings); reflexivity.
  - intros w J.
    rewrite (proj1 (proj2 (breakdown_of_message
                     (VotingEngine.round_result_for VotingEngine.Spectator settings r))) w J).
    cbn [VotingEngine.round_result_for Protocol.m_votes].
    destruct (show_votes settings); reflexivity.
  - intros w. split.
    + pose proof (step_cells
                    (OrganizerPage.Message
                       (Protocol.ROUND_RESULT
                          (VotingEngine.round_result_for VotingEngine.Organizer settings r)))
                    w) as C.
      unfold OrganizerPage.same_cells in C.
      cbn [OrganizerPage.handle OrganizerPage.handleWsMessage] in C.
      replace (OrganizerPage.roundResult
                 (OrganizerPage.step
                    (OrganizerPage.Message
                       (Protocol.ROUND_RESULT
                          (VotingEngine.round_result_for VotingEngine.Organizer settings r)))
                    w))
        with (OrganizerPage.roundResult
                (w{{ OrganizerPage.roundResult :=
                       Some (Protocol.round_result_of
                               (VotingEngine.round_result_for VotingEngine.Organizer
                                  settings r));
                     OrganizerPage.state := OrganizerPage.REVEAL }}))
        by (symmetry; tauto).
      destruct w; reflexivity.
    + rewrite (proj2 (proj2 (breakdown_of_message
                       (VotingEngine.round_result_for VotingEngine.Organizer settings r))) w).
      reflexivity.
Qed.

(** C3, as first stated, fails for the organizer: with "Show who voted for
    whom" switched off, the reveal screen of the organizer lists no votes
    although the round result holds one. *)
Lemma organizer_breakdown_hidden :
  OrganizerPage.showVotes OrganizerPage.reveal_votes_off = false
  /\ option_map votes (OrganizerPage.roundResult OrganizerPage.reveal_votes_off)
     = Some [ {| voter := "Alex"; target := "Jordan" |} ]
  /\ option_map Reveal.breakdown (OrganizerPage.reveal OrganizerPage.reveal_votes_off)
     = Some None.
Proof. vm_compute. repeat split. Qed.

(** C9.  For every podium list the reveal screen draws three slots.  The
    left one shows the second entry of the list, the middle one the first,
    the right one the third: each with the entry itself (nickname, avatar,
    votes), a bar of the height of its rank, and the crown on rank 1.
    Where the list has no such entry the slot is empty, and the list is
    read at no other place.  The bars are 140, 110 and 80 high on the
    organizer and player pages and 160, 120 and 90 on the spectator page,
    60 for any rank beyond 3.  The three pages draw the slots of their
    round result this way. *)
Theorem reveal_podium_total :
  (forall heights pod,
      Reveal.podium_slots heights pod
      = [ match nth_error pod 1 with
          | Some e => Reveal.EntrySlot e (heights (rank e)) (Z.eqb (rank e) 1)
          | None => Reveal.EmptySlot 0
          end;
          match nth_error pod 0 with
          | Some e => Reveal.EntrySlot e (heights (rank e)) (Z.eqb (rank e) 1)
          | None => Reveal.EmptySlot 1
          end;
          match nth_error pod 2 with
          | Some e => Reveal.EntrySlot e (heights (rank e)) (Z.eqb (rank e) 1)
          | None => Reveal.EmptySlot 2
          end ]
      /\ (forall i, (List.length pod <= i)%nat <-> nth_error pod i = None))
  /\ (forall r,
        Reveal.height_of 140 110 80 r
        = (if Z.eqb r 1 then 140 else if Z.eqb r 2 then 110
           else if Z.eqb r 3 then 80 else 60)%Z
        /\ Reveal.height_of 160 120 90 r
           = (if Z.eqb r 1 then 160 else if Z.eqb r 2 then 120
              else if Z.eqb r 3 then 90 else 60)%Z)
  /\ (forall w r,
        OrganizerPage.state w = OrganizerPage.REVEAL ->
        OrganizerPage.roundResult w = Some r ->
        option_map Reveal.slots (OrganizerPage.reveal w)
        = Some (Reveal.podium_slots (Reveal.height_of 140 110 80) (podium r)))
  /\ (forall w r,
        PlayerPage.state w = PlayerPage.REVEAL ->
        PlayerPage.roundResult w = Some r ->
        option_map Reveal.slots (PlayerPage.reveal w)
        = Some (Reveal.podium_slots (Reveal.height_of 140 110 80) (podium r)))
  /\ (forall w r,
        SpectatorPage.joined w = true ->
        SpectatorPage.gameState w = "REVEAL" ->
        SpectatorPage.roundResult w = Some r ->
        option_map Reveal.slots (SpectatorPage.reveal w)
        = Some (Reveal.podium_slots (Reveal.height_of 160 120 90) (podium r))).
Proof.
  split; [|split; [|split; [|split]]].
  - intros heights pod. split.
    + destruct pod as [|a [|b [|c rest]]]; reflexivity.
    + intros i. symmetry. apply nth_error_None.
  - intros r. unfold Reveal.height_of.
    split; destruct (Z.eqb r 1), (Z.eqb r 2), (Z.eqb r 3); reflexivity.
  - intros w r S R. unfold OrganizerPage.reveal. rewrite S, R. reflexivity.
  - intros w r S R. unfold PlayerPage.reveal. rewrite S, R. reflexivity.
  - intros w r J S R. unfold SpectatorPage.reveal. rewrite J, S, R. reflexivity.
Qed.

End ClientFacts.


Lemma room_gone_stops_reconnecting_witness :
  OrganizerPage.reconnects
    (OrganizerPage.step OrganizerPage.Close
       (OrganizerPage.step
          (OrganizerPage.Message (Protocol.ERROR "Invalid organizer token"))
          OrganizerPage.first_reveal))
  = 0%nat.
Proof.
  destruct (room_gone_stops_reconnecting Js.trim_ascii) as [_ H].
  destruct (H "Invalid organizer token" OrganizerPage.first_reveal) as (_ & _ & _ & R & _).
  - right. left. reflexivity.
  - rewrite R. vm_compute. reflexivity.
Defined.

Lemma breakdown_visibility_witness :
  option_map Reveal.breakdown
    (SpectatorPage.reveal
       (SpectatorPage.onmessage
          (Protocol.ROUND_RESULT
             (VotingEngine.round_result_for VotingEngine.Spectator
                {| timer_seconds := 30; show_votes := false |}
                (Protocol.round_result_of Sample.result1)))
          (SpectatorPage.initial "ABCD")))
  = Some None
  /\ option_map Reveal.breakdown
       (SpectatorPage.reveal
          (SpectatorPage.onmessage
             (Protocol.ROUND_RESULT
                (VotingEngine.round_result_for VotingEngine.Spectator
                   {| timer_seconds := 30; show_votes := true |}
                   (Protocol.round_result_of Sample.result1)))
             (SpectatorPage.initial "ABCD")))
     = Some (Some [("Alex", "Jordan")]).
Proof.
  split.
  - destruct (breakdown_visibility Js.trim_ascii
                {| timer_seconds := 30; show_votes := false |}
                (Protocol.round_result_of Sample.result1)) as (_ & H & _).
    rewrite H; vm_compute; reflexivity.
  - destruct (breakdown_visibility Js.trim_ascii
                {| timer_seconds := 30; show_votes := true |}
                (Protocol.round_result_of Sample.result1)) as (_ & H & _).
    rewrite H; vm_compute; reflexivity.
Defined.

Lemma reveal_podium_total_witness :
  Reveal.podium_slots (Reveal.height_of 140 110 80) Sample.podium_of_three
  = [ Reveal.EntrySlot {| pe_nickname := "Alex"; pe_avatar := "a";
                          vote_count := 2; rank := 2 |} 110 false;
      Reveal.EntrySlot {| pe_nickname := "Jordan"; pe_avatar := "j";
                          vote_count := 3; rank := 1 |} 140 true;
      Reveal.EntrySlot {| pe_nickname := "Sam"; pe_avatar := "s";
                          vote_count := 1; rank := 3 |} 80 false ]
  /\ option_map Reveal.slots (OrganizerPage.reveal OrganizerPage.first_reveal)
     = Some [ Reveal.EmptySlot 0;
              Reveal.EntrySlot {| pe_nickname := "Jordan"; pe_avatar := "j";
                                  vote_count := 1; rank := 1 |} 140 true;
              Reveal.EmptySlot 2 ].
Proof.
  destruct reveal_podium_total as (P & _ & H & _). split.
  - rewrite (proj1 (P _ _)). vm_compute. reflexivity.
  - rewrite (H OrganizerPage.first_reveal (Protocol.round_result_of Sample.result1));
      vm_compute; reflexivity.
Defined.

(** ** The review screen *)

Section ReviewFacts.

Import ReviewScreen.

Variable trim : string -> string.

Lemma max0_bounds (xs : list Z) :
  (0 <= Js.max0 xs)%Z
  /\ (forall x, In x xs -> (x <= Js.max0 xs)%Z)
  /\ (Js.max0 xs = 0%Z \/ In (Js.max0 xs) xs).
Proof.
  induction xs as [|x xs (IH0 & IHle & IHin)].
  - cbn. repeat split; [lia|tauto|auto].
  - change (Js.max0 (x :: xs)) with (Z.max x (Js.max0 xs)). split; [lia|split].
    + intros y [<-|H]; [lia|]. specialize (IHle y H). lia.
    + destruct (Z.max_spec x (Js.max0 xs)) as [[_ ->]|[_ ->]].
      * destruct IHin; [left; assumption|right; right; assumption].
      * right. left. reflexivity.
Qed.


Lemma filter_id_length (i : Z) (l : list Prompt) :
  NoDup (map id l) ->
  (List.length (filter (fun p => negb (Z.eqb (id p) i)) l)
   + (if existsb (Z.eqb i) (map id l) then 1 else 0) = List.length l)%nat.
Proof.
  induction l as [|p l IH]; cbn; [reflexivity|].
  intros N. inversion N as [|? ? Hn Hl]; subst. specialize (IH Hl).
  rewrite (Z.eqb_sym i (id p)). destruct (Z.eqb_spec (id p) i) as [E|E]; cbn.
  - subst i.
    assert (existsb (Z.eqb (id p)) (map id l) = false) as X.
    { destruct (existsb _ _) eqn:X; [|reflexivity].
      apply existsb_exists in X as (j & Hj & Ej). apply Z.eqb_eq in Ej. subst j. tauto. }
    rewrite X in IH. lia.
  - lia.
Qed.



(** Below 2^53 the sum [maxId + 1] is exact. *)
Lemma plus_one_exact (xs : list Z) :
  Forall Js.safe_integer xs -> Js.plus_one (Js.max0 xs) = (Js.max0 xs + 1)%Z.
Proof.
  intros F. destruct (max0_bounds xs) as (_ & _ & M).
  assert (Js.max0 xs < 2 ^ 53)%Z as L.
  { destruct M as [->|M]; [reflexivity|].
    rewrite Forall_forall in F. apply (F _ M). }
  unfold Js.plus_one. apply Z.ltb_lt in L. rewrite L. reflexivity.
Qed.


End ReviewFacts.



(** ** More on the review screen *)

Section ReviewEdits.

Import ReviewScreen.

Variable trim : string -> string.

Lemma filter_keeps_smaller (i : Z) (l : list Prompt) :
  (forall p, In p l -> (id p < i)%Z) ->
  filter (fun p => negb (Z.eqb (id p) i)) l = l.
Proof.
  induction l as [|p l IH]; intros H; cbn; [reflexivity|].
  assert (Z.eqb (id p) i = false) as -> by (apply Z.eqb_neq; specialize (H p (or_introl eq_refl)); lia).
  cbn. rewrite IH; [reflexivity|]. intros q Hq. apply H. right. exact Hq.
Qed.

(** Adding a prompt to a pack of at least three, whose ids are safe
    integers, and deleting the prompt just added gives back the prompts of
    the pack, in their order. *)
Theorem review_add_then_delete pack s :
  Forall Js.safe_integer (ids pack) ->
  (3 <= List.length (prompts pack))%nat ->
  blank trim (newPromptText s) = false ->
  exists s' added back,
    addPrompt trim pack s = (s', Some added)
    /\ deletePrompt added (Js.max0 (ids pack) + 1) s' = (s', Some back)
    /\ prompts back = prompts pack /\ title back = title pack.
Proof.
  intros F L B. unfold addPrompt. rewrite B. unfold ids in F.
  rewrite (plus_one_exact _ F).
  eexists. eexists. eexists. split; [reflexivity|].
  unfold deletePrompt. cbn [prompts title].
  assert ((List.length (prompts pack ++ [ {| id := Js.max0 (map id (prompts pack)) + 1;
                                              text := trim (newPromptText s) |} ]) <=? 3)%nat
          = false) as ->.
  { apply Nat.leb_gt. rewrite length_app. cbn. lia. }
  split; [reflexivity|]. cbn [prompts title]. split; [|reflexivity].
  unfold ids. rewrite filter_app. cbn. rewrite Z.eqb_refl. cbn. rewrite app_nil_r.
  apply filter_keeps_smaller. intros p Hp.
  destruct (max0_bounds (map id (prompts pack))) as (_ & Mle & _).
  specialize (Mle (id p) (in_map id _ _ Hp)). lia.
Qed.

(** On a pack of at least three prompts with pairwise distinct ids, every
    edit that hands on a pack hands on one of at least three prompts; and
    the delete button is drawn exactly when [deletePrompt] would hand on a
    pack. *)
Theorem review_keeps_three_prompts pack s :
  NoDup (ids pack) -> (3 <= List.length (prompts pack))%nat ->
  (forall s' updated,
      saveEdit trim pack s = (s', Some updated) ->
      List.length (prompts updated) = List.length (prompts pack))
  /\ (forall i s' updated,
        deletePrompt pack i s = (s', Some updated) ->
        (3 <= List.length (prompts updated))%nat)
  /\ (forall s' updated,
        addPrompt trim pack s = (s', Some updated) ->
        List.length (prompts updated) = S (List.length (prompts pack)))
  /\ (forall i, delete_shown pack = true <-> snd (deletePrompt pack i s) <> None).
Proof.
  intros N L. split; [|split; [|split]].
  - intros s' updated. unfold saveEdit. destruct (blank trim (editText s)); [discriminate|].
    intros H. inversion H; subst. cbn. apply length_map.
  - intros i s' updated. unfold deletePrompt.
    destruct (Nat.leb_spec (List.length (prompts pack)) 3) as [G|G]; [discriminate|].
    intros H. inversion H; subst. cbn.
    pose proof (filter_id_length i (prompts pack) N) as F.
    destruct (existsb (Z.eqb i) (map id (prompts pack))); lia.
  - intros s' updated. unfold addPrompt. destruct (blank trim (newPromptText s)); [discriminate|].
    intros H. inversion H; subst. cbn. rewrite length_app. cbn. lia.
  - intros i. unfold delete_shown, deletePrompt.
    destruct (Nat.leb_spec (List.length (prompts pack)) 3) as [G|G]; cbn [snd].
    + split; [|congruence]. intros H. apply Nat.ltb_lt in H. lia.
    + split; [discriminate|]. intros _. apply Nat.ltb_lt. lia.
Qed.

Lemma map_own_prompt (p : Prompt) (l : list Prompt) :
  NoDup (map id l) -> In p l ->
  map (fun q => if is_editing (Some (id p)) q then {| id := id q; text := text p |} else q) l
  = l.
Proof.
  intros N H. rewrite <- (map_id l) at 2. apply map_ext_in. intros q Hq.
  unfold is_editing. destruct (Z.eqb_spec (id q) (id p)) as [E|E]; [|reflexivity].
  assert (q = p) as ->; [|destruct p; reflexivity].
  clear - N H Hq E. induction l as [|x l IH]; [destruct H|].
  cbn in N. inversion N as [|? ? Hx Hl]; subst.
  destruct H as [->|H], Hq as [->|Hq]; auto.
  - exfalso. apply Hx. rewrite <- E. apply in_map, Hq.
  - exfalso. apply Hx. rewrite E. apply in_map, H.
Qed.

(** Opening a prompt of the pack for editing and saving it as it stands
    hands on the same prompts, when its text is not blank and has no
    white space to trim, and leaves no prompt open for editing. *)
Theorem review_save_unchanged_text pack p s :
  NoDup (ids pack) -> In p (prompts pack) ->
  blank trim (text p) = false -> trim (text p) = text p ->
  exists updated,
    saveEdit trim pack (startEdit p s) = (cancelEdit s, Some updated)
    /\ prompts updated = prompts pack /\ title updated = title pack.
Proof.
  intros N H B T. unfold saveEdit, startEdit, cancelEdit.
  assert (editText (s{{ editingId := Some (id p); editText := text p }}) = text p) as ->
    by (destruct s; reflexivity).
  assert (editingId (s{{ editingId := Some (id p); editText := text p }}) = Some (id p)) as ->
    by (destruct s; reflexivity).
  rewrite B, T. eexists. split; [destruct s; reflexivity|].
  cbn [prompts title]. split; [|reflexivity]. apply map_own_prompt; assumption.
Qed.

End ReviewEdits.

Lemma review_add_then_delete_witness :
  exists s' added back,
    ReviewScreen.addPrompt Js.trim_ascii Sample.pack3
      (ReviewScreen.typing_new " Who snores? ") = (s', Some added)
    /\ ReviewScreen.deletePrompt added 4 s' = (s', Some back)
    /\ prompts back = prompts Sample.pack3 /\ title back = title Sample.pack3.
Proof.
  apply (review_add_then_delete Js.trim_ascii Sample.pack3
           (ReviewScreen.typing_new " Who snores? ")).
  - repeat constructor; vm_compute; discriminate.
  - cbn. lia.
  - vm_compute. reflexivity.
Defined.

Lemma review_keeps_three_prompts_witness :
  NoDup (ReviewScreen.ids Sample.pack3)
  /\ (ReviewScreen.delete_shown Sample.pack3 = true
      <-> snd (ReviewScreen.deletePrompt Sample.pack3 1 ReviewScreen.initial) <> None).
Proof.
  assert (NoDup (ReviewScreen.ids Sample.pack3)) as N.
  { unfold ReviewScreen.ids. cbn. repeat constructor; cbn; intuition discriminate. }
  split; [exact N|].
  apply (review_keeps_three_prompts Js.trim_ascii Sample.pack3 ReviewScreen.initial).
  - exact N.
  - cbn. lia.
Defined.

Lemma review_save_unchanged_text_witness :
  exists updated,
    ReviewScreen.saveEdit Js.trim_ascii Sample.pack3
      (ReviewScreen.startEdit {| id := 2; text := "Who is always late?" |}
         ReviewScreen.initial)
    = (ReviewScreen.cancelEdit ReviewScreen.initial, Some updated)
    /\ prompts updated = prompts Sample.pack3 /\ title updated = title Sample.pack3.
Proof.
  apply (review_save_unchanged_text Js.trim_ascii Sample.pack3
           {| id := 2; text := "Who is always late?" |} ReviewScreen.initial).
  - unfold ReviewScreen.ids. cbn. repeat constructor; cbn; intuition discriminate.
  - cbn. auto.
  - vm_compute. reflexivity.
  - vm_compute. reflexivity.
Defined.

(** ** The room code screen of the spectator page *)

Section SpectatorFacts.

Import SpectatorPage.

Variable toUpperCase : string -> string.
Variable trim : string -> string.

Lemma keep_every f s : Js.every f (Js.keep f s) = true.
Proof.
  induction s as [|a s IH]; cbn; [reflexivity|].
  destruct (f a) eqn:F; cbn; [rewrite F, IH; reflexivity|exact IH].
Qed.

Lemma take_every f n s : Js.every f s = true -> Js.every f (Js.take n s) = true.
Proof.
  revert s. induction n as [|n IH]; intros s; [reflexivity|].
  destruct s as [|a s]; cbn; [reflexivity|].
  intros H. apply andb_prop in H as [-> H]. cbn. apply IH, H.
Qed.

Lemma take_length n s : (String.length (Js.take n s) <= n)%nat.
Proof.
  revert s. induction n as [|n IH]; intros s; [cbn; lia|].
  destruct s as [|a s]; cbn; [lia|]. specialize (IH s). lia.
Qed.

Lemma onmessage_room msg w :
  roomInput (onmessage msg w) = roomInput w /\ roomCode (onmessage msg w) = roomCode w
  /\ joined (onmessage msg w) = joined w.
Proof. destruct msg; destruct w; cbn; auto. Qed.

(** Whatever is typed or pasted, the room code input holds at most six
    characters, all of them capital letters or digits.  On a page that was
    opened without a room in its address, and with [toUpperCase] and [trim]
    leaving such text as it is, the page has joined only with what the input
    held: a room code of four to six capital letters and digits. *)
Theorem spectator_room_code_shape evs :
  let w := run toUpperCase trim evs (initial "") in
  (code_shaped (roomInput w) /\ (String.length (roomInput w) <= 6)%nat)
  /\ ((forall s, code_shaped s -> toUpperCase s = s /\ trim s = s) ->
      joined w = true ->
      code_shaped (roomCode w) /\ (4 <= String.length (roomCode w) <= 6)%nat).
Proof.
  cbn zeta. unfold code_shaped.
  assert (forall w,
            Js.every is_code_char (roomInput w) = true /\ (String.length (roomInput w) <= 6)%nat ->
            Js.every is_code_char (roomInput (run toUpperCase trim evs w)) = true
            /\ (String.length (roomInput (run toUpperCase trim evs w)) <= 6)%nat) as G1.
  { induction evs as [|e evs IH]; intros w H; [exact H|].
    cbn [run fold_left]. apply IH. destruct e; cbn [step].
    - destruct (joined w); [exact H|]. unfold onRoomInput. destruct w; cbn -[Js.take].
      split; [apply take_every, keep_every|apply take_length].
    - destruct (joined w); [exact H|]. unfold handleJoinRoom.
      destruct (_ <? _)%nat; [exact H|]. destruct w; exact H.
    - destruct (joined w); [exact H|]. destruct (watch_disabled _ w); [exact H|].
      unfold handleJoinRoom. destruct (_ <? _)%nat; [exact H|]. destruct w; exact H.
    - destruct (connected w); [|exact H].
      destruct (onmessage_room msg w) as (-> & _). exact H.
    - destruct (connected w); [|exact H]. destruct w; exact H.
    - destruct (connected w); [|exact H]. destruct w; exact H.
    - destruct (_ && _); [|exact H]. destruct w; cbn. split; [reflexivity|lia]. }
  split; [apply G1; cbn; split; [reflexivity|lia]|].
  intros Fix.
  assert (forall w,
            (Js.every is_code_char (roomInput w) = true /\ (String.length (roomInput w) <= 6)%nat)
            /\ (joined w = true ->
                Js.every is_code_char (roomCode w) = true /\ (4 <= String.length (roomCode w) <= 6)%nat) ->
            joined (run toUpperCase trim evs w) = true ->
            Js.every is_code_char (roomCode (run toUpperCase trim evs w)) = true
            /\ (4 <= String.length (roomCode (run toUpperCase trim evs w)) <= 6)%nat) as G2.
  { clear G1. induction evs as [|e evs IH]; intros w [H J]; [exact J|].
    cbn [run fold_left]. apply IH.
    assert (forall v,
              v = handleJoinRoom toUpperCase trim w -> joined w = false ->
              (Js.every is_code_char (roomInput v) = true /\ (String.length (roomInput v) <= 6)%nat)
              /\ (joined v = true ->
                  Js.every is_code_char (roomCode v) = true /\ (4 <= String.length (roomCode v) <= 6)%nat))
      as Join.
    { intros v -> Jw. unfold handleJoinRoom.
      destruct (Fix (roomInput w) (proj1 H)) as [U T]. rewrite T, U.
      destruct (Nat.ltb_spec (String.length (roomInput w)) 4) as [L|L].
      - split; [exact H|]. congruence.
      - destruct w; cbn in *. split; [exact H|]. intros _. split; [tauto|lia]. }
    destruct e; cbn [step].
    - destruct (joined w) eqn:Jw; [tauto|]. unfold onRoomInput. split.
      + destruct w; cbn -[Js.take].
        split; [apply take_every, keep_every|apply take_length].
      + destruct w; cbn in *. congruence.
    - destruct (joined w) eqn:Jw; [tauto|]. apply Join; auto.
    - destruct (joined w) eqn:Jw; [tauto|].
      destruct (watch_disabled _ w); [split; [exact H|congruence]|]. apply Join; auto.
    - destruct (connected w); [|tauto].
      destruct (onmessage_room msg w) as (-> & -> & ->). tauto.
    - destruct (connected w); [|tauto]. destruct w; cbn in *. tauto.
    - destruct (connected w); [|tauto]. destruct w; cbn in *. tauto.
    - destruct (_ && _); [|tauto]. destruct w; cbn in *.
      split; [split; [reflexivity|lia]|discriminate]. }
  apply G2. cbn. split; [split; [reflexivity|lia]|discriminate].
Qed.

End SpectatorFacts.

(** [Js.upper_ascii] and [Js.trim_ascii] leave capital letters and digits
    as they are. *)
Lemma code_char_fixed a :
  SpectatorPage.is_code_char a = true -> Js.upper_char a = a /\ Js.is_space a = false.
Proof.
  destruct a as [[] [] [] [] [] [] [] []]; vm_compute; intros H;
    first [discriminate H | split; reflexivity].
Qed.

Lemma code_shaped_fixed s :
  SpectatorPage.code_shaped s -> Js.upper_ascii s = s /\ Js.trim_ascii s = s.
Proof.
  unfold SpectatorPage.code_shaped, Js.trim_ascii. intros H.
  assert (Js.upper_ascii s = s /\ Js.trim_end s = s) as [U E].
  { induction s as [|a s IH]; [split; reflexivity|].
    cbn [Js.every] in H. apply andb_prop in H as [Ha Hs].
    destruct (code_char_fixed a Ha) as [Ua Sa]. destruct (IH Hs) as [U E].
    cbn [Js.upper_ascii Js.trim_end]. rewrite Ua, U, E, Sa.
    split; [reflexivity|]. destruct s; reflexivity. }
  split; [exact U|].
  destruct s as [|a s]; [reflexivity|].
  cbn [Js.every] in H. apply andb_prop in H as [Ha _].
  destruct (code_char_fixed a Ha) as [_ Sa].
  cbn [Js.trim_start]. rewrite Sa. exact E.
Qed.

Lemma spectator_room_code_shape_witness :
  SpectatorPage.roomInput
    (SpectatorPage.run Js.upper_ascii Js.trim_ascii
       [ SpectatorPage.TypeRoom " ab-c9 xyz"; SpectatorPage.ClickWatch ]
       (SpectatorPage.initial "")) = "ABC9XY"
  /\ SpectatorPage.joined
       (SpectatorPage.run Js.upper_ascii Js.trim_ascii
          [ SpectatorPage.TypeRoom " ab-c9 xyz"; SpectatorPage.ClickWatch ]
          (SpectatorPage.initial "")) = true
  /\ SpectatorPage.code_shaped
       (SpectatorPage.roomCode
          (SpectatorPage.run Js.upper_ascii Js.trim_ascii
             [ SpectatorPage.TypeRoom " ab-c9 xyz"; SpectatorPage.ClickWatch ]
             (SpectatorPage.initial ""))).
Proof.
  split; [vm_compute; reflexivity|]. split; [vm_compute; reflexivity|].
  apply (spectator_room_code_shape Js.upper_ascii Js.trim_ascii
           [ SpectatorPage.TypeRoom " ab-c9 xyz"; SpectatorPage.ClickWatch ]).
  - exact code_shaped_fixed.
  - vm_compute. reflexivity.
Defined.

(** ** The settings of the sound manager *)

Section SoundFacts.

Import SoundManager.

Lemma item_is_String_of b s : item_is (Some (String_of b)) s = String.eqb (String_of b) s.
Proof. reflexivity. Qed.

Lemma toggle_keeps_stored k m store :
  constructor store = m ->
  constructor (snd (toggle k (m, store))) = fst (toggle k (m, store)).
Proof.
  intros <-. destruct k, store as [mu vi]; unfold toggle, toggleMute, toggleVibration,
    constructor; cbn.
  - destruct (item_is mu "true"); reflexivity.
  - destruct (item_is vi "false"); reflexivity.
Qed.

(** A manager made from the storage and the storage stay in step under any
    sequence of toggles: a manager made afresh from the storage (a reload)
    has the settings the toggles left.  Each toggle flips its setting and
    hands back the new value, and leaves the other setting alone.  With
    nothing stored, sound is on and vibration is on. *)
Theorem sound_settings_survive_reload store ks :
  constructor (snd (toggles ks (constructor store, store)))
  = fst (toggles ks (constructor store, store))
  /\ (forall m st,
        muted (fst (fst (toggleMute m st))) = negb (muted m)
        /\ snd (toggleMute m st) = negb (muted m)
        /\ vibrationEnabled (fst (fst (toggleMute m st))) = vibrationEnabled m
        /\ vibrationEnabled (fst (fst (toggleVibration m st))) = negb (vibrationEnabled m)
        /\ snd (toggleVibration m st) = negb (vibrationEnabled m)
        /\ muted (fst (fst (toggleVibration m st))) = muted m)
  /\ constructor {| MUTE_KEY := None; VIBRATE_KEY := None |}
     = {| muted := false; vibrationEnabled := true |}.
Proof.
  split; [|split; [|reflexivity]].
  - assert (forall ms, constructor (snd ms) = fst ms ->
                       constructor (snd (toggles ks ms)) = fst (toggles ks ms)) as G.
    { induction ks as [|k ks IH]; intros ms H; [exact H|].
      cbn [toggles fold_left]. apply IH. destruct ms as [m st]. cbn in H.
      apply toggle_keeps_stored, H. }
    apply G. reflexivity.
  - intros m st. destruct m; cbn. repeat split.
Qed.

(** No pattern reaches the vibration motor while vibration is switched
    off, and two presses of Vibration restore the setting. *)
Theorem vibration_off_is_silent supported pattern m st :
  vibrationEnabled m = false ->
  vibrate supported pattern m = None
  /\ vibrate true pattern (fst (fst (toggleVibration m st))) = Some pattern
  /\ vibrationEnabled
       (fst (toggles [Vibration; Vibration] (m, st))) = vibrationEnabled m.
Proof.
  intros V. destruct m as [mu vi]. cbn in V. subst vi. repeat split.
Qed.

End SoundFacts.

Lemma vibration_off_is_silent_witness :
  SoundManager.vibrate true [100%Z; 50%Z; 100%Z]
    (SoundManager.constructor
       {| SoundManager.MUTE_KEY := None; SoundManager.VIBRATE_KEY := Some "false" |})
  = None.
Proof.
  apply (vibration_off_is_silent true [100%Z; 50%Z; 100%Z]
           (SoundManager.constructor
              {| SoundManager.MUTE_KEY := None; SoundManager.VIBRATE_KEY := Some "false" |})
           {| SoundManager.MUTE_KEY := None; SoundManager.VIBRATE_KEY := Some "false" |}).
  reflexivity.
Defined.
